(** * Trojan Defender: scan orchestration, threat-level aggregation and
      the central exception handler, as a shallow embedding.

    Sources embedded here:
    - [backend/scanner/utils.py]  : [scan_with_clamav], [compile_yara_rules],
      [scan_with_yara], [determine_threat_level], [scan_with_virustotal];
    - [backend/scanner/tasks.py]  : [scan_file],
      [determine_threat_level_with_virustotal], [send_scan_status_update],
      [cleanup_old_files];
    - [backend/scanner/signals.py]: [update_scan_result_threat_level],
      [notify_scan_completion];
    - [backend/scanner/views.py]  : [ScanResultViewSet.threats], [status],
      [report], [FileUploadView.create];
    - [backend/scanner/models.py] : [ScanResult.ScanStatus],
      [ScanResult.ThreatLevel];
    - [backend/trojan_defender/exceptions.py]: [custom_exception_handler].

    Python values are dynamically typed, and part of what the code does
    depends on it (a dict handed to a function that iterates over a list
    of dicts), so engine results are kept as Python values rather than as
    records.  Exceptions are explicit: a computation returns [Ok v] or
    [Raise e]. *)

From Stdlib Require Import String Ascii List ZArith Lia Bool Arith DecimalString.
Import ListNotations.
Open Scope string_scope.

(** ** Python values *)

Set Warnings "-register-all".

(** A dict is kept as an association list in insertion order, which is the
    order Python iterates it in; keys are always [str] in this code. *)
Inductive pyval : Type :=
| PNone : pyval
| PBool (b : bool) : pyval
| PInt (z : Z) : pyval
| PStr (s : string) : pyval
| PList (l : list pyval) : pyval
| PDict (d : list (string * pyval)) : pyval.

(** ** Exceptions *)

Inductive exc_class : Type :=
| AttributeError | TypeError | KeyError | ValueError
| OSError | ConnectionError | ImportError
| DoesNotExist | DatabaseError
| YaraError | YaraSyntaxError | YaraTimeoutError
| RuntimeError
| CeleryRetry.

Record exn : Type := mkExn { exn_class : exc_class; exn_msg : string }.

(** [isinstance(e, cls)] for the classes the handlers of the scanner name.
    Every class above derives from [Exception]; [ConnectionError] derives
    from [OSError]; yara's [SyntaxError] and [TimeoutError] derive from
    [yara.Error]. *)
Definition subclass (c parent : exc_class) : bool :=
  match c, parent with
  | AttributeError, AttributeError | TypeError, TypeError
  | KeyError, KeyError | ValueError, ValueError
  | OSError, OSError | ConnectionError, ConnectionError
  | ConnectionError, OSError
  | ImportError, ImportError
  | DoesNotExist, DoesNotExist | DatabaseError, DatabaseError
  | YaraError, YaraError | YaraSyntaxError, YaraSyntaxError
  | YaraTimeoutError, YaraTimeoutError
  | YaraSyntaxError, YaraError | YaraTimeoutError, YaraError
  | RuntimeError, RuntimeError
  | CeleryRetry, CeleryRetry => true
  | _, _ => false
  end.

Inductive result (A : Type) : Type :=
| Ok (a : A)
| Raise (e : exn).
Arguments Ok {A} a.
Arguments Raise {A} e.

Definition rbind {A B} (m : result A) (k : A -> result B) : result B :=
  match m with
  | Ok a => k a
  | Raise e => Raise e
  end.

Declare Scope py_scope.
Delimit Scope py_scope with py.
Notation "x <- m ;; k" := (rbind m (fun x => k))
  (at level 61, m at next level, right associativity) : py_scope.
Notation "m ;;; k" := (rbind m (fun _ => k))
  (at level 61, right associativity) : py_scope.
Open Scope py_scope.

(** [try: m  except Exception as e: h e] *)
Definition try_except {A} (m : result A) (h : exn -> result A) : result A :=
  match m with
  | Ok a => Ok a
  | Raise e => h e
  end.

(** [a and b] and [a or b] on conditions that may raise: the right operand
    is only evaluated when the left one does not decide. *)
Definition and_then (a b : result bool) : result bool :=
  x <- a ;; if x then b else Ok false.
Definition or_else (a b : result bool) : result bool :=
  x <- a ;; if x then Ok true else b.

(** ** Builtins used by the scanner *)

Fixpoint assoc (k : string) (d : list (string * pyval)) : option pyval :=
  match d with
  | [] => None
  | (k', v) :: r => if String.eqb k k' then Some v else assoc k r
  end.

(** [obj.get(key, default)]: only dicts have the method. *)
Definition py_get (obj : pyval) (key : string) (default : pyval) : result pyval :=
  match obj with
  | PDict d => Ok (match assoc key d with Some v => v | None => default end)
  | _ => Raise (mkExn AttributeError "object has no attribute 'get'")
  end.

(** [obj[key]] with a string key. *)
Definition py_getitem (obj : pyval) (key : string) : result pyval :=
  match obj with
  | PDict d => match assoc key d with
               | Some v => Ok v
               | None => Raise (mkExn KeyError key)
               end
  | PList _ => Raise (mkExn TypeError "list indices must be integers or slices, not str")
  | PStr _ => Raise (mkExn TypeError "string indices must be integers")
  | _ => Raise (mkExn TypeError "object is not subscriptable")
  end.

Definition py_len (obj : pyval) : result nat :=
  match obj with
  | PList l => Ok (List.length l)
  | PDict d => Ok (List.length d)
  | PStr s => Ok (String.length s)
  | _ => Raise (mkExn TypeError "object has no len()")
  end.

Fixpoint chars (s : string) : list pyval :=
  match s with
  | EmptyString => []
  | String c r => PStr (String c EmptyString) :: chars r
  end.

(** [for x in obj]: a list gives its elements, a dict its keys, a string
    its characters. *)
Definition py_iter (obj : pyval) : result (list pyval) :=
  match obj with
  | PList l => Ok l
  | PDict d => Ok (map (fun kv => PStr (fst kv)) d)
  | PStr s => Ok (chars s)
  | _ => Raise (mkExn TypeError "object is not iterable")
  end.

(** [isinstance(v, dict)] *)
Definition is_dict (v : pyval) : bool :=
  match v with PDict _ => true | _ => false end.

(** [v == 'literal'] *)
Definition py_eq_str (v : pyval) (s : string) : bool :=
  match v with
  | PStr s' => String.eqb s' s
  | _ => false
  end.

(** Truth value of an object. *)
Definition py_truthy (v : pyval) : bool :=
  match v with
  | PNone => false
  | PBool b => b
  | PInt z => negb (Z.eqb z 0)
  | PStr s => negb (String.eqb s "")
  | PList l => match l with [] => false | _ => true end
  | PDict d => match d with [] => false | _ => true end
  end.

(** [any(f(x) for x in l)]: stops at the first true. *)
Fixpoint any_m {A} (f : A -> result bool) (l : list A) : result bool :=
  match l with
  | [] => Ok false
  | x :: r => b <- f x ;; if b then Ok true else any_m f r
  end.

(** [sum(1 for x in l if f(x))] *)
Fixpoint count_m {A} (f : A -> result bool) (l : list A) : result nat :=
  match l with
  | [] => Ok 0
  | x :: r => b <- f x ;; n <- count_m f r ;; Ok (if b then S n else n)
  end.

(** [threat.get('severity') == 'high'] *)
Definition severity_is_high (threat : pyval) : result bool :=
  s <- py_get threat "severity" PNone ;; Ok (py_eq_str s "high").

(** [obj.get('status') == lit] *)
Definition status_is (obj : pyval) (lit : string) : result bool :=
  s <- py_get obj "status" PNone ;; Ok (py_eq_str s lit).

(** ** Threat-level determination *)

(** [scanner/tasks.py], [determine_threat_level_with_virustotal]. *)
Definition determine_threat_level_with_virustotal
    (clamav_result yara_result virustotal_threats : pyval) : result string :=
  cths <- py_get clamav_result "threats" (PList []) ;;
  clamav_threats <- py_len cths ;;
  yths <- py_get yara_result "threats" (PList []) ;;
  yara_threats <- py_len yths ;;
  vt_threats <- py_len virustotal_threats ;;
  (* Check for errors *)
  all_error <- and_then (status_is clamav_result "error")
                 (and_then (status_is yara_result "error")
                           (Ok (Nat.eqb vt_threats 0))) ;;
  if all_error then Ok "unknown" else
  (* High threat: Any engine detected malware *)
  malware <- or_else (status_is clamav_result "infected")
               (l <- py_iter virustotal_threats ;; any_m severity_is_high l) ;;
  if malware then Ok "high" else
  (* Medium threat: Multiple detections or suspicious patterns *)
  let total_detections := clamav_threats + yara_threats + vt_threats in
  if (3 <=? total_detections)%nat then Ok "high"
  else if (1 <=? total_detections)%nat then
    ys <- (t <- py_get yara_result "threats" (PList []) ;; py_iter t) ;;
    hy <- count_m severity_is_high ys ;;
    vs <- py_iter virustotal_threats ;;
    hv <- count_m severity_is_high vs ;;
    let high_severity_count := hy + hv in
    if (0 <? high_severity_count)%nat then Ok "high"
    else if (2 <=? total_detections)%nat then Ok "medium"
    else Ok "low"
  else
  (* Clean: No threats detected *)
  Ok "clean".

(** [scanner/utils.py], [determine_threat_level]. *)
Definition determine_threat_level (clamav_result yara_result : pyval)
  : result string :=
  cths <- py_get clamav_result "threats" (PList []) ;;
  clamav_threats <- py_len cths ;;
  yths <- py_get yara_result "threats" (PList []) ;;
  yara_threats <- py_len yths ;;
  (* Check for errors *)
  all_error <- and_then (status_is clamav_result "error")
                        (status_is yara_result "error") ;;
  if all_error then Ok "unknown" else
  (* High threat: ClamAV detected malware *)
  infected <- status_is clamav_result "infected" ;;
  if infected then Ok "high" else
  (* Medium threat: YARA detected suspicious patterns *)
  suspicious <- status_is yara_result "suspicious" ;;
  if suspicious then
    ys <- (t <- py_get yara_result "threats" (PList []) ;; py_iter t) ;;
    high_severity_count <- count_m severity_is_high ys ;;
    if (0 <? high_severity_count)%nat then Ok "high"
    else if (3 <=? yara_threats)%nat then Ok "medium"
    else Ok "low"
  else
  (* Clean: No threats detected *)
  Ok "clean".

(** An engine result as the scanners build it. *)
Definition mk_result (status message : string) (threats : list pyval) : pyval :=
  PDict [("status", PStr status); ("message", PStr message);
         ("threats", PList threats)].

(** ** The environment of a scan

    Everything outside the Python code is an oracle of the [world]: the
    file system, the ClamAV daemon, the yara library, the VirusTotal client,
    the database.  Each oracle can answer with an exception wherever the
    real call can raise one. *)

(** One pass of the connection loop of [scan_with_clamav]:
    [pyclamd.ClamdAgnostic(...)] followed by [cd.ping()]. *)
Inductive clamd_attempt : Type :=
| ConnRaises (e : exn)
| PingFalse
| PingTrue.

(** [cd.scan_file(path)]: [None], or a dict from file name to a pair
    (['FOUND'], signature) or (['ERROR'], reason). *)
Inductive clamd_scan : Type :=
| ScanRaises (e : exn)
| ScanNone
| ScanDict (entries : list (string * (string * string))).

Record YaraRule : Type := mkYaraRule {
  rule_name : string;
  rule_content : string;
  rule_is_active : bool
}.

(** A [yara.Match] with its [yara.StringMatch]es and their instances. *)
(** The decoded text of an instance,
    [matched_data.decode('utf-8', errors='replace')], is kept as the list of
    its code points, each one given by its UTF-8 bytes, so that a slice
    counts code points and not bytes. *)
Record yara_instance : Type := mkInstance {
  inst_offset : Z;
  inst_matched_data : list string;
  inst_matched_length : Z
}.
Record yara_string_match : Type := mkStringMatch {
  sm_identifier : string;
  sm_instances : list yara_instance
}.
(** Reading [match.strings] and the attributes of its elements raises with
    a yara-python whose string matches are plain tuples. *)
Record yara_match : Type := mkMatch {
  m_rule : string;
  m_namespace : string;
  m_tags : list string;
  m_strings : result (list yara_string_match)
}.

(** What [scan_file_with_virustotal] returns: on every path of
    [VirusTotalScanner.scan_file] a dict with ['status'], ['message'] and a
    list under ['threats'] (and further keys nobody reads). *)
Record vt_report : Type := mkVtReport {
  vt_status : string;
  vt_message : string;
  vt_threats : list pyval
}.

(** [ScanResult.objects.get(id=scan_id)] *)
Inductive get_outcome : Type :=
| GetFound
| GetDoesNotExist
| GetRaises (e : exn).

Record world : Type := mkWorld {
  (* file system *)
  path_exists : string -> bool;
  path_readable : string -> bool;
  path_getsize : string -> result Z;
  (* ClamAV daemon, by attempt number *)
  clamd_connect : nat -> clamd_attempt;
  clamd_scan_file : string -> clamd_scan;
  (* YaraRule table, and the query of the active rules by call of
     [compile_yara_rules] and attempt number *)
  yara_rules_table : list YaraRule;
  yara_query_fails : nat -> nat -> option exn;
  (* [yara.compile(sources=rules_dict)], by call number *)
  yara_compile : nat -> list (string * string) -> option exn;
  (* [compiled_rules.match(file_path, timeout=60)] *)
  yara_match_file : list (string * string) -> string -> result (list yara_match);
  (* settings *)
  setting_YARA_MAX_FILE_SIZE : option Z;
  setting_VIRUSTOTAL_ENABLED : option bool;
  (* [scan_file_with_virustotal(file_path)] *)
  virustotal_scan : string -> result vt_report;
  (* database: fetching and saving the ScanResult, by call number *)
  db_get : nat -> get_outcome;
  db_save_fails : nat -> option exn
}.

Definition str_of_nat (n : nat) : string :=
  NilEmpty.string_of_uint (Nat.to_uint n).

(** ** ClamAV  ([scanner/utils.py], [scan_with_clamav]) *)

Definition max_retries : nat := 3.

(** The connection loop, [for attempt in range(max_retries)].  [None] means
    the loop was left (by [break] or by exhaustion) and the scan goes on;
    [Some r] is the early [return r] of the last failed attempt.  The sleeps
    between attempts have no effect on the result. *)
Fixpoint clamav_connect_loop (w : world) (n attempt : nat) : option pyval :=
  match n with
  | 0 => None
  | S n' =>
    match clamd_connect w attempt with
    | PingTrue => None
    | PingFalse => clamav_connect_loop w n' (S attempt)
    | ConnRaises conn_error =>
      if (attempt <? max_retries - 1)%nat then clamav_connect_loop w n' (S attempt)
      else Some (mk_result "error"
                   ("ClamAV daemon not available after " ++ str_of_nat max_retries
                    ++ " attempts: " ++ exn_msg conn_error) [])
    end
  end.

(** One entry of ClamAV's answer, turned into a threat when it is a ['FOUND']. *)
Definition clamav_threat (file_path_result signature : string) : pyval :=
  PDict [("name", PStr signature);
         ("threat_type", PStr "malware");
         ("description", PStr ("ClamAV detected: " ++ signature));
         ("location", PStr file_path_result);
         ("detection_engine", PStr "ClamAV");
         ("detection_rule", PStr signature);
         ("severity", PStr "high")].

Fixpoint clamav_parse (entries : list (string * (string * string))) : list pyval :=
  match entries with
  | [] => []
  | (file_path_result, threat_info) :: r =>
    if String.eqb (fst threat_info) "FOUND"
    then clamav_threat file_path_result (snd threat_info) :: clamav_parse r
    else clamav_parse r
  end.

Definition scan_with_clamav_body (w : world) (file_path : string) : result pyval :=
  match clamav_connect_loop w max_retries 0 with
  | Some r => Ok r
  | None =>
    (* Verify file exists and is readable *)
    if negb (path_exists w file_path) then
      Ok (mk_result "error" ("File not found: " ++ file_path) [])
    else if negb (path_readable w file_path) then
      Ok (mk_result "error" ("File not readable: " ++ file_path) [])
    else
      (* Scan file *)
      match clamd_scan_file w file_path with
      | ScanRaises e => Raise e
      | ScanNone => Ok (mk_result "clean" "No threats detected by ClamAV" [])
      | ScanDict entries =>
        let threats := clamav_parse entries in
        let status := match threats with [] => "clean" | _ => "infected" end in
        let message := "ClamAV scan completed. Found "
                       ++ str_of_nat (List.length threats) ++ " threats." in
        Ok (mk_result status message threats)
      end
  end.

Definition scan_with_clamav (w : world) (file_path : string) : result pyval :=
  try_except (scan_with_clamav_body w file_path)
    (fun e => Ok (mk_result "error" ("ClamAV scan failed: " ++ exn_msg e) [])).

(** ** YARA  ([scanner/utils.py], [compile_yara_rules], [scan_with_yara]) *)

(** How a retry loop is left: it falls through to the code after it with a
    value, or the enclosing function returns. *)
Inductive flow (A R : Type) : Type :=
| Next (a : A)
| Return (r : R).
Arguments Next {A R} a.
Arguments Return {A R} r.

(** String helpers, on ASCII text. *)
Definition is_space (c : ascii) : bool :=
  let n := nat_of_ascii c in
  ((9 <=? n) && (n <=? 13) || (28 <=? n) && (n <=? 32))%nat.

(** [not s or not s.strip()] *)
Fixpoint blank (s : string) : bool :=
  match s with
  | EmptyString => true
  | String c r => is_space c && blank r
  end.

(** [sub in s] *)
Fixpoint contains (sub s : string) : bool :=
  if String.prefix sub s then true
  else match s with
       | EmptyString => false
       | String _ r => contains sub r
       end.

Definition lower_ascii (c : ascii) : ascii :=
  let n := nat_of_ascii c in
  if ((65 <=? n) && (n <=? 90))%nat then ascii_of_nat (n + 32) else c.

Fixpoint lower (s : string) : string :=
  match s with
  | EmptyString => EmptyString
  | String c r => String (lower_ascii c) (lower r)
  end.

Definition str_of_Z (z : Z) : string :=
  NilEmpty.string_of_int (Z.to_int z).

(** [d[k] = v] on a dict of strings. *)
Fixpoint dict_set (d : list (string * string)) (k v : string) : list (string * string) :=
  match d with
  | [] => [(k, v)]
  | (k', v') :: r => if String.eqb k k' then (k, v) :: r else (k', v') :: dict_set r k v
  end.

(** The query loop of [compile_yara_rules].  The last pass either breaks or
    returns, so the loop is never exhausted with [active_rules] unbound; were
    it, the [UnboundLocalError] would reach the outer handler, which returns
    [None]. *)
Fixpoint yara_query_loop (w : world) (call n attempt : nat)
  : flow (list YaraRule) (option (list (string * string))) :=
  match n with
  | 0 => Return None
  | S n' =>
    match yara_query_fails w call attempt with
    | None => Next (filter rule_is_active (yara_rules_table w))
    | Some db_error =>
      if (attempt <? max_retries - 1)%nat then yara_query_loop w call n' (S attempt)
      else Return None
    end
  end.

(** The validation pass that fills [rules_dict]. *)
Definition yara_rules_dict (active_rules : list YaraRule) : list (string * string) :=
  fold_left
    (fun rules_dict rule =>
       if blank (rule_content rule) then rules_dict
       else if negb (contains "rule " (rule_content rule)) then rules_dict
       else dict_set rules_dict (rule_name rule) (rule_content rule))
    active_rules [].

(** A compiled [yara.Rules] object is identified with the sources it was
    compiled from; it is a truthy object. *)
Definition compile_yara_rules_body (w : world) (call : nat)
  : result (option (list (string * string))) :=
  match yara_query_loop w call max_retries 0 with
  | Return r => Ok r
  | Next active_rules =>
    match active_rules with
    | [] => Ok None                         (* not active_rules.exists() *)
    | _ :: _ =>
      let rules_dict := yara_rules_dict active_rules in
      match rules_dict with
      | [] => Ok None                       (* no valid rule *)
      | _ :: _ =>
        match yara_compile w call rules_dict with
        | None => Ok (Some rules_dict)
        | Some e =>
          if subclass (exn_class e) YaraSyntaxError then Ok None
          else if subclass (exn_class e) YaraError then Ok None
          else Raise e
        end
      end
    end
  end.

Definition compile_yara_rules (w : world) (call : nat)
  : result (option (list (string * string))) :=
  try_except (compile_yara_rules_body w call) (fun _ => Ok None).

(** The compile loop of [scan_with_yara]; [compiled_rules] starts as [None]. *)
Fixpoint yara_compile_loop (w : world) (n attempt : nat)
  : flow (option (list (string * string))) pyval :=
  match n with
  | 0 => Next None
  | S n' =>
    match compile_yara_rules w attempt with
    | Ok (Some compiled_rules) => Next (Some compiled_rules)
    | Ok None => yara_compile_loop w n' (S attempt)
    | Raise compile_error =>
      if (attempt <? max_retries - 1)%nat then yara_compile_loop w n' (S attempt)
      else Return (mk_result "error"
                     ("YARA rules compilation failed after " ++ str_of_nat max_retries
                      ++ " attempts") [])
    end
  end.

Definition tag_in (words : list string) (tag : string) : bool :=
  existsb (String.eqb (lower tag)) words.

(** Severity of a match from its tags. *)
Definition yara_severity (tags : list string) : string :=
  if existsb (tag_in ["critical"; "high"; "malware"; "trojan"; "virus"]) tags then "high"
  else if existsb (tag_in ["low"; "info"; "suspicious"]) tags then "low"
  else "medium".

Definition yara_instance_dict (i : yara_instance) : pyval :=
  PDict [("offset", PInt (inst_offset i));
         ("matched_data", PStr (String.concat "" (firstn 100 (inst_matched_data i))));
         ("matched_length", PInt (inst_matched_length i))].

Definition yara_string_match_dict (sm : yara_string_match) : pyval :=
  PDict [("identifier", PStr (sm_identifier sm));
         ("instances", PList (map yara_instance_dict (firstn 5 (sm_instances sm))))].

Definition yara_threat (file_path : string) (m : yara_match)
    (string_matches : list yara_string_match) : pyval :=
  let rule_name := m_rule m in
  let tags := m_tags m in
  PDict [("name", PStr rule_name);
         ("threat_type", PStr "pattern_match");
         ("description", PStr ("YARA rule match: " ++ rule_name));
         ("location", PStr file_path);
         ("detection_engine", PStr "YARA");
         ("detection_rule", PStr rule_name);
         ("severity", PStr (yara_severity tags));
         ("namespace", PStr (m_namespace m));
         ("tags", PList (map PStr tags));
         ("string_matches", PList (map yara_string_match_dict string_matches))].

(** The loop over the matches: a match whose processing raises is logged and
    skipped ([continue]). *)
Fixpoint yara_threats (file_path : string) (matches : list yara_match)
  : list pyval :=
  match matches with
  | [] => []
  | m :: r =>
    match m_strings m with
    | Ok string_matches =>
      yara_threat file_path m string_matches :: yara_threats file_path r
    | Raise match_error => yara_threats file_path r
    end
  end.

(** [Threat.objects.create(name=..., ..., file_path=..., metadata=...)]:
    [Threat] is [ScanThreat], which has no field [file_path] or [metadata],
    so the constructor raises [TypeError] and no row is written. *)
Definition Threat_objects_create (threat_data : pyval) : result unit :=
  Raise (mkExn TypeError
           "ScanThreat() got unexpected keyword arguments: 'file_path', 'metadata'").

(** The loop that creates the threat entries, each in its own [try]. *)
Fixpoint create_threat_entries (threats : list pyval) : result unit :=
  match threats with
  | [] => Ok tt
  | threat_data :: r =>
    try_except (Threat_objects_create threat_data) (fun db_error => Ok tt) ;;;
    create_threat_entries r
  end.

Definition default_YARA_MAX_FILE_SIZE : Z := 100 * 1024 * 1024.

Definition scan_with_yara_body (w : world) (file_path : string) : result pyval :=
  match yara_compile_loop w max_retries 0 with
  | Return r => Ok r
  | Next None =>
    Ok (mk_result "clean" "No YARA rules available for scanning" [])
  | Next (Some compiled_rules) =>
    (* Verify file exists and is readable *)
    if negb (path_exists w file_path) then
      Ok (mk_result "error" ("File not found: " ++ file_path) [])
    else if negb (path_readable w file_path) then
      Ok (mk_result "error" ("File not readable: " ++ file_path) [])
    else
      (* Check file size *)
      too_large <-
        match path_getsize w file_path with
        | Ok file_size =>
          let max_file_size :=
            match setting_YARA_MAX_FILE_SIZE w with
            | Some m => m
            | None => default_YARA_MAX_FILE_SIZE
            end in
          if (file_size >? max_file_size)%Z
          then Ok (Some (mk_result "skipped"
                           ("File too large for YARA scan: " ++ str_of_Z file_size
                            ++ " bytes") []))
          else Ok None
        | Raise size_error =>
          if subclass (exn_class size_error) OSError then Ok None
          else Raise size_error
        end ;;
      match too_large with
      | Some r => Ok r
      | None =>
        (* Scan file with YARA *)
        match yara_match_file w compiled_rules file_path with
        | Raise e =>
          if subclass (exn_class e) YaraTimeoutError then
            Ok (mk_result "error" "YARA scan timeout" [])
          else if subclass (exn_class e) YaraError then
            Ok (mk_result "error" ("YARA scan error: " ++ exn_msg e) [])
          else Raise e
        | Ok matches =>
          (* Process matches *)
          let threats := yara_threats file_path matches in
          (* Create threat entries in database *)
          (match threats with
           | [] => Ok tt
           | _ :: _ => create_threat_entries threats
           end) ;;;
          let status := match threats with [] => "clean" | _ => "infected" end in
          let message := "YARA scan completed. Found "
                         ++ str_of_nat (List.length threats) ++ " threats." in
          Ok (mk_result status message threats)
        end
      end
  end.

Definition scan_with_yara (w : world) (file_path : string) : result pyval :=
  try_except (scan_with_yara_body w file_path)
    (fun e => Ok (mk_result "error" ("YARA scan failed: " ++ exn_msg e) [])).

(** ** VirusTotal  ([scanner/utils.py], [scan_with_virustotal]) *)

(** Returns the list of threats, and [[]] on an error, a pending analysis or
    any exception. *)
Definition scan_with_virustotal (w : world) (file_path : string) : result pyval :=
  try_except
    (report <- virustotal_scan w file_path ;;
     let res := mk_result (vt_status report) (vt_message report)
                          (vt_threats report) in
     st <- py_getitem res "status" ;;
     if py_eq_str st "error" then
       py_getitem res "message" ;;; Ok (PList [])
     else
       st' <- py_getitem res "status" ;;
       if py_eq_str st' "pending" then
         py_getitem res "message" ;;; Ok (PList [])
       else py_get res "threats" (PList []))
    (fun e => Ok (PList [])).

(** ** The ScanResult model  ([scanner/models.py]) *)

Module ScanStatus.
Definition PENDING : string := "pending".
Definition SCANNING : string := "scanning".
Definition COMPLETED : string := "completed".
Definition FAILED : string := "failed".
Definition values : list string := [PENDING; SCANNING; COMPLETED; FAILED].
End ScanStatus.

Module ThreatLevel.
Definition CLEAN : string := "clean".
Definition LOW : string := "low".
Definition MEDIUM : string := "medium".
Definition HIGH : string := "high".
Definition CRITICAL : string := "critical".
Definition values : list string := [CLEAN; LOW; MEDIUM; HIGH; CRITICAL].
End ThreatLevel.

(** The columns of a ScanResult row the scan task and the signal handler
    touch.  [status] and [threat_level] are [CharField]s: [choices] are not
    enforced by [save()], so any string can be stored. *)
Record ScanResultRow : Type := mkRow {
  row_status : string;
  row_threat_level : string;
  row_storage_path : option string        (* null=True *)
}.

(** A ScanResult instance in memory: the columns, and the attributes
    [scan_file] sets on the object, which are not columns. *)
Record ScanResult : Type := mkScanResult {
  status : string;
  threat_level : string;
  storage_path : option string;
  error_message : option string;
  threats_found : option nat;
  scan_results : option pyval
}.

Definition instance_of_row (r : ScanResultRow) : ScanResult :=
  mkScanResult (row_status r) (row_threat_level r) (row_storage_path r)
               None None None.

Definition row_of_instance (o : ScanResult) : ScanResultRow :=
  mkRow (status o) (threat_level o) (storage_path o).

Definition set_status (o : ScanResult) (s : string) : ScanResult :=
  mkScanResult s (threat_level o) (storage_path o) (error_message o)
               (threats_found o) (scan_results o).

Definition set_error_message (o : ScanResult) (m : option string) : ScanResult :=
  mkScanResult (status o) (threat_level o) (storage_path o) m
               (threats_found o) (scan_results o).

Definition set_threat_level (o : ScanResult) (l : string) : ScanResult :=
  mkScanResult (status o) l (storage_path o) (error_message o)
               (threats_found o) (scan_results o).

Definition set_threats_found (o : ScanResult) (n : nat) : ScanResult :=
  mkScanResult (status o) (threat_level o) (storage_path o) (error_message o)
               (Some n) (scan_results o).

Definition set_scan_results (o : ScanResult) (r : pyval) : ScanResult :=
  mkScanResult (status o) (threat_level o) (storage_path o) (error_message o)
               (threats_found o) (Some r).

(** ** The state of the system around one scan *)

Inductive engine : Type := ClamAV | YARA | VirusTotal.

Inductive event : Type :=
| EngineCall (e : engine) (file_path : string)
| StatusUpdate (scan_id status message : string)
| DbSave (row : ScanResultRow)
| Sleep (seconds : nat)
| RetryTask (countdown : nat).

Record sys_state : Type := mkState {
  db_row : ScanResultRow;            (* the stored ScanResult *)
  scan_threats : list string;        (* severities of its ScanThreat rows *)
  task_instance : option ScanResult; (* the task's object, as of its last save() *)
  trace : list event;                (* what happened, oldest first *)
  n_get : nat;                       (* calls of objects.get so far *)
  n_save : nat                       (* calls of save() so far *)
}.

(** Computations of the task: state and exceptions. *)
Definition M (A : Type) : Type := sys_state -> result A * sys_state.

Definition ret {A} (a : A) : M A := fun st => (Ok a, st).
Definition raise {A} (e : exn) : M A := fun st => (Raise e, st).
Definition tbind {A B} (m : M A) (k : A -> M B) : M B :=
  fun st => match m st with
            | (Ok a, st') => k a st'
            | (Raise e, st') => (Raise e, st')
            end.
Definition lift {A} (r : result A) : M A := fun st => (r, st).

(** [try: m  except Exception as e: h e] in the task. *)
Definition try_catch {A} (m : M A) (h : exn -> M A) : M A :=
  fun st => match m st with
            | (Ok a, st') => (Ok a, st')
            | (Raise e, st') => h e st'
            end.

Declare Scope task_scope.
Delimit Scope task_scope with task.
Notation "x <- m ;; k" := (tbind m (fun x => k))
  (at level 61, m at next level, right associativity) : task_scope.
Notation "m ;;; k" := (tbind m (fun _ => k))
  (at level 61, right associativity) : task_scope.

Definition emit (e : event) : M unit :=
  fun st => (Ok tt, mkState (db_row st) (scan_threats st) (task_instance st)
                            (trace st ++ [e]) (n_get st) (n_save st)).

(** [ScanResult.objects.get(id=scan_id)] *)
Definition objects_get (w : world) : M ScanResult :=
  fun st =>
    let st' := mkState (db_row st) (scan_threats st) (task_instance st)
                       (trace st) (S (n_get st)) (n_save st) in
    match db_get w (n_get st) with
    | GetFound => (Ok (instance_of_row (db_row st)), st')
    | GetDoesNotExist =>
      (Raise (mkExn DoesNotExist "ScanResult matching query does not exist."), st')
    | GetRaises e => (Raise e, st')
    end.

(** [scan_result.save()]: writes every column of the instance.  The
    post_save receiver of ScanResult, [notify_scan_completion], only sends
    notifications and catches its own exceptions. *)
Definition save (w : world) (o : ScanResult) : M unit :=
  fun st =>
    match db_save_fails w (n_save st) with
    | Some e =>
      (Raise e, mkState (db_row st) (scan_threats st) (Some o)
                        (trace st) (n_get st) (S (n_save st)))
    | None =>
      (Ok tt, mkState (row_of_instance o) (scan_threats st) (Some o)
                      (trace st ++ [DbSave (row_of_instance o)])
                      (n_get st) (S (n_save st)))
    end.

(** [send_scan_status_update]: every exception of the channel layer is caught
    inside, so the call never raises; the event stands for the request to
    publish. *)
Definition send_scan_status_update (scan_id status message : string) : M unit :=
  emit (StatusUpdate scan_id status message).

(** ** The scan task  ([scanner/tasks.py], [scan_file]) *)

Definition max_db_retries : nat := 3.
Definition task_max_retries : nat := 3.     (* @shared_task(max_retries=3) *)

Open Scope task_scope.

(** Fetching the ScanResult, [for attempt in range(max_db_retries)]; both
    [except] clauses re-raise on the last attempt and sleep otherwise.  The
    loop cannot be exhausted; if it were, [scan_result] would still be [None]
    and the next statement would raise. *)
Fixpoint get_scan_result_loop (w : world) (n attempt retry_delay : nat)
  : M ScanResult :=
  match n with
  | 0 => raise (mkExn AttributeError "'NoneType' object has no attribute 'status'")
  | S n' =>
    try_catch (objects_get w)
      (fun e =>
         if Nat.eqb attempt (max_db_retries - 1) then raise e
         else emit (Sleep retry_delay) ;;;
              get_scan_result_loop w n' (S attempt) (retry_delay * 2))
  end.

(** One engine block of [scan_file]: the engine's result is kept unless the
    call, or reading ['status'] (and ['message'] on an error) for the log,
    raises; then the entry is the error dict of the [except] clause. *)
Definition engine_step (label : string) (call : result pyval) : pyval :=
  match (engine_result <- call ;;
         st <- py_getitem engine_result "status" ;;
         (if py_eq_str st "error"
          then py_getitem engine_result "message" ;;; Ok tt
          else Ok tt) ;;;
         Ok engine_result)%py with
  | Ok v => v
  | Raise e => mk_result "error" (label ++ " scan failed: " ++ exn_msg e) []
  end.

Definition skipped_result : pyval :=
  PDict [("status", PStr "skipped"); ("threats", PList [])].

(** [for engine, result in scan_results.items(): if result.get('threats'):
    all_threats.extend(result['threats'])] *)
Fixpoint collect_threats (results : list pyval) : result (list pyval) :=
  match results with
  | [] => Ok []
  | res :: r =>
    (t <- py_get res "threats" PNone ;;
     here <- (if py_truthy t
              then t' <- py_getitem res "threats" ;; py_iter t'
              else Ok []) ;;
     rest <- collect_threats r ;;
     Ok (here ++ rest)%list)%py
  end.

Definition file_failure (w : world) (scan_id : string) (scan_result : ScanResult)
    (error_msg : string) : M unit :=
  let scan_result := set_error_message (set_status scan_result "failed")
                                       (Some error_msg) in
  save w scan_result ;;;
  send_scan_status_update scan_id "failed" error_msg.

(** The [try] block of [scan_file].  The timestamps [started_at] and
    [completed_at] are attributes of the object only and are left out. *)
Definition scan_file_body (w : world) (scan_id : string) : M unit :=
  scan_result <- get_scan_result_loop w max_db_retries 0 1 ;;
  (* Update scan status to running *)
  let scan_result := set_status scan_result "running" in
  save w scan_result ;;;
  (* Send status update *)
  try_catch (send_scan_status_update scan_id "running" "Scan in progress...")
            (fun ws_error => ret tt) ;;;
  match storage_path scan_result with
  | None =>
    (* os.path.exists(None) *)
    raise (mkExn TypeError
             "stat: path should be string, bytes, os.PathLike or integer, not NoneType")
  | Some file_path =>
    (* Validate file exists and is accessible *)
    if negb (path_exists w file_path) then
      file_failure w scan_id scan_result ("File not found: " ++ file_path)
    else if negb (path_readable w file_path) then
      file_failure w scan_id scan_result ("File not readable: " ++ file_path)
    else
      (* ClamAV scan with error handling *)
      emit (EngineCall ClamAV file_path) ;;;
      let clamav := engine_step "ClamAV" (scan_with_clamav w file_path) in
      (* YARA scan with error handling *)
      emit (EngineCall YARA file_path) ;;;
      let yara := engine_step "YARA" (scan_with_yara w file_path) in
      (* VirusTotal scan with error handling (if enabled) *)
      virustotal <-
        (if match setting_VIRUSTOTAL_ENABLED w with Some b => b | None => false end
         then emit (EngineCall VirusTotal file_path) ;;;
              ret (engine_step "VirusTotal" (scan_with_virustotal w file_path))
         else ret skipped_result) ;;
      (* Determine overall threat level *)
      let threat_level :=
        match determine_threat_level_with_virustotal clamav yara virustotal with
        | Ok l => l
        | Raise threat_error => "unknown"
        end in
      (* Collect all threats *)
      all_threats <- lift (collect_threats [clamav; yara; virustotal]) ;;
      (* Update scan result *)
      let scan_result :=
        set_error_message
          (set_scan_results
             (set_threats_found
                (set_threat_level (set_status scan_result "completed") threat_level)
                (List.length all_threats))
             (PDict [("clamav", clamav); ("yara", yara); ("virustotal", virustotal)]))
          None in
      saved <-
        try_catch (save w scan_result ;;; ret true)
          (fun save_error =>
             let msg := "Failed to save results: " ++ exn_msg save_error in
             try_catch
               (save w (set_error_message (set_status scan_result "failed") (Some msg)))
               (fun final_save_error => ret tt) ;;;
             send_scan_status_update scan_id "failed" msg ;;;
             ret false) ;;
      if saved then
        (* Send completion notification *)
        try_catch
          (send_scan_status_update scan_id "completed"
             ("Scan completed: " ++ threat_level ++ " threat level"))
          (fun ws_error => ret tt)
      else ret tt
  end.

(** [scan_file(self, scan_id)], with [retries] for [self.request.retries]. *)
Definition scan_file (w : world) (retries : nat) (scan_id : string) : M unit :=
  try_catch (scan_file_body w scan_id)
    (fun e =>
       if subclass (exn_class e) DoesNotExist then
         send_scan_status_update scan_id "failed"
           ("Scan result with ID " ++ scan_id ++ " not found")
       else
         let error_msg := "Scan task failed: " ++ exn_msg e in
         (* Try to update scan result status *)
         try_catch
           (scan_result <- objects_get w ;;
            save w (set_error_message (set_status scan_result "failed")
                                      (Some error_msg)))
           (fun update_error => ret tt) ;;;
         (* Send failure notification *)
         try_catch (send_scan_status_update scan_id "failed" error_msg)
                   (fun ws_error => ret tt) ;;;
         (* Retry the task if retries are available *)
         if (retries <? task_max_retries)%nat then
           emit (RetryTask (60 * 2 ^ retries)) ;;;
           raise (mkExn CeleryRetry ("Retry in " ++ str_of_nat (60 * 2 ^ retries) ++ "s"))
         else raise e).

(** ** The post_save handler of ScanThreat  ([scanner/signals.py]) *)

Definition str_in (s : string) (l : list string) : bool :=
  existsb (String.eqb s) l.

(** [scan_result.save(update_fields=['threat_level'])]: writes that column
    of the row from the object; the write is taken to succeed. *)
Definition save_threat_level (scan_result : ScanResult) (st : sys_state) : sys_state :=
  let row := mkRow (row_status (db_row st)) (threat_level scan_result)
                   (row_storage_path (db_row st)) in
  mkState row (scan_threats st) (task_instance st)
          (trace st ++ [DbSave row]) (n_get st) (n_save st).

(** [update_scan_result_threat_level(sender, instance, created)].
    [scan_result = instance.scan_result] is the object the threat was created
    with: the caller's in-memory ScanResult, which the handler does not
    refresh from the database; [scan_result.threats.all()] is a query.  The
    handler assigns to the object and saves it; the object as it is
    afterwards is returned with the state. *)
Definition update_scan_result_threat_level (created : bool) (scan_result : ScanResult)
    (st : sys_state) : ScanResult * sys_state :=
  if created then
    (* Get all threats for this scan *)
    let severities := scan_threats st in
    let level := threat_level scan_result in
    (* Update threat level if needed *)
    if str_in ThreatLevel.CRITICAL severities
       && negb (String.eqb level ThreatLevel.CRITICAL) then
      let scan_result := set_threat_level scan_result ThreatLevel.CRITICAL in
      (scan_result, save_threat_level scan_result st)
    else if str_in ThreatLevel.HIGH severities
            && negb (str_in level [ThreatLevel.CRITICAL; ThreatLevel.HIGH]) then
      let scan_result := set_threat_level scan_result ThreatLevel.HIGH in
      (scan_result, save_threat_level scan_result st)
    else if str_in ThreatLevel.MEDIUM severities
            && negb (str_in level [ThreatLevel.CRITICAL; ThreatLevel.HIGH;
                                   ThreatLevel.MEDIUM]) then
      let scan_result := set_threat_level scan_result ThreatLevel.MEDIUM in
      (scan_result, save_threat_level scan_result st)
    else if String.eqb level ThreatLevel.CLEAN then
      let scan_result := set_threat_level scan_result ThreatLevel.LOW in
      (scan_result, save_threat_level scan_result st)
    else (scan_result, st)
  else (scan_result, st).

(** [ScanThreat.objects.create(scan_result=scan_result, severity=...)]: the
    row is inserted, then post_save runs the handler with [created=True] on
    the threat, whose [scan_result] is the object given by the caller. *)
Definition ScanThreat_objects_create (scan_result : ScanResult) (severity : string)
    (st : sys_state) : ScanResult * sys_state :=
  update_scan_result_threat_level true scan_result
    (mkState (db_row st) (scan_threats st ++ [severity]) (task_instance st)
             (trace st) (n_get st) (n_save st)).

(** The operations on one scan: a threat row is added by a caller holding
    the object [scan_result], or the scan task runs. *)
Inductive op : Type :=
| AddThreat (scan_result : ScanResult) (severity : string)
| RunScan (w : world) (retries : nat) (scan_id : string).

Definition step (o : op) (st : sys_state) : sys_state :=
  match o with
  | AddThreat scan_result severity =>
    snd (ScanThreat_objects_create scan_result severity st)
  | RunScan w retries scan_id => snd (scan_file w retries scan_id st)
  end.

Definition run (ops : list op) (st : sys_state) : sys_state :=
  fold_left (fun s o => step o s) ops st.

(** Position of a level in [clean < low < medium < high < critical]. *)
Definition level_rank (l : string) : option nat :=
  if String.eqb l ThreatLevel.CLEAN then Some 0
  else if String.eqb l ThreatLevel.LOW then Some 1
  else if String.eqb l ThreatLevel.MEDIUM then Some 2
  else if String.eqb l ThreatLevel.HIGH then Some 3
  else if String.eqb l ThreatLevel.CRITICAL then Some 4
  else None.

Close Scope task_scope.

(** ** The central exception handler  ([trojan_defender/exceptions.py]) *)

Module Exceptions.

(** The application's exception classes; each derives from
    [TrojanDefenderException] and from nothing else of this list. *)
Inductive td_class : Type :=
| TrojanDefenderException
| ScannerException
| ThreatIntelligenceException
| AuthenticationException
| ValidationException
| RateLimitException
| FileUploadException
| ExternalAPIException.

Definition td_class_eqb (a b : td_class) : bool :=
  match a, b with
  | TrojanDefenderException, TrojanDefenderException
  | ScannerException, ScannerException
  | ThreatIntelligenceException, ThreatIntelligenceException
  | AuthenticationException, AuthenticationException
  | ValidationException, ValidationException
  | RateLimitException, RateLimitException
  | FileUploadException, FileUploadException
  | ExternalAPIException, ExternalAPIException => true
  | _, _ => false
  end.

(** [isinstance(exc, cls)] inside the family. *)
Definition td_isinstance (c cls : td_class) : bool :=
  match cls with
  | TrojanDefenderException => true
  | _ => td_class_eqb c cls
  end.

Record td_exception : Type := mkTd {
  td_cls : td_class;
  message : pyval;
  error_code : pyval;
  details : pyval
}.

(** [TrojanDefenderException.__init__(message, error_code=None, details=None)] *)
Definition init (cls : td_class) (message error_code details : pyval)
  : td_exception :=
  mkTd cls message error_code
       (if py_truthy details then details else PDict []).

Inductive exception : Type :=
| TdException (e : td_exception)
| DjangoValidationError (messages : list string)
| IntegrityError (msg : string)
| DatabaseError (msg : string)
| Http404 (msg : string)
| PermissionDenied (msg : string)
| APIException (status_code : Z) (detail : pyval)
| OtherException (msg : string).

Record Response : Type := mkResponse {
  data : pyval;
  status_code : Z
}.

Definition HTTP_400_BAD_REQUEST : Z := 400.
Definition HTTP_401_UNAUTHORIZED : Z := 401.
Definition HTTP_404_NOT_FOUND : Z := 404.
Definition HTTP_413_REQUEST_ENTITY_TOO_LARGE : Z := 413.
Definition HTTP_429_TOO_MANY_REQUESTS : Z := 429.
Definition HTTP_500_INTERNAL_SERVER_ERROR : Z := 500.
Definition HTTP_502_BAD_GATEWAY : Z := 502.

(** The module logger's handlers, as the ['timestamp'] entry reads them:
    [logger.handlers[0].formatter.formatTime(...) if logger.handlers else None].
    A handler whose [formatter] is [None] makes the expression raise. *)
Inductive logger_handlers : Type :=
| NoHandlers
| FirstHandlerFormats (time : string)
| FirstHandlerWithoutFormatter.

Definition timestamp (h : logger_handlers) : result pyval :=
  match h with
  | NoHandlers => Ok PNone
  | FirstHandlerFormats t => Ok (PStr t)
  | FirstHandlerWithoutFormatter =>
    Raise (mkExn AttributeError "'NoneType' object has no attribute 'formatTime'")
  end.

(** [get_error_code] *)
Definition get_error_code (status_code : Z) : string :=
  (if status_code =? 400 then "BAD_REQUEST"
   else if status_code =? 401 then "UNAUTHORIZED"
   else if status_code =? 403 then "FORBIDDEN"
   else if status_code =? 404 then "NOT_FOUND"
   else if status_code =? 405 then "METHOD_NOT_ALLOWED"
   else if status_code =? 406 then "NOT_ACCEPTABLE"
   else if status_code =? 409 then "CONFLICT"
   else if status_code =? 410 then "GONE"
   else if status_code =? 413 then "REQUEST_ENTITY_TOO_LARGE"
   else if status_code =? 415 then "UNSUPPORTED_MEDIA_TYPE"
   else if status_code =? 422 then "UNPROCESSABLE_ENTITY"
   else if status_code =? 429 then "TOO_MANY_REQUESTS"
   else if status_code =? 500 then "INTERNAL_SERVER_ERROR"
   else if status_code =? 501 then "NOT_IMPLEMENTED"
   else if status_code =? 502 then "BAD_GATEWAY"
   else if status_code =? 503 then "SERVICE_UNAVAILABLE"
   else if status_code =? 504 then "GATEWAY_TIMEOUT"
   else "UNKNOWN_ERROR")%Z.

Section Handler.

(** The builtin [str()]. *)
Variable py_str : pyval -> string.

(** [get_error_message] *)
Fixpoint first_field_error (items : list (string * pyval)) : option string :=
  match items with
  | [] => None
  | (key, PList (v0 :: _)) :: _ => Some (key ++ ": " ++ py_str v0)
  | _ :: r => first_field_error r
  end.

Definition get_error_message (data : pyval) : string :=
  match data with
  | PDict d =>
    match assoc "detail" d, assoc "message" d, assoc "error" d with
    | Some v, _, _ => py_str v
    | None, Some v, _ => py_str v
    | None, None, Some v => py_str v
    | None, None, None =>
      match first_field_error d with
      | Some m => m
      | None => "An error occurred"
      end
    end
  | PList (v0 :: _) => py_str v0
  | _ => if py_truthy data then py_str data else "An error occurred"
  end.

(** REST framework's own [exception_handler]: a response for its
    [APIException]s and for Django's [Http404] and [PermissionDenied],
    [None] for anything else. *)
Definition exception_handler (exc : exception) : option Response :=
  match exc with
  | APIException code detail =>
    Some (mkResponse
            (match detail with
             | PList _ | PDict _ => detail
             | _ => PDict [("detail", detail)]
             end) code)
  | Http404 _ => Some (mkResponse (PDict [("detail", PStr "Not found.")]) 404)
  | PermissionDenied _ =>
    Some (mkResponse
            (PDict [("detail",
                     PStr "You do not have permission to perform this action.")]) 403)
  | _ => None
  end.

Definition error_body (fields : list (string * pyval)) : pyval :=
  PDict [("error", PDict fields)].

(** [custom_exception_handler(exc, context)]; the logging call has no
    effect on the response. *)
Definition custom_exception_handler (h : logger_handlers) (exc : exception)
  : result (option Response) :=
  (* Get the standard error response *)
  let response := exception_handler exc in
  match exc with
  | TdException e =>
    (* Handle custom exceptions *)
    (ts <- timestamp h ;;
     let custom_response_data :=
       error_body [("message", message e);
                   ("code", if py_truthy (error_code e) then error_code e
                            else PStr "UNKNOWN_ERROR");
                   ("details", details e);
                   ("timestamp", ts)] in
     (* Determine status code based on exception type *)
     let status_code :=
       if td_isinstance (td_cls e) ValidationException then HTTP_400_BAD_REQUEST
       else if td_isinstance (td_cls e) AuthenticationException
       then HTTP_401_UNAUTHORIZED
       else if td_isinstance (td_cls e) RateLimitException
       then HTTP_429_TOO_MANY_REQUESTS
       else if td_isinstance (td_cls e) FileUploadException
       then HTTP_413_REQUEST_ENTITY_TOO_LARGE
       else if td_isinstance (td_cls e) ExternalAPIException
       then HTTP_502_BAD_GATEWAY
       else HTTP_500_INTERNAL_SERVER_ERROR in
     Ok (Some (mkResponse custom_response_data status_code)))%py
  | DjangoValidationError messages =>
    Ok (Some (mkResponse
                (error_body
                   [("message", PStr "Validation error");
                    ("code", PStr "VALIDATION_ERROR");
                    ("details",
                     PDict [("validation_errors", PList (map PStr messages))])])
                HTTP_400_BAD_REQUEST))
  | IntegrityError msg =>
    Ok (Some (mkResponse
                (error_body
                   [("message", PStr "Database integrity error");
                    ("code", PStr "INTEGRITY_ERROR");
                    ("details", PDict [("database_error", PStr msg)])])
                HTTP_400_BAD_REQUEST))
  | DatabaseError _ =>
    Ok (Some (mkResponse
                (error_body
                   [("message", PStr "Database error occurred");
                    ("code", PStr "DATABASE_ERROR");
                    ("details", PDict [])])
                HTTP_500_INTERNAL_SERVER_ERROR))
  | Http404 _ =>
    Ok (Some (mkResponse
                (error_body
                   [("message", PStr "Resource not found");
                    ("code", PStr "NOT_FOUND");
                    ("details", PDict [])])
                HTTP_404_NOT_FOUND))
  | _ =>
    (* Enhance standard DRF error responses *)
    match response with
    | Some r =>
      Ok (Some (mkResponse
                  (error_body
                     [("message", PStr (get_error_message (data r)));
                      ("code", PStr (get_error_code (status_code r)));
                      ("details", if is_dict (data r) then data r
                                  else PDict [("detail", data r)])])
                  (status_code r)))
    | None => Ok None
    end
  end.

End Handler.

End Exceptions.

(** ** Vocabulary of the statements *)

(** A well-formed engine result: a dict whose ['threats'] entry, when there
    is one, is a list of dicts. *)
Definition engine_result_ok (r : pyval) : bool :=
  match r with
  | PDict d =>
    match assoc "threats" d with
    | Some (PList l) => forallb is_dict l
    | Some _ => false
    | None => true
    end
  | _ => false
  end.

(** The findings (threat entries) of an engine result. *)
Definition findings (r : pyval) : list pyval :=
  match r with
  | PDict d => match assoc "threats" d with Some (PList l) => l | _ => [] end
  | _ => []
  end.

Definition has_status (r : pyval) (s : string) : bool :=
  match status_is r s with Ok b => b | Raise _ => false end.

Definition high_severity (threat : pyval) : bool :=
  match severity_is_high threat with Ok b => b | Raise _ => false end.

Definition is_engine_call (e : event) : bool :=
  match e with EngineCall _ _ => true | _ => false end.

(** Statuses the task wrote to the database, oldest first. *)
Fixpoint saved_statuses (t : list event) : list string :=
  match t with
  | [] => []
  | DbSave row :: r => row_status row :: saved_statuses r
  | _ :: r => saved_statuses r
  end.

(** A world in which everything works: the daemon answers the first ping,
    the file is there, no YARA rule is active, VirusTotal is off, the
    database answers.  ClamAV's verdict is the parameter. *)
Definition calm_world (verdict : clamd_scan) : world :=
  mkWorld (fun _ => true) (fun _ => true) (fun _ => Ok 10%Z)
          (fun _ => PingTrue) (fun _ => verdict)
          [] (fun _ _ => None) (fun _ _ => None) (fun _ _ => Ok [])
          None None (fun _ => Ok (mkVtReport "clean" "No threats detected" []))
          (fun _ => GetFound) (fun _ => None).

(** The same world with the uploaded file gone from the disk. *)
Definition missing_file_world : world :=
  mkWorld (fun _ => false) (fun _ => false)
          (fun _ => Raise (mkExn OSError "No such file or directory"))
          (fun _ => PingTrue) (fun _ => ScanNone)
          [] (fun _ _ => None) (fun _ _ => None) (fun _ _ => Ok [])
          None None (fun _ => Ok (mkVtReport "clean" "No threats detected" []))
          (fun _ => GetFound) (fun _ => None).

(** ClamAV's answer for the EICAR test file. *)
Definition eicar_verdict (path : string) : clamd_scan :=
  ScanDict [(path, ("FOUND", "Eicar-Test-Signature"))].

(** A freshly uploaded scan: pending, clean, file stored at [path]. *)
Definition uploaded (path : string) : sys_state :=
  mkState (mkRow ScanStatus.PENDING ThreatLevel.CLEAN (Some path)) [] None [] 0 0.

(** What [determine_threat_level_with_virustotal] computes on well-formed
    arguments, as one expression. *)
Definition level_of_counts (c y : pyval) (v : list pyval) : string :=
  let n := (List.length (findings c) + List.length (findings y) + List.length v)%nat in
  if has_status c "error" && has_status y "error" && Nat.eqb (List.length v) 0
  then "unknown"
  else if has_status c "infected" || existsb high_severity v then "high"
  else if (3 <=? n)%nat then "high"
  else if (1 <=? n)%nat then
    if (0 <? List.length (filter high_severity (findings y))
             + List.length (filter high_severity v))%nat then "high"
    else if (2 <=? n)%nat then "medium" else "low"
  else "clean".

(** The same for the two-engine [determine_threat_level]. *)
Definition level_of_two (c y : pyval) : string :=
  if has_status c "error" && has_status y "error" then "unknown"
  else if has_status c "infected" then "high"
  else if has_status y "suspicious" then
    if (0 <? List.length (filter high_severity (findings y)))%nat then "high"
    else if (3 <=? List.length (findings y))%nat then "medium" else "low"
  else "clean".

(** The shape every return statement of the two scanners has: the three
    keys, with findings only under status 'infected'. *)
Definition scanner_result (r : pyval) : Prop :=
  exists st msg ths,
    r = mk_result st msg ths /\
    (ths = [] /\ str_in st ["error"; "clean"; "skipped"] = true
     \/ ths <> [] /\ st = "infected").

(** A world in which ClamAV finds nothing and one active YARA rule, without
    tags, matches the file. *)
Definition yara_hit_world : world :=
  mkWorld (fun _ => true) (fun _ => true) (fun _ => Ok 10%Z)
          (fun _ => PingTrue) (fun _ => ScanNone)
          [mkYaraRule "SuspiciousStrings"
                      "rule SuspiciousStrings { condition: true }" true]
          (fun _ _ => None) (fun _ _ => None)
          (fun _ _ => Ok [mkMatch "SuspiciousStrings" "default" [] (Ok [])])
          None None (fun _ => Ok (mkVtReport "clean" "No threats detected" []))
          (fun _ => GetFound) (fun _ => None).

(** The sleeps of the fetch loop before the attempt that finds the row. *)
Definition sleeps (k : nat) : list event :=
  match k with
  | 0 => []
  | 1 => [Sleep 1]
  | _ => [Sleep 1; Sleep 2]
  end.

(** The ScanResult is fetched at attempt [k] of the loop. *)
Definition fetched_at (w : world) (st : sys_state) (k : nat) : Prop :=
  (k < max_db_retries)%nat /\
  db_get w (k + n_get st) = GetFound /\
  forall j, (j < k)%nat -> db_get w (j + n_get st) <> GetFound.

Definition after_fetch (st : sys_state) (k : nat) : sys_state :=
  mkState (db_row st) (scan_threats st) (task_instance st)
          (trace st ++ sleeps k) (S k + n_get st) (n_save st).

Definition virustotal_error_entry : pyval :=
  mk_result "error"
    "VirusTotal scan failed: list indices must be integers or slices, not str" [].

(** The entry of [scan_results] for VirusTotal: never a list of threats. *)
Definition virustotal_entry (w : world) : pyval :=
  if match setting_VIRUSTOTAL_ENABLED w with Some b => b | None => false end
  then virustotal_error_entry else skipped_result.

(** The level [scan_file] stores, given ClamAV's result. *)
Definition scan_file_verdict (c : pyval) : string :=
  if has_status c "infected" then "high" else "unknown".

Definition virustotal_events (w : world) (file_path : string) : list event :=
  if match setting_VIRUSTOTAL_ENABLED w with Some b => b | None => false end
  then [EngineCall VirusTotal file_path] else [].

(** A database that accepts the first write of a task and refuses the
    following ones. *)
Definition flaky_db_world : world :=
  mkWorld (fun _ => true) (fun _ => true) (fun _ => Ok 10%Z)
          (fun _ => PingTrue) (fun _ => ScanNone)
          [] (fun _ _ => None) (fun _ _ => None) (fun _ _ => Ok [])
          None None (fun _ => Ok (mkVtReport "clean" "No threats detected" []))
          (fun _ => GetFound)
          (fun n => match n with
                    | 0 => None
                    | _ => Some (mkExn DatabaseError "connection already closed")
                    end).

Definition rank_or_zero (l : string) : nat :=
  match level_rank l with Some r => r | None => 0 end.

(** The highest rank among the severities of the scan's threats. *)
Definition max_severity_rank (severities : list string) : nat :=
  fold_right (fun s m => Nat.max (rank_or_zero s) m) 0 severities.

(** The status code [custom_exception_handler] chooses for a class. *)
Definition td_status (cls : Exceptions.td_class) : Z :=
  match cls with
  | Exceptions.ValidationException => 400
  | Exceptions.AuthenticationException => 401
  | Exceptions.RateLimitException => 429
  | Exceptions.FileUploadException => 413
  | Exceptions.ExternalAPIException => 502
  | Exceptions.TrojanDefenderException
  | Exceptions.ScannerException
  | Exceptions.ThreatIntelligenceException => 500
  end.

Ltac split_conditions :=
  repeat match goal with
  | |- context [py_eq_str ?a ?b] => destruct (py_eq_str a b); cbn [andb orb rbind]
  | |- context [Nat.eqb ?a ?b] => destruct (Nat.eqb a b); cbn [andb orb rbind]
  | |- context [existsb ?f ?l] => destruct (existsb f l); cbn [andb orb rbind]
  | |- context [Nat.leb ?a ?b] => destruct (Nat.leb a b); cbn [andb orb rbind]
  | |- context [Nat.ltb ?a ?b] => destruct (Nat.ltb a b); cbn [andb orb rbind]
  end.

Ltac state_simpl :=
  cbn [db_row scan_threats task_instance trace n_get n_save after_fetch fst snd].

(** ** Vocabulary of the further properties *)

(** The entries of ClamAV's answer that report a signature. *)
Definition found_entries (entries : list (string * (string * string)))
  : list (string * (string * string)) :=
  filter (fun e => String.eqb (fst (snd e)) "FOUND") entries.

Definition engine_calls (t : list event) : list event := filter is_engine_call t.

(** The same world with another VirusTotal. *)
Definition set_virustotal_scan (w : world) (f : string -> result vt_report) : world :=
  mkWorld (path_exists w) (path_readable w) (path_getsize w)
          (clamd_connect w) (clamd_scan_file w)
          (yara_rules_table w) (yara_query_fails w) (yara_compile w) (yara_match_file w)
          (setting_YARA_MAX_FILE_SIZE w) (setting_VIRUSTOTAL_ENABLED w)
          f (db_get w) (db_save_fails w).

(** A world in which the ScanResult is never found. *)
Definition no_row_world : world :=
  mkWorld (fun _ => true) (fun _ => true) (fun _ => Ok 10%Z)
          (fun _ => PingTrue) (fun _ => ScanNone)
          [] (fun _ _ => None) (fun _ _ => None) (fun _ _ => Ok [])
          None None (fun _ => Ok (mkVtReport "clean" "No threats detected" []))
          (fun _ => GetDoesNotExist) (fun _ => None).

(** A world in which the file exists but cannot be read. *)
Definition unreadable_file_world : world :=
  mkWorld (fun _ => true) (fun _ => false) (fun _ => Ok 10%Z)
          (fun _ => PingTrue) (fun _ => ScanNone)
          [] (fun _ _ => None) (fun _ _ => None) (fun _ _ => Ok [])
          None None (fun _ => Ok (mkVtReport "clean" "No threats detected" []))
          (fun _ => GetFound) (fun _ => None).

(** The events of the retry decision of [scan_file]. *)
Definition retry_events (retries : nat) : list event :=
  if (retries <? task_max_retries)%nat then [RetryTask (60 * 2 ^ retries)] else [].

(** A rule that passes the validation of [compile_yara_rules]. *)
Definition valid_rule (rule : YaraRule) : bool :=
  negb (blank (rule_content rule)) && contains "rule " (rule_content rule).

(** [d.get(k)] on a dict of strings. *)
Fixpoint dict_lookup (k : string) (d : list (string * string)) : option string :=
  match d with
  | [] => None
  | (k', v) :: r => if String.eqb k k' then Some v else dict_lookup k r
  end.


(** The size limit [scan_with_yara] reads from the settings. *)
Definition yara_max_file_size (w : world) : Z :=
  match setting_YARA_MAX_FILE_SIZE w with
  | Some m => m
  | None => default_YARA_MAX_FILE_SIZE
  end.

(** The same world with another [os.path.getsize]. *)
Definition set_path_getsize (w : world) (f : string -> result Z) : world :=
  mkWorld (path_exists w) (path_readable w) f
          (clamd_connect w) (clamd_scan_file w)
          (yara_rules_table w) (yara_query_fails w) (yara_compile w) (yara_match_file w)
          (setting_YARA_MAX_FILE_SIZE w) (setting_VIRUSTOTAL_ENABLED w)
          (virustotal_scan w) (db_get w) (db_save_fails w).

(** A match whose string matches can be read. *)
Definition readable_match (m : yara_match) : bool :=
  match m_strings m with Ok _ => true | Raise _ => false end.

(** The string entry of a dict, [""] when there is none. *)
Definition str_field (key : string) (v : pyval) : string :=
  match v with
  | PDict d => match assoc key d with Some (PStr s) => s | _ => "" end
  | _ => ""
  end.

(** A world with one active rule that the yara library refuses to compile. *)
Definition broken_rule_world : world :=
  mkWorld (fun _ => true) (fun _ => true) (fun _ => Ok 10%Z)
          (fun _ => PingTrue) (fun _ => ScanNone)
          [mkYaraRule "Broken" "rule Broken { condition: " true]
          (fun _ _ => None)
          (fun _ _ => Some (mkExn YaraSyntaxError "line 1: syntax error, unexpected end of file"))
          (fun _ _ => Ok [mkMatch "Broken" "default" [] (Ok [])])
          None None (fun _ => Ok (mkVtReport "clean" "No threats detected" []))
          (fun _ => GetFound) (fun _ => None).

(** The world of [yara_hit_world] with a file system that cannot tell the
    size of the file. *)
Definition unknown_size_world : world :=
  set_path_getsize yara_hit_world
    (fun _ => Raise (mkExn OSError "Stale file handle")).

(** What [scan_with_yara] answers once the rules are compiled, with the
    exceptions resolved: the result of the match ... *)
Definition yara_match_verdict (w : world) (compiled_rules : list (string * string))
    (file_path : string) : pyval :=
  match yara_match_file w compiled_rules file_path with
  | Ok matches =>
    let threats := yara_threats file_path matches in
    mk_result (match threats with [] => "clean" | _ => "infected" end)
              ("YARA scan completed. Found " ++ str_of_nat (List.length threats)
               ++ " threats.")
              threats
  | Raise e =>
    if subclass (exn_class e) YaraTimeoutError then
      mk_result "error" "YARA scan timeout" []
    else if subclass (exn_class e) YaraError then
      mk_result "error" ("YARA scan error: " ++ exn_msg e) []
    else mk_result "error" ("YARA scan failed: " ++ exn_msg e) []
  end.

(** ... behind the checks of the file. *)
Definition yara_verdict (w : world) (compiled_rules : list (string * string))
    (file_path : string) : pyval :=
  if negb (path_exists w file_path) then
    mk_result "error" ("File not found: " ++ file_path) []
  else if negb (path_readable w file_path) then
    mk_result "error" ("File not readable: " ++ file_path) []
  else
    match path_getsize w file_path with
    | Ok file_size =>
      if (file_size >? yara_max_file_size w)%Z then
        mk_result "skipped"
                  ("File too large for YARA scan: " ++ str_of_Z file_size ++ " bytes") []
      else yara_match_verdict w compiled_rules file_path
    | Raise size_error =>
      if subclass (exn_class size_error) OSError then
        yara_match_verdict w compiled_rules file_path
      else mk_result "error" ("YARA scan failed: " ++ exn_msg size_error) []
    end.

(** The rules [scan_with_yara] scans with: those of the first of its three
    calls of [compile_yara_rules] that returns some. *)
Definition yara_compiled (w : world) : option (list (string * string)) :=
  match compile_yara_rules w 0 with
  | Ok (Some compiled_rules) => Some compiled_rules
  | _ =>
    match compile_yara_rules w 1 with
    | Ok (Some compiled_rules) => Some compiled_rules
    | _ =>
      match compile_yara_rules w 2 with
      | Ok (Some compiled_rules) => Some compiled_rules
      | _ => None
      end
    end
  end.

(** The level the handler leaves when the current one is outside the
    enumeration: the highest severity from 'medium' up, else the level as
    it is. *)
Definition level_from_severities (level : string) (severities : list string) : string :=
  if str_in ThreatLevel.CRITICAL severities then ThreatLevel.CRITICAL
  else if str_in ThreatLevel.HIGH severities then ThreatLevel.HIGH
  else if str_in ThreatLevel.MEDIUM severities then ThreatLevel.MEDIUM
  else level.

(** The status of the response for an exception that is not the
    application's own; [None] when there is no response. *)
Definition framework_status (exc : Exceptions.exception) : option Z :=
  match exc with
  | Exceptions.TdException e => Some (td_status (Exceptions.td_cls e))
  | Exceptions.DjangoValidationError _ => Some 400%Z
  | Exceptions.IntegrityError _ => Some 400%Z
  | Exceptions.DatabaseError _ => Some 500%Z
  | Exceptions.Http404 _ => Some 404%Z
  | Exceptions.PermissionDenied _ => Some 403%Z
  | Exceptions.APIException code _ => Some code
  | Exceptions.OtherException _ => None
  end.

(** ** The views  ([scanner/views.py]) and their dispatch *)

Module Views.

Import Exceptions.

(** What a call inside a view does: it returns, or raises an exception. *)
Inductive outcome (A : Type) : Type :=
| Returns (a : A)
| Raises (exc : exception).
Arguments Returns {A} a.
Arguments Raises {A} exc.

Definition HTTP_200_OK : Z := 200.
Definition HTTP_201_CREATED : Z := 201.

(** [isinstance(exc, ValidationException)] on any exception. *)
Definition is_validation_exception (exc : exception) : bool :=
  match exc with
  | TdException e => td_isinstance (td_cls e) ValidationException
  | _ => false
  end.

(** [ScanResultViewSet.threats(request, pk)]; [body] is the [try] block:
    [get_object()], the query of the threats and their serialization. *)
Definition threats (body : outcome pyval) (pk : pyval) : outcome Response :=
  match body with
  | Returns serializer_data => Returns (mkResponse serializer_data HTTP_200_OK)
  | Raises e =>
    Raises (TdException
              (init ScannerException (PStr "Failed to retrieve scan threats")
                    (PStr "THREATS_RETRIEVAL_ERROR") (PDict [("scan_id", pk)])))
  end.

(** [ScanResultViewSet.status(request, pk)] *)
Definition status (body : outcome pyval) (pk : pyval) : outcome Response :=
  match body with
  | Returns response_data => Returns (mkResponse response_data HTTP_200_OK)
  | Raises e =>
    Raises (TdException
              (init ScannerException (PStr "Failed to retrieve scan status")
                    (PStr "STATUS_RETRIEVAL_ERROR") (PDict [("scan_id", pk)])))
  end.

(** [ScanResultViewSet.report(request, pk)]; [format] is the query parameter
    and [generate] the report generator for a format.  The second [except]
    clause formats its log message with [report_format], which is bound only
    after [get_object()] has returned. *)
Definition report (get_object : outcome unit) (format : option string)
    (generate : string -> outcome pyval) (pk : pyval) : outcome Response :=
  match get_object with
  | Raises e =>
    if is_validation_exception e then Raises e
    else Raises (OtherException
                   "local variable 'report_format' referenced before assignment")
  | Returns _ =>
    let report_format := lower (match format with Some f => f | None => "pdf" end) in
    if negb (str_in report_format ["pdf"; "json"]) then
      Raises (TdException
                (init ValidationException (PStr "Invalid report format")
                      (PStr "INVALID_REPORT_FORMAT")
                      (PDict [("supported_formats", PList [PStr "pdf"; PStr "json"]);
                              ("requested_format", PStr report_format)])))
    else
      match generate report_format with
      | Returns content => Returns (mkResponse content HTTP_200_OK)
      | Raises e =>
        if is_validation_exception e then Raises e
        else Raises (TdException
                       (init ScannerException (PStr "Failed to generate scan report")
                             (PStr "REPORT_GENERATION_ERROR")
                             (PDict [("scan_id", pk);
                                     ("format", PStr report_format)])))
      end
  end.

(** What an upload has done to the system by the time it answers. *)
Inductive effect : Type :=
| RowCreated               (* ScanResult.objects.create(..., status=PENDING) *)
| FileSaved                (* _save_file *)
| RowSaved                 (* scan_result.save() with the storage path *)
| TaskQueued.              (* scan_file.delay *)

(** The environment of one upload: whether the user is over the limit of
    the [ratelimit] decorator, and for each step [str(e)] of the exception
    it raises, if any. *)
Record upload : Type := mkUpload {
  ratelimited : bool;                 (* more than 10 POSTs of the user in the hour *)
  is_valid_fails : option string;     (* [serializer.is_valid()] raising *)
  serializer_errors : option pyval;   (* [serializer.errors] of an invalid upload *)
  chunks_fail : option string;        (* reading the chunks for the hash *)
  create_fails : option string;       (* ScanResult.objects.create *)
  save_file_fails : option string;    (* makedirs, open, write *)
  save_fails : option string;         (* scan_result.save() *)
  delay_fails : option string;        (* scan_file.delay *)
  scan_id : pyval;
  task_id : pyval
}.

(** [raise ScannerException("File upload failed", details=str(e))] *)
Definition upload_failed (str_e : string) : outcome Response :=
  Raises (TdException
            (init ScannerException (PStr "File upload failed") PNone (PStr str_e))).

(** [FileUploadView.create(request)], as the class has it: under
    [@ratelimit(key='user', rate='10/h', method='POST', block=True)], which
    raises [Ratelimited], a [PermissionDenied], instead of calling the method
    when the user is over the limit.  In the method, [_calculate_file_hash]
    and [_save_file] turn their exceptions into ScannerExceptions, whose
    [str] is their message. *)
Definition create (u : upload) : outcome Response * list effect :=
  if ratelimited u then (Raises (PermissionDenied ""), []) else
  match is_valid_fails u with
  | Some str_e => (upload_failed str_e, [])
  | None =>
  match serializer_errors u with
  | Some errors =>
    (Raises (TdException
               (init ValidationException (PStr "Invalid file data provided")
                     PNone errors)), [])
  | None =>
    match chunks_fail u with
    | Some _ => (upload_failed "Failed to calculate file hash", [])
    | None =>
      match create_fails u with
      | Some str_e => (upload_failed str_e, [])
      | None =>
        match save_file_fails u with
        | Some _ => (upload_failed "Failed to save uploaded file", [RowCreated])
        | None =>
          match save_fails u with
          | Some str_e => (upload_failed str_e, [RowCreated; FileSaved])
          | None =>
            match delay_fails u with
            | Some str_e => (upload_failed str_e, [RowCreated; FileSaved; RowSaved])
            | None =>
              (Returns
                 (mkResponse
                    (PDict [("scan_id", scan_id u);
                            ("task_id", task_id u);
                            ("message",
                             PStr "File uploaded successfully and scan initiated.")])
                    HTTP_201_CREATED),
               [RowCreated; FileSaved; RowSaved; TaskQueued])
            end
          end
        end
      end
    end
  end
  end.

(** The formats of the renderers: [REST_FRAMEWORK] in [settings.py] names no
    renderer classes, which leaves the framework's JSONRenderer and
    BrowsableAPIRenderer. *)
Definition renderer_formats : list string := ["json"; "api"].

(** [APIView.initial(request)]: content negotiation comes first, and a
    [format] query parameter that no renderer has raises [Http404];
    [checks] stands for what follows (the Accept header, authentication,
    permissions, throttles). *)
Definition initial (format : option string) (checks : outcome unit) : outcome unit :=
  match format with
  | Some f =>
    if negb (String.eqb f "") && negb (str_in f renderer_formats)
    then Raises (Http404 "")
    else checks
  | None => checks
  end.

Section Dispatch.

Variable py_str : pyval -> string.

(** [APIView.dispatch]: [initial], then the method of the view; the
    response of the view, or the one the configured EXCEPTION_HANDLER,
    [custom_exception_handler], makes of the exception of either; [None]
    when the handler returns [None] and the exception goes on to Django. *)
Definition dispatch (h : logger_handlers) (entered : outcome unit)
    (view : outcome Response) : result (option Response) :=
  match entered with
  | Raises exc => custom_exception_handler py_str h exc
  | Returns _ =>
    match view with
    | Returns r => Ok (Some r)
    | Raises exc => custom_exception_handler py_str h exc
    end
  end.

End Dispatch.

End Views.

(** ** The post_save receiver of ScanResult  ([scanner/signals.py]) *)

(** What the receiver asks for; both senders catch their own exceptions. *)
Inductive notification : Type :=
| ThreatEmail                                                (* send_threat_notification_email *)
| ThreatMapUpdate (threat_level : string) (threat_count : nat).  (* send_threat_map_update *)

(** [notify_scan_completion(sender, instance, created)], for a user with
    the flag [notify_security_alerts] and a scan with [threat_count]
    ScanThreat rows. *)
Definition notify_scan_completion (notify_security_alerts : bool) (threat_count : nat)
    (instance : ScanResult) (created : bool) : list notification :=
  if negb created && String.eqb (status instance) ScanStatus.COMPLETED then
    ((if notify_security_alerts
         && negb (String.eqb (threat_level instance) ThreatLevel.CLEAN)
      then [ThreatEmail] else [])
     ++ (if negb (String.eqb (threat_level instance) ThreatLevel.CLEAN)
         then [ThreatMapUpdate (threat_level instance) threat_count] else []))%list
  else [].

(** The status of a response, [0] when there is none. *)
Definition response_status (r : result (option Exceptions.Response)) : Z :=
  match r with
  | Ok (Some resp) => Exceptions.status_code resp
  | _ => 0%Z
  end.

(** The entry [key] of the ['error'] object of a response body. *)
Definition error_field (key : string) (r : result (option Exceptions.Response))
  : option pyval :=
  match r with
  | Ok (Some resp) =>
    match Exceptions.data resp with
    | PDict d =>
      match assoc "error" d with
      | Some (PDict fields) => assoc key fields
      | _ => None
      end
    | _ => None
    end
  | _ => None
  end.

(** ** Status updates over the channel layer
       ([scanner/tasks.py], [send_scan_status_update]) *)

(** One pass of the loop of [send_scan_status_update]. *)
Inductive channel_attempt : Type :=
| LayerMissing                  (* get_channel_layer() returns None *)
| GroupSent                     (* group_send succeeds *)
| AttemptRaises (e : exn).      (* get_channel_layer or group_send raises *)

Inductive ws_event : Type :=
| GroupSend (group scan_id status message : string)
| WsSleep (seconds : nat).

(** [for attempt in range(max_retries)] of [send_scan_status_update]; the
    function returns [None] on every path, so only its events are kept. *)
Fixpoint status_update_loop (channel : nat -> channel_attempt)
    (scan_id status message : string) (n attempt retry_delay : nat)
  : list ws_event :=
  match n with
  | 0 => []
  | S n' =>
    match channel attempt with
    | LayerMissing => []
    | GroupSent => [GroupSend ("scan_" ++ scan_id) scan_id status message]
    | AttemptRaises ws_error =>
      if subclass (exn_class ws_error) ImportError then []
      else if (attempt <? max_retries - 1)%nat then
        WsSleep retry_delay
        :: status_update_loop channel scan_id status message n' (S attempt)
                              (retry_delay * 2)
      else []
    end
  end.

Definition send_scan_status_update_events (channel : nat -> channel_attempt)
    (scan_id status message : string) : list ws_event :=
  status_update_loop channel scan_id status message max_retries 0 1.

(** ** Cleaning up old scans  ([scanner/tasks.py], [cleanup_old_files]) *)

Record stored_scan : Type := mkStoredScan {
  scan_upload_date : Z;
  scan_storage_path : option string
}.

(** The scans of the table and the files on the disk. *)
Record storage : Type := mkStorage {
  stored_scans : list stored_scan;
  stored_files : list string
}.

(** [ScanResult.objects.filter(upload_date__lt=cutoff_date)] *)
Definition is_old (cutoff_date : Z) (scan : stored_scan) : bool :=
  (scan_upload_date scan <? cutoff_date)%Z.

(** [os.path.exists] *)
Definition file_exists (files : list string) (path : string) : bool :=
  existsb (String.eqb path) files.

(** The loop over the old scans: the files after it and [deleted_files], or
    the exception of an [os.remove] that is not an [OSError], with the files
    as they are then. *)
Fixpoint remove_files (remove_fails : string -> option exn)
    (old_scans : list stored_scan) (files : list string) (deleted_files : nat)
  : result nat * list string :=
  match old_scans with
  | [] => (Ok deleted_files, files)
  | scan :: rest =>
    match scan_storage_path scan with
    | Some path =>
      if negb (String.eqb path "") && file_exists files path then
        match remove_fails path with
        | None =>
          remove_files remove_fails rest
            (filter (fun f => negb (String.eqb path f)) files) (S deleted_files)
        | Some e =>
          if subclass (exn_class e) OSError
          then remove_files remove_fails rest files deleted_files
          else (Raise e, files)
        end
      else remove_files remove_fails rest files deleted_files
    | None => remove_files remove_fails rest files deleted_files
    end
  end.

(** [cleanup_old_files()], with [cutoff_date] for
    [timezone.now() - timedelta(days=retention_days)]: the counts
    [(deleted_scans, deleted_files)] it returns, or the exception it logs
    and raises again, and the storage afterwards.  The queries on the
    ScanResult table are taken to succeed. *)
Definition cleanup_old_files (remove_fails : string -> option exn) (cutoff_date : Z)
    (s : storage) : result (nat * nat) * storage :=
  let old_scans := filter (is_old cutoff_date) (stored_scans s) in
  match remove_files remove_fails old_scans (stored_files s) 0 with
  | (Ok deleted_files, files) =>
    (* Delete old scan records *)
    let deleted_scans := List.length old_scans in
    (Ok (deleted_scans, deleted_files),
     mkStorage (filter (fun scan => negb (is_old cutoff_date scan)) (stored_scans s))
               files)
  | (Raise e, files) => (Raise e, mkStorage (stored_scans s) files)
  end.

(** The channel layer answers at [attempt], after failures that are worth a
    retry at the attempts before it. *)
Definition retried_until (channel : nat -> channel_attempt) (attempt : nat) : Prop :=
  (attempt < max_retries)%nat /\
  forall j, (j < attempt)%nat ->
    exists e, channel j = AttemptRaises e /\ subclass (exn_class e) ImportError = false.

Definition is_group_send (e : ws_event) : bool :=
  match e with GroupSend _ _ _ _ => true | WsSleep _ => false end.

Fixpoint slept (events : list ws_event) : nat :=
  match events with
  | [] => 0
  | WsSleep seconds :: r => seconds + slept r
  | _ :: r => slept r
  end.

(** ** Vocabulary of the database and of the callers' objects *)

(** A computation of the task that calls no engine from the state [st]:
    what it adds to the trace holds no engine call. *)
Definition calls_no_engine {A} (m : M A) (st : sys_state) : Prop :=
  exists evs, trace (snd (m st)) = (trace st ++ evs)%list /\
              forallb (fun e => negb (is_engine_call e)) evs = true.

(** The world of [missing_file_world] with a database that accepts the
    first write of a task and refuses the following ones. *)
Definition refusing_db_missing_file_world : world :=
  mkWorld (fun _ => false) (fun _ => false)
          (fun _ => Raise (mkExn OSError "No such file or directory"))
          (fun _ => PingTrue) (fun _ => ScanNone)
          [] (fun _ _ => None) (fun _ _ => None) (fun _ _ => Ok [])
          None None (fun _ => Ok (mkVtReport "clean" "No threats detected" []))
          (fun _ => GetFound)
          (fun n => match n with
                    | 0 => None
                    | _ => Some (mkExn DatabaseError "connection already closed")
                    end).

(** The object a caller gets when it fetches the ScanResult now. *)
Definition fetched (st : sys_state) : ScanResult := instance_of_row (db_row st).

(** The caller's object carries the level that is stored. *)
Definition in_sync (scan_result : ScanResult) (st : sys_state) : Prop :=
  threat_level scan_result = row_threat_level (db_row st).

(** A sequence of threat creations, each made with an object that carries
    the level stored at that moment. *)
Fixpoint synced_creations (ops : list op) (st : sys_state) : Prop :=
  match ops with
  | [] => True
  | AddThreat scan_result severity :: rest =>
    in_sync scan_result st /\
    synced_creations rest (step (AddThreat scan_result severity) st)
  | RunScan _ _ _ :: _ => False
  end.

(** The severities of the threats a sequence adds. *)
Fixpoint added_severities (ops : list op) : list string :=
  match ops with
  | [] => []
  | AddThreat _ severity :: rest => severity :: added_severities rest
  | RunScan _ _ _ :: rest => added_severities rest
  end.

(** * Properties *)

(** ** Sanity checks of the embedding on concrete inputs *)

Example dtl_clean :
  determine_threat_level_with_virustotal
    (mk_result "clean" "m" []) (mk_result "clean" "m" []) (PList []) = Ok "clean".
Proof. reflexivity. Qed.

Example dtl_skipped_dict_raises :
  determine_threat_level_with_virustotal
    (mk_result "clean" "m" []) (mk_result "clean" "m" []) skipped_result
  = Raise (mkExn AttributeError "object has no attribute 'get'").
Proof. reflexivity. Qed.

Example clamav_eicar :
  scan_with_clamav (calm_world (eicar_verdict "/media/f.bin")) "/media/f.bin"
  = Ok (mk_result "infected" "ClamAV scan completed. Found 1 threats."
          [clamav_threat "/media/f.bin" "Eicar-Test-Signature"]).
Proof. reflexivity. Qed.

Example scan_file_without_path :
  let out := scan_file (calm_world ScanNone) 0 "scan-1"
               (mkState (mkRow "pending" "clean" None) [] None [] 0 0) in
  exn_class (match fst out with Raise e => e | Ok _ => mkExn RuntimeError "" end)
  = CeleryRetry /\
  row_status (db_row (snd out)) = "failed" /\
  filter is_engine_call (trace (snd out)) = [] /\
  In (RetryTask 60) (trace (snd out)).
Proof. cbv zeta. repeat split; vm_compute; auto 10. Qed.

Example yara_severity_examples :
  yara_severity ["APT"; "Trojan"] = "high" /\
  yara_severity ["info"] = "low" /\
  yara_severity [] = "medium".
Proof. repeat split. Qed.

(** ** Helper lemmas on the builtins *)

Lemma any_m_dicts (l : list pyval) :
  forallb is_dict l = true ->
  any_m severity_is_high l = Ok (existsb high_severity l).
Proof.
  induction l as [|t l IH]; simpl; intros H; [reflexivity|].
  apply andb_true_iff in H as [Ht Hl].
  destruct t; try discriminate.
  unfold high_severity at 1. unfold severity_is_high at 1 2. simpl.
  destruct (py_eq_str _ "high"); simpl; [reflexivity | now apply IH].
Qed.

Lemma count_m_dicts (l : list pyval) :
  forallb is_dict l = true ->
  count_m severity_is_high l = Ok (List.length (filter high_severity l)).
Proof.
  induction l as [|t l IH]; simpl; intros H; [reflexivity|].
  apply andb_true_iff in H as [Ht Hl].
  destruct t; try discriminate.
  rewrite (IH Hl). unfold high_severity, severity_is_high; simpl.
  destruct (py_eq_str _ "high"); reflexivity.
Qed.

Lemma filter_none_high (l : list pyval) :
  existsb high_severity l = false -> filter high_severity l = [].
Proof.
  induction l as [|t l IH]; simpl; [reflexivity|].
  intros H. apply orb_false_iff in H as [Ht Hl].
  rewrite Ht. now apply IH.
Qed.

Lemma filter_some_high (l : list pyval) :
  existsb high_severity l = true -> (0 < List.length (filter high_severity l))%nat.
Proof.
  induction l as [|t l IH]; simpl; [discriminate|].
  destruct (high_severity t); simpl; intros H; [lia | now apply IH].
Qed.

Lemma determine_threat_level_with_virustotal_eq (c y : pyval) (v : list pyval) :
  engine_result_ok c = true -> engine_result_ok y = true ->
  forallb is_dict v = true ->
  determine_threat_level_with_virustotal c y (PList v) = Ok (level_of_counts c y v).
Proof.
  intros Hc Hy Hv.
  destruct c as [| | | | |dc]; try discriminate.
  destruct y as [| | | | |dy]; try discriminate.
  unfold determine_threat_level_with_virustotal, level_of_counts, has_status,
    findings, status_is, or_else, and_then;
    cbn -[Nat.leb Nat.ltb Nat.eqb] in *.
  destruct (assoc "threats" dc) as [[| | | |lc|]|]; try discriminate;
  destruct (assoc "threats" dy) as [[| | | |ly|]|]; try discriminate;
  cbn -[Nat.leb Nat.ltb Nat.eqb];
  rewrite ?(any_m_dicts v Hv), ?(count_m_dicts v Hv), ?(count_m_dicts ly Hy);
  cbn -[Nat.leb Nat.ltb Nat.eqb];
  split_conditions; reflexivity.
Qed.

Lemma determine_threat_level_eq (c y : pyval) :
  engine_result_ok c = true -> engine_result_ok y = true ->
  determine_threat_level c y = Ok (level_of_two c y).
Proof.
  intros Hc Hy.
  destruct c as [| | | | |dc]; try discriminate.
  destruct y as [| | | | |dy]; try discriminate.
  unfold determine_threat_level, level_of_two, has_status,
    findings, status_is, or_else, and_then;
    cbn -[Nat.leb Nat.ltb Nat.eqb] in *.
  destruct (assoc "threats" dc) as [[| | | |lc|]|]; try discriminate;
  destruct (assoc "threats" dy) as [[| | | |ly|]|]; try discriminate;
  cbn -[Nat.leb Nat.ltb Nat.eqb];
  rewrite ?(count_m_dicts ly Hy);
  cbn -[Nat.leb Nat.ltb Nat.eqb];
  split_conditions; reflexivity.
Qed.

(** A result has one status: two different literals cannot both match. *)
Lemma has_status_exclusive (r : pyval) (s1 s2 : string) :
  has_status r s1 = true -> s1 <> s2 -> has_status r s2 = false.
Proof.
  unfold has_status, status_is. destruct r; simpl; try discriminate.
  destruct (assoc "status" d) as [[| | |s| |]|]; simpl; try discriminate.
  intros H1 Hne. apply String.eqb_eq in H1. subst s.
  now apply String.eqb_neq.
Qed.

(** ** Threat-level determination: the count rule *)

(** C1, as amended.  For well-formed engine results none of which has status
    'error', [determine_threat_level_with_virustotal] returns 'high' when the
    engines report three findings or more in total; and when ClamAV's status
    is not 'infected' and no YARA or VirusTotal finding has severity 'high',
    it returns 'clean', 'low' and 'medium' for zero, one and two findings. *)
Theorem threat_level_by_count (c y : pyval) (v : list pyval) :
  engine_result_ok c = true -> engine_result_ok y = true ->
  forallb is_dict v = true ->
  has_status c "error" = false -> has_status y "error" = false ->
  let n := (List.length (findings c) + List.length (findings y) + List.length v)%nat in
  (3 <= n -> determine_threat_level_with_virustotal c y (PList v) = Ok "high") /\
  (has_status c "infected" = false ->
   existsb high_severity (findings y) = false ->
   existsb high_severity v = false ->
   (n = 0 -> determine_threat_level_with_virustotal c y (PList v) = Ok "clean") /\
   (n = 1 -> determine_threat_level_with_virustotal c y (PList v) = Ok "low") /\
   (n = 2 -> determine_threat_level_with_virustotal c y (PList v) = Ok "medium")).
Proof.
  intros Hc Hy Hv Ec Ey n.
  rewrite (determine_threat_level_with_virustotal_eq c y v Hc Hy Hv).
  unfold level_of_counts. fold n. rewrite Ec. cbn [andb].
  split.
  - intros Hn. apply Nat.leb_le in Hn. rewrite Hn.
    destruct (has_status c "infected" || existsb high_severity v); reflexivity.
  - intros Ic Hy' Hv'. rewrite Ic, Hv'. cbn [orb].
    rewrite (filter_none_high _ Hy'), (filter_none_high _ Hv'). cbn [List.length Nat.add].
    split; [|split]; intros Hn; rewrite Hn; reflexivity.
Qed.

(** Witness of [threat_level_by_count]: one medium YARA match and nothing
    else gives 'low'. *)
Lemma threat_level_by_count_witness :
  determine_threat_level_with_virustotal
    (mk_result "clean" "No threats detected by ClamAV" [])
    (mk_result "infected" "YARA scan completed. Found 1 threats."
       [yara_threat "/media/f.bin" (mkMatch "SuspiciousStrings" "default" [] (Ok [])) []])
    (PList []) = Ok "low".
Proof.
  apply (threat_level_by_count
           (mk_result "clean" "No threats detected by ClamAV" [])
           (mk_result "infected" "YARA scan completed. Found 1 threats."
              [yara_threat "/media/f.bin" (mkMatch "SuspiciousStrings" "default" [] (Ok [])) []])
           [] eq_refl eq_refl eq_refl eq_refl eq_refl);
    reflexivity.
Defined.

(** C1 as stated fails: ClamAV reports the EICAR signature, status
    'infected', one finding in total and no engine in error; the level is
    'high', not 'low', from both functions.  The two-engine function does
    not follow the count rule at all: three YARA findings of medium severity
    give 'medium' under status 'suspicious', and 'clean' under the status
    'infected' that [scan_with_yara] gives them. *)
Lemma threat_level_by_count_fails_on_infected :
  let c := mk_result "infected" "ClamAV scan completed. Found 1 threats."
             [clamav_threat "/media/f.bin" "Eicar-Test-Signature"] in
  let y := mk_result "clean" "YARA scan completed. Found 0 threats." [] in
  let c0 := mk_result "clean" "No threats detected by ClamAV" [] in
  let three := [yara_threat "/media/f.bin" (mkMatch "R1" "default" [] (Ok [])) [];
                yara_threat "/media/f.bin" (mkMatch "R2" "default" [] (Ok [])) [];
                yara_threat "/media/f.bin" (mkMatch "R3" "default" [] (Ok [])) []] in
  has_status c "error" = false /\ has_status y "error" = false /\
  (List.length (findings c) + List.length (findings y) + List.length (@nil pyval) = 1)%nat /\
  determine_threat_level_with_virustotal c y (PList []) = Ok "high" /\
  determine_threat_level_with_virustotal c y (PList []) <> Ok "low" /\
  determine_threat_level c y = Ok "high" /\
  determine_threat_level c y <> Ok "low" /\
  determine_threat_level c0 (mk_result "suspicious" "m" three) = Ok "medium" /\
  determine_threat_level c0
    (mk_result "infected" "YARA scan completed. Found 3 threats." three) = Ok "clean".
Proof. cbv zeta. repeat split; try reflexivity; discriminate. Qed.

(** ** Threat-level determination: infected engines *)

(** C4, as amended.  On well-formed engine results, a ClamAV result with
    status 'infected' gives 'high' from both functions, and so does a
    VirusTotal finding of severity 'high' (a malicious verdict); a YARA
    result with status 'infected' gives 'high' when one of its findings has
    severity 'high' or the engines report three findings or more. *)
Theorem infected_or_malicious_is_high (c y : pyval) (v : list pyval) :
  engine_result_ok c = true -> engine_result_ok y = true ->
  forallb is_dict v = true ->
  (has_status c "infected" = true ->
   determine_threat_level_with_virustotal c y (PList v) = Ok "high" /\
   determine_threat_level c y = Ok "high") /\
  (existsb high_severity v = true ->
   determine_threat_level_with_virustotal c y (PList v) = Ok "high") /\
  (has_status y "infected" = true ->
   existsb high_severity (findings y) = true \/
   (3 <= List.length (findings c) + List.length (findings y) + List.length v)%nat ->
   determine_threat_level_with_virustotal c y (PList v) = Ok "high").
Proof.
  intros Hc Hy Hv.
  rewrite (determine_threat_level_with_virustotal_eq c y v Hc Hy Hv).
  rewrite (determine_threat_level_eq c y Hc Hy).
  unfold level_of_counts, level_of_two.
  split; [|split].
  - intros Ic. rewrite (has_status_exclusive c "infected" "error" Ic), Ic by discriminate.
    split; reflexivity.
  - intros Ev. rewrite Ev, orb_true_r.
    destruct v as [|t v']; [discriminate|].
    cbn [List.length Nat.eqb]. rewrite andb_false_r. reflexivity.
  - intros Iy Hhigh.
    rewrite (has_status_exclusive y "infected" "error" Iy) by discriminate.
    rewrite andb_false_r. cbn [andb].
    destruct (has_status c "infected" || existsb high_severity v); [reflexivity|].
    destruct (Nat.leb_spec 3 (List.length (findings c) + List.length (findings y)
                              + List.length v)) as [H3|H3]; [reflexivity|].
    destruct Hhigh as [Hhigh|Hn]; [|lia].
    pose proof (filter_some_high _ Hhigh) as Hpos.
    assert (Hlen : (List.length (filter high_severity (findings y))
                    <= List.length (findings y))%nat) by apply filter_length_le.
    destruct (Nat.leb_spec 1 (List.length (findings c) + List.length (findings y)
                              + List.length v)) as [H1|H1]; [|lia].
    destruct (Nat.ltb_spec 0 (List.length (filter high_severity (findings y))
                              + List.length (filter high_severity v))) as [H0|H0];
      [reflexivity|lia].
Qed.

(** Witness of [infected_or_malicious_is_high]: the EICAR result. *)
Lemma infected_or_malicious_is_high_witness :
  determine_threat_level_with_virustotal
    (mk_result "infected" "ClamAV scan completed. Found 1 threats."
       [clamav_threat "/media/f.bin" "Eicar-Test-Signature"])
    (mk_result "clean" "No YARA rules available for scanning" [])
    (PList []) = Ok "high".
Proof.
  apply (proj1 (infected_or_malicious_is_high
                  (mk_result "infected" "ClamAV scan completed. Found 1 threats."
                     [clamav_threat "/media/f.bin" "Eicar-Test-Signature"])
                  (mk_result "clean" "No YARA rules available for scanning" [])
                  [] eq_refl eq_refl eq_refl)).
  reflexivity.
Defined.

(** C4 as stated fails for YARA: the result [scan_with_yara] builds for one
    match of a rule without tags has status 'infected', and with a clean
    ClamAV result the level is 'low' (and 'clean' from the two-engine
    function), not 'high'. *)
Lemma yara_infected_is_not_high :
  let c := mk_result "clean" "No threats detected by ClamAV" [] in
  let y := mk_result "infected" "YARA scan completed. Found 1 threats."
             [yara_threat "/media/f.bin" (mkMatch "SuspiciousStrings" "default" [] (Ok [])) []] in
  scan_with_clamav yara_hit_world "/media/f.bin" = Ok c /\
  scan_with_yara yara_hit_world "/media/f.bin" = Ok y /\
  has_status y "infected" = true /\
  determine_threat_level_with_virustotal c y (PList []) = Ok "low" /\
  determine_threat_level_with_virustotal c y (PList []) <> Ok "high" /\
  determine_threat_level c y = Ok "clean" /\
  determine_threat_level c y <> Ok "high".
Proof. cbv zeta. repeat split; try reflexivity; discriminate. Qed.

(** ** Threat-level determination: all engines in error *)



(** ** The engines always answer with a result dict *)

Lemma scanner_result_error (msg : string) : scanner_result (mk_result "error" msg []).
Proof. exists "error", msg, []. split; [reflexivity | left; split; reflexivity]. Qed.

Lemma scanner_result_clean (msg : string) : scanner_result (mk_result "clean" msg []).
Proof. exists "clean", msg, []. split; [reflexivity | left; split; reflexivity]. Qed.

Lemma scanner_result_skipped (msg : string) : scanner_result (mk_result "skipped" msg []).
Proof. exists "skipped", msg, []. split; [reflexivity | left; split; reflexivity]. Qed.

Lemma scanner_result_of_threats (msg : string) (ths : list pyval) :
  scanner_result
    (mk_result (match ths with [] => "clean" | _ => "infected" end) msg ths).
Proof.
  destruct ths as [|t ths].
  - apply scanner_result_clean.
  - exists "infected", msg, (t :: ths). split; [reflexivity|].
    right. split; [discriminate | reflexivity].
Qed.

Create HintDb scanner.
#[local] Hint Resolve scanner_result_error scanner_result_clean
  scanner_result_skipped scanner_result_of_threats : scanner.

Lemma clamav_connect_loop_error (w : world) (n attempt : nat) (r : pyval) :
  clamav_connect_loop w n attempt = Some r -> scanner_result r.
Proof.
  revert attempt. induction n as [|n IH]; simpl; intros attempt H; [discriminate|].
  destruct (clamd_connect w attempt); try discriminate; eauto.
  match type of H with context [if ?b then _ else _] => destruct b end; eauto.
  injection H as <-. auto with scanner.
Qed.

Lemma scan_with_clamav_returns (w : world) (file_path : string) :
  exists r, scan_with_clamav w file_path = Ok r /\ scanner_result r.
Proof.
  unfold scan_with_clamav, scan_with_clamav_body.
  destruct (clamav_connect_loop w max_retries 0) as [r|] eqn:Hloop.
  - exists r. split; [reflexivity|]. eapply clamav_connect_loop_error; eassumption.
  - destruct (path_exists w file_path); simpl; [|eauto with scanner].
    destruct (path_readable w file_path); simpl; [|eauto with scanner].
    destruct (clamd_scan_file w file_path); simpl; eauto with scanner.
Qed.

Lemma compile_yara_rules_returns (w : world) (call : nat) :
  exists o, compile_yara_rules w call = Ok o.
Proof.
  unfold compile_yara_rules.
  destruct (compile_yara_rules_body w call); simpl; eauto.
Qed.

Lemma yara_compile_loop_error (w : world) (n attempt : nat) (r : pyval) :
  yara_compile_loop w n attempt = Return r -> scanner_result r.
Proof.
  revert attempt. induction n as [|n IH]; simpl; intros attempt H; [discriminate|].
  destruct (compile_yara_rules_returns w attempt) as [o Ho]. rewrite Ho in H.
  destruct o; [discriminate | eauto].
Qed.

Lemma create_threat_entries_ok (threats : list pyval) :
  create_threat_entries threats = Ok tt.
Proof. induction threats as [|t l IH]; simpl; [reflexivity | exact IH]. Qed.

Lemma scan_with_yara_returns (w : world) (file_path : string) :
  exists r, scan_with_yara w file_path = Ok r /\ scanner_result r.
Proof.
  unfold scan_with_yara, scan_with_yara_body.
  destruct (yara_compile_loop w max_retries 0) as [[compiled_rules|]|r] eqn:Hloop.
  - destruct (path_exists w file_path); simpl; [|eauto with scanner].
    destruct (path_readable w file_path); simpl; [|eauto with scanner].
    destruct (path_getsize w file_path) as [file_size|size_error]; simpl.
    + destruct (file_size >? _)%Z; simpl; [eauto with scanner|].
      destruct (yara_match_file w compiled_rules file_path) as [matches|e]; simpl.
      * destruct (yara_threats file_path matches) as [|t ths] eqn:Hths; simpl.
        -- eauto with scanner.
        -- rewrite create_threat_entries_ok. simpl.
           eexists. split; [reflexivity|].
           apply (scanner_result_of_threats _ (t :: ths)).
      * destruct (subclass (exn_class e) YaraTimeoutError); simpl; [eauto with scanner|].
        destruct (subclass (exn_class e) YaraError); simpl; eauto with scanner.
    + destruct (subclass (exn_class size_error) OSError); simpl; [|eauto with scanner].
      destruct (yara_match_file w compiled_rules file_path) as [matches|e]; simpl.
      * destruct (yara_threats file_path matches) as [|t ths] eqn:Hths; simpl.
        -- eauto with scanner.
        -- rewrite create_threat_entries_ok. simpl.
           eexists. split; [reflexivity|].
           apply (scanner_result_of_threats _ (t :: ths)).
      * destruct (subclass (exn_class e) YaraTimeoutError); simpl; [eauto with scanner|].
        destruct (subclass (exn_class e) YaraError); simpl; eauto with scanner.
  - simpl. eauto with scanner.
  - simpl. exists r. split; [reflexivity|].
    eapply yara_compile_loop_error; eassumption.
Qed.

(** C10.  Whatever the daemon, the file system, the rule compilation and the
    match do, [scan_with_clamav] and [scan_with_yara] return (they raise
    nothing) a dict with exactly the keys 'status', 'message' and 'threats',
    whose 'threats' is a list, empty whenever the status is 'error', 'clean'
    or 'skipped'. *)
Theorem scanners_never_raise (w : world) (file_path : string) :
  (exists st msg ths,
     scan_with_clamav w file_path
     = Ok (PDict [("status", PStr st); ("message", PStr msg); ("threats", PList ths)])
     /\ (str_in st ["error"; "clean"; "skipped"] = true -> ths = [])) /\
  (exists st msg ths,
     scan_with_yara w file_path
     = Ok (PDict [("status", PStr st); ("message", PStr msg); ("threats", PList ths)])
     /\ (str_in st ["error"; "clean"; "skipped"] = true -> ths = [])).
Proof.
  split.
  - destruct (scan_with_clamav_returns w file_path)
      as (r & Hr & st & msg & ths & -> & Hshape).
    exists st, msg, ths. split; [exact Hr|].
    destruct Hshape as [[-> _]|[_ ->]]; [reflexivity | discriminate].
  - destruct (scan_with_yara_returns w file_path)
      as (r & Hr & st & msg & ths & -> & Hshape).
    exists st, msg, ths. split; [exact Hr|].
    destruct Hshape as [[-> _]|[_ ->]]; [reflexivity | discriminate].
Qed.

(** ** YARA without rules *)

Lemma compile_yara_rules_no_rules (w : world) (call : nat) :
  filter rule_is_active (yara_rules_table w) = [] ->
  compile_yara_rules w call = Ok None.
Proof.
  intros Hnone.
  assert (Hloop : forall n attempt,
             yara_query_loop w call n attempt = Next []
             \/ yara_query_loop w call n attempt = Return None).
  { induction n as [|n IH]; simpl; intros attempt; [now right|].
    destruct (yara_query_fails w call attempt).
    - destruct (attempt <? 2)%nat; [apply IH | now right].
    - rewrite Hnone. now left. }
  unfold compile_yara_rules, compile_yara_rules_body.
  destruct (Hloop max_retries 0) as [-> | ->]; reflexivity.
Qed.

Lemma yara_compile_loop_no_rules (w : world) (n attempt : nat) :
  filter rule_is_active (yara_rules_table w) = [] ->
  yara_compile_loop w n attempt = Next None.
Proof.
  intros Hnone. revert attempt.
  induction n as [|n IH]; simpl; intros attempt; [reflexivity|].
  rewrite (compile_yara_rules_no_rules w attempt Hnone). apply IH.
Qed.

(** C7.  With no active rule in the YaraRule table, [compile_yara_rules]
    yields no compiled rules and [scan_with_yara] returns status 'clean',
    message 'No YARA rules available for scanning' and no threats,
    whatever else the environment does. *)
Theorem no_active_rules_is_clean (w : world) (file_path : string) :
  filter rule_is_active (yara_rules_table w) = [] ->
  compile_yara_rules w 0 = Ok None /\
  scan_with_yara w file_path
  = Ok (PDict [("status", PStr "clean");
               ("message", PStr "No YARA rules available for scanning");
               ("threats", PList [])]).
Proof.
  intros Hnone. split; [now apply compile_yara_rules_no_rules|].
  unfold scan_with_yara, scan_with_yara_body.
  rewrite (yara_compile_loop_no_rules w max_retries 0 Hnone). reflexivity.
Qed.

(** Witness of [no_active_rules_is_clean]: the only rule of the table is
    switched off. *)
Lemma no_active_rules_is_clean_witness :
  let w := mkWorld (fun _ => true) (fun _ => true) (fun _ => Ok 10%Z)
             (fun _ => PingTrue) (fun _ => ScanNone)
             [mkYaraRule "Old" "rule Old { condition: true }" false]
             (fun _ _ => None) (fun _ _ => None) (fun _ _ => Ok [])
             None None (fun _ => Ok (mkVtReport "clean" "No threats detected" []))
             (fun _ => GetFound) (fun _ => None) in
  compile_yara_rules w 0 = Ok None /\
  scan_with_yara w "/media/f.bin"
  = Ok (PDict [("status", PStr "clean");
               ("message", PStr "No YARA rules available for scanning");
               ("threats", PList [])]).
Proof.
  intros w. apply (no_active_rules_is_clean w "/media/f.bin"). reflexivity.
Defined.

(** ** The scan task *)

Lemma get_scan_result_loop_found (w : world) (st : sys_state) (k : nat) :
  fetched_at w st k ->
  get_scan_result_loop w max_db_retries 0 1 st
  = (Ok (instance_of_row (db_row st)), after_fetch st k).
Proof.
  intros (Hk & Hfound & Hbefore).
  unfold max_db_retries in *.
  destruct k as [|[|[|k]]]; [| | |lia]; unfold after_fetch; simpl in *.
  - unfold try_catch, objects_get. rewrite Hfound. simpl.
    rewrite app_nil_r. reflexivity.
  - pose proof (Hbefore 0%nat ltac:(lia)) as H0. simpl in H0.
    unfold try_catch, objects_get, tbind, emit; simpl.
    destruct (db_get w (n_get st)); [congruence| |]; simpl;
      rewrite Hfound; reflexivity.
  - pose proof (Hbefore 0%nat ltac:(lia)) as H0.
    pose proof (Hbefore 1%nat ltac:(lia)) as H1. simpl in H0, H1.
    unfold try_catch, objects_get, tbind, emit; simpl.
    destruct (db_get w (n_get st)); [congruence| |]; simpl;
      (destruct (db_get w (S (n_get st))); [congruence| |]); simpl;
      rewrite Hfound; rewrite <- app_assoc; reflexivity.
Qed.

Lemma sleeps_no_engine (k : nat) :
  forallb (fun e => negb (is_engine_call e)) (sleeps k) = true.
Proof. destruct k as [|[|k]]; reflexivity. Qed.

(** The run of [scan_file] on a missing file, step by step. *)
Lemma scan_file_missing_file
    (w : world) (retries : nat) (scan_id : string) (st : sys_state)
    (file_path : string) (k : nat) :
  fetched_at w st k ->
  (forall n, db_save_fails w n = None) ->
  row_storage_path (db_row st) = Some file_path ->
  path_exists w file_path = false ->
  scan_file w retries scan_id st
  = (Ok tt,
     mkState
       (mkRow "failed" (row_threat_level (db_row st)) (Some file_path))
       (scan_threats st)
       (Some (mkScanResult "failed" (row_threat_level (db_row st)) (Some file_path)
                           (Some ("File not found: " ++ file_path)) None None))
       (trace st
        ++ sleeps k
        ++ [DbSave (mkRow "running" (row_threat_level (db_row st)) (Some file_path));
            StatusUpdate scan_id "running" "Scan in progress...";
            DbSave (mkRow "failed" (row_threat_level (db_row st)) (Some file_path));
            StatusUpdate scan_id "failed" ("File not found: " ++ file_path)])
       (S k + n_get st) (S (S (n_save st)))).
Proof.
  intros Hf Hsave Hpath Hex.
  unfold scan_file, scan_file_body.
  unfold try_catch at 1. unfold tbind at 1.
  rewrite (get_scan_result_loop_found w st k Hf).
  unfold tbind at 1. unfold save at 1. cbn [n_save after_fetch]. rewrite Hsave.
  unfold tbind at 1. unfold try_catch at 1.
  unfold send_scan_status_update at 1, emit at 1.
  cbn [storage_path set_status instance_of_row]. rewrite Hpath, Hex. cbn [negb].
  unfold file_failure, tbind, save, send_scan_status_update, emit.
  cbn [n_save]. rewrite Hsave.
  unfold row_of_instance, set_error_message, set_status, instance_of_row. cbn.
  rewrite ?Hpath. rewrite <- !app_assoc. cbn [app]. reflexivity.
Qed.

(** The task's primitives add no engine call to the trace. *)
Lemma calls_no_engine_ret {A} (a : A) (st : sys_state) : calls_no_engine (ret a) st.
Proof. exists []. split; [symmetry; apply app_nil_r | reflexivity]. Qed.

Lemma calls_no_engine_raise {A} (e : exn) (st : sys_state) :
  calls_no_engine (@raise A e) st.
Proof. exists []. split; [symmetry; apply app_nil_r | reflexivity]. Qed.

Lemma calls_no_engine_emit (e : event) (st : sys_state) :
  is_engine_call e = false -> calls_no_engine (emit e) st.
Proof. intros He. exists [e]. split; [reflexivity | simpl; now rewrite He]. Qed.

Lemma calls_no_engine_objects_get (w : world) (st : sys_state) :
  calls_no_engine (objects_get w) st.
Proof.
  exists []. unfold objects_get.
  destruct (db_get w (n_get st)); (split; [symmetry; apply app_nil_r | reflexivity]).
Qed.

Lemma calls_no_engine_save (w : world) (o : ScanResult) (st : sys_state) :
  calls_no_engine (save w o) st.
Proof.
  unfold calls_no_engine, save. destruct (db_save_fails w (n_save st)).
  - exists []. split; [symmetry; apply app_nil_r | reflexivity].
  - eexists. split; reflexivity.
Qed.

Lemma calls_no_engine_tbind {A B} (m : M A) (k : A -> M B) (st : sys_state) :
  calls_no_engine m st ->
  (forall a st', m st = (Ok a, st') -> calls_no_engine (k a) st') ->
  calls_no_engine (tbind m k) st.
Proof.
  intros (evs & Ht & Hq) Hk. unfold calls_no_engine, tbind in *.
  destruct (m st) as [[a|e] st'] eqn:Hm; cbn [snd] in *.
  - destruct (Hk a st' eq_refl) as (evs' & Ht' & Hq').
    exists (evs ++ evs')%list. split.
    + rewrite Ht', Ht, app_assoc. reflexivity.
    + rewrite forallb_app, Hq, Hq'. reflexivity.
  - exists evs. split; assumption.
Qed.

Lemma calls_no_engine_try_catch {A} (m : M A) (h : exn -> M A) (st : sys_state) :
  calls_no_engine m st ->
  (forall e st', m st = (Raise e, st') -> calls_no_engine (h e) st') ->
  calls_no_engine (try_catch m h) st.
Proof.
  intros (evs & Ht & Hq) Hh. unfold calls_no_engine, try_catch in *.
  destruct (m st) as [[a|e] st'] eqn:Hm; cbn [snd] in *.
  - exists evs. split; assumption.
  - destruct (Hh e st' eq_refl) as (evs' & Ht' & Hq').
    exists (evs ++ evs')%list. split.
    + rewrite Ht', Ht, app_assoc. reflexivity.
    + rewrite forallb_app, Hq, Hq'. reflexivity.
Qed.

(** The fetch loop calls no engine, and the object it returns is the row. *)
Lemma get_scan_result_loop_calls_no_engine
    (w : world) (n attempt retry_delay : nat) (st : sys_state) :
  calls_no_engine (get_scan_result_loop w n attempt retry_delay) st.
Proof.
  revert attempt retry_delay st.
  induction n as [|n IH]; intros attempt retry_delay st; simpl.
  - apply calls_no_engine_raise.
  - apply calls_no_engine_try_catch; [apply calls_no_engine_objects_get|].
    intros e st' _.
    match goal with |- context [if ?b then _ else _] => destruct b end.
    + apply calls_no_engine_raise.
    + apply calls_no_engine_tbind; [now apply calls_no_engine_emit|].
      intros _ st'' _. apply IH.
Qed.

Lemma get_scan_result_loop_row
    (w : world) (n attempt retry_delay : nat) (st st' : sys_state) (o : ScanResult) :
  get_scan_result_loop w n attempt retry_delay st = (Ok o, st') ->
  o = instance_of_row (db_row st) /\ db_row st' = db_row st.
Proof.
  revert attempt retry_delay st.
  induction n as [|n IH]; intros attempt retry_delay st; simpl.
  - unfold raise. discriminate.
  - unfold try_catch, objects_get.
    destruct (db_get w (n_get st)).
    + intros H. injection H as <- <-. split; reflexivity.
    + match goal with |- context [if ?b then _ else _] => destruct b end;
        [unfold raise; discriminate|].
      unfold tbind, emit. intros H. apply IH in H. exact H.
    + match goal with |- context [if ?b then _ else _] => destruct b end;
        [unfold raise; discriminate|].
      unfold tbind, emit. intros H. apply IH in H. exact H.
Qed.

(** Without a file that is there and readable, no path of [scan_file]
    reaches an engine, whatever the database does. *)
Lemma scan_file_without_file_calls_no_engine
    (w : world) (retries : nat) (scan_id : string) (st : sys_state)
    (file_path : string) :
  row_storage_path (db_row st) = Some file_path ->
  path_exists w file_path && path_readable w file_path = false ->
  calls_no_engine (scan_file w retries scan_id) st.
Proof.
  intros Hpath Hfile. unfold scan_file.
  apply calls_no_engine_try_catch.
  - unfold scan_file_body.
    apply calls_no_engine_tbind; [apply get_scan_result_loop_calls_no_engine|].
    intros o st1 Hloop. apply get_scan_result_loop_row in Hloop as [-> _].
    apply calls_no_engine_tbind; [apply calls_no_engine_save|].
    intros _ st2 _.
    apply calls_no_engine_tbind.
    { apply calls_no_engine_try_catch.
      - now apply calls_no_engine_emit.
      - intros; apply calls_no_engine_ret. }
    intros _ st3 _.
    cbn [storage_path set_status instance_of_row]. rewrite Hpath.
    assert (Hfail : forall msg st0,
               calls_no_engine
                 (file_failure w scan_id
                    (set_status (instance_of_row (db_row st)) "running") msg) st0).
    { intros msg st0. unfold file_failure.
      apply calls_no_engine_tbind; [apply calls_no_engine_save|].
      intros. now apply calls_no_engine_emit. }
    destruct (path_exists w file_path); cbn [negb]; [|apply Hfail].
    cbn [andb] in Hfile. rewrite Hfile. cbn [negb]. apply Hfail.
  - intros e st1 _. destruct (subclass (exn_class e) DoesNotExist).
    + now apply calls_no_engine_emit.
    + apply calls_no_engine_tbind.
      { apply calls_no_engine_try_catch.
        - apply calls_no_engine_tbind; [apply calls_no_engine_objects_get|].
          intros; apply calls_no_engine_save.
        - intros; apply calls_no_engine_ret. }
      intros _ st2 _.
      apply calls_no_engine_tbind.
      { apply calls_no_engine_try_catch.
        - now apply calls_no_engine_emit.
        - intros; apply calls_no_engine_ret. }
      intros _ st3 _.
      destruct (retries <? task_max_retries)%nat; [|apply calls_no_engine_raise].
      apply calls_no_engine_tbind; [now apply calls_no_engine_emit|].
      intros; apply calls_no_engine_raise.
Qed.

(** C6, as amended.  When the stored path does not exist on disk, an
    invocation of [scan_file] calls no engine, whatever the database does;
    and when the ScanResult is fetched within the three attempts and the
    database accepts the task's writes, it returns normally, the row's
    status is 'failed', the object carries the error message 'File not
    found: <path>' and the failure is published with that message. *)
Theorem missing_file_fails_without_engines
    (w : world) (retries : nat) (scan_id : string) (st : sys_state)
    (file_path : string) :
  row_storage_path (db_row st) = Some file_path ->
  path_exists w file_path = false ->
  let out := scan_file w retries scan_id st in
  (exists evs, trace (snd out) = (trace st ++ evs)%list /\
               forallb (fun e => negb (is_engine_call e)) evs = true) /\
  (forall k,
     fetched_at w st k ->
     (forall n, db_save_fails w n = None) ->
     fst out = Ok tt /\
     row_status (db_row (snd out)) = ScanStatus.FAILED /\
     (exists o, task_instance (snd out) = Some o /\
                status o = ScanStatus.FAILED /\
                error_message o = Some ("File not found: " ++ file_path)) /\
     In (StatusUpdate scan_id "failed" ("File not found: " ++ file_path))
        (trace (snd out))).
Proof.
  intros Hpath Hex out. split.
  - apply (scan_file_without_file_calls_no_engine w retries scan_id st file_path Hpath).
    rewrite Hex. reflexivity.
  - intros k Hf Hsave. subst out.
    rewrite (scan_file_missing_file w retries scan_id st file_path k Hf Hsave Hpath Hex).
    cbn [fst snd db_row row_status task_instance trace].
    split; [reflexivity|]. split; [reflexivity|]. split.
    + eexists. split; [reflexivity|]. split; reflexivity.
    + apply in_or_app. right. apply in_or_app. right. simpl. auto.
Qed.

(** Witness of [missing_file_fails_without_engines]: a freshly uploaded scan
    whose file has disappeared, with the database at work. *)
Lemma missing_file_fails_without_engines_witness :
  let out := scan_file missing_file_world 0 "scan-1" (uploaded "/media/f.bin") in
  (exists evs, trace (snd out) = (trace (uploaded "/media/f.bin") ++ evs)%list /\
               forallb (fun e => negb (is_engine_call e)) evs = true) /\
  fst out = Ok tt /\
  row_status (db_row (snd out)) = ScanStatus.FAILED /\
  (exists o, task_instance (snd out) = Some o /\
             status o = ScanStatus.FAILED /\
             error_message o = Some ("File not found: " ++ "/media/f.bin")) /\
  In (StatusUpdate "scan-1" "failed" ("File not found: " ++ "/media/f.bin"))
     (trace (snd out)).
Proof.
  pose proof (missing_file_fails_without_engines
                missing_file_world 0 "scan-1" (uploaded "/media/f.bin") "/media/f.bin"
                eq_refl eq_refl) as [Hquiet Hfailed].
  split; [exact Hquiet|].
  apply (Hfailed 0).
  - split; [unfold max_db_retries; lia|]. split; [reflexivity|].
    intros j Hj. lia.
  - intros n. reflexivity.
Defined.

(** C6 as stated fails: not every invocation on a missing file ends with
    the status 'failed'.  With a database that accepts the first write of
    the task and refuses the next ones, the write of 'failed' raises, the
    task asks for a retry instead of returning, and the row keeps the status
    'running'; no engine is called on this run either. *)
Lemma missing_file_with_refused_write_stays_running :
  let w := refusing_db_missing_file_world in
  let st := uploaded "/media/f.bin" in
  let out := scan_file w 0 "scan-1" st in
  row_storage_path (db_row st) = Some "/media/f.bin" /\
  path_exists w "/media/f.bin" = false /\
  (exists r, fst out = Raise r /\ exn_class r = CeleryRetry) /\
  fst out <> Ok tt /\
  row_status (db_row (snd out)) = "running" /\
  row_status (db_row (snd out)) <> ScanStatus.FAILED /\
  engine_calls (trace (snd out)) = [].
Proof.
  cbv zeta. split; [reflexivity|]. split; [reflexivity|]. split.
  - eexists. split; reflexivity.
  - split; [vm_compute; discriminate|]. split; [reflexivity|].
    split; [vm_compute; discriminate | reflexivity].
Qed.
Lemma engine_step_mk_result (label st msg : string) (ths : list pyval) :
  engine_step label (Ok (mk_result st msg ths)) = mk_result st msg ths.
Proof.
  unfold engine_step; simpl. destruct (String.eqb st "error"); reflexivity.
Qed.

(** [scan_with_virustotal] returns a list, so the VirusTotal block of
    [scan_file] always ends in its [except] clause: reading ['status'] from a
    list raises [TypeError]. *)
Lemma scan_with_virustotal_list (w : world) (file_path : string) :
  exists l, scan_with_virustotal w file_path = Ok (PList l).
Proof.
  unfold scan_with_virustotal.
  destruct (virustotal_scan w file_path) as [report|e]; simpl; [|eauto].
  destruct (String.eqb (vt_status report) "error"); simpl; [eauto|].
  destruct (String.eqb (vt_status report) "pending"); simpl; eauto.
Qed.

Lemma engine_step_virustotal (w : world) (file_path : string) :
  engine_step "VirusTotal" (scan_with_virustotal w file_path) = virustotal_error_entry.
Proof.
  destruct (scan_with_virustotal_list w file_path) as [l ->]. reflexivity.
Qed.

Lemma collect_threats_cons_result (st msg : string) (ths : list pyval)
    (rest : list pyval) :
  collect_threats (mk_result st msg ths :: rest)
  = (r <- collect_threats rest ;; Ok (ths ++ r)%list)%py.
Proof. simpl. destruct ths; reflexivity. Qed.

Lemma collect_threats_entries (w : world) (c y : pyval) :
  scanner_result c -> scanner_result y ->
  collect_threats [c; y; virustotal_entry w] = Ok (findings c ++ findings y)%list.
Proof.
  intros (sc & mc & tc & -> & _) (sy & my & ty & -> & _).
  rewrite !collect_threats_cons_result.
  unfold virustotal_entry, virustotal_error_entry.
  destruct (match setting_VIRUSTOTAL_ENABLED w with Some b => b | None => false end);
    simpl; rewrite app_nil_r; reflexivity.
Qed.

(** With the dict [scan_file] passes for VirusTotal, the level is 'high' when
    ClamAV's status is 'infected', and the function raises otherwise, which
    [scan_file] turns into 'unknown'. *)
Lemma scan_file_level (w : world) (c y : pyval) :
  scanner_result c -> scanner_result y ->
  match determine_threat_level_with_virustotal c y (virustotal_entry w) with
  | Ok l => l
  | Raise _ => "unknown"
  end = if has_status c "infected" then "high" else "unknown".
Proof.
  intros (sc & mc & tc & -> & _) (sy & my & ty & -> & _).
  unfold virustotal_entry, virustotal_error_entry, has_status,
    determine_threat_level_with_virustotal, status_is, and_then, or_else.
  destruct (match setting_VIRUSTOTAL_ENABLED w with Some b => b | None => false end);
    simpl;
    destruct (String.eqb sc "error"); simpl;
    try (destruct (String.eqb sy "error"); simpl);
    destruct (String.eqb sc "infected"); reflexivity.
Qed.

Lemma virustotal_block (w : world) (file_path : string) (s : sys_state) :
  (if match setting_VIRUSTOTAL_ENABLED w with Some b => b | None => false end
   then (emit (EngineCall VirusTotal file_path) ;;; ret virustotal_error_entry)%task
   else ret skipped_result) s
  = (Ok (virustotal_entry w),
     mkState (db_row s) (scan_threats s) (task_instance s)
             (trace s ++ virustotal_events w file_path) (n_get s) (n_save s)).
Proof.
  unfold virustotal_entry, virustotal_events.
  destruct (match setting_VIRUSTOTAL_ENABLED w with Some b => b | None => false end).
  - reflexivity.
  - unfold ret. rewrite app_nil_r. destruct s; reflexivity.
Qed.

(** The run of [scan_file] when the file is there and the database works:
    the scan completes, whatever the engines answer. *)
Lemma scan_file_completes
    (w : world) (retries : nat) (scan_id : string) (st : sys_state)
    (file_path : string) (k : nat) (c y : pyval) :
  fetched_at w st k ->
  (forall n, db_save_fails w n = None) ->
  row_storage_path (db_row st) = Some file_path ->
  path_exists w file_path = true ->
  path_readable w file_path = true ->
  scan_with_clamav w file_path = Ok c ->
  scan_with_yara w file_path = Ok y ->
  scan_file w retries scan_id st
  = (Ok tt,
     mkState
       (mkRow "completed" (scan_file_verdict c) (Some file_path))
       (scan_threats st)
       (Some (mkScanResult "completed" (scan_file_verdict c) (Some file_path) None
                (Some (List.length (findings c ++ findings y)))
                (Some (PDict [("clamav", c); ("yara", y);
                              ("virustotal", virustotal_entry w)]))))
       (trace st
        ++ sleeps k
        ++ [DbSave (mkRow "running" (row_threat_level (db_row st)) (Some file_path));
            StatusUpdate scan_id "running" "Scan in progress...";
            EngineCall ClamAV file_path;
            EngineCall YARA file_path]
        ++ virustotal_events w file_path
        ++ [DbSave (mkRow "completed" (scan_file_verdict c) (Some file_path));
            StatusUpdate scan_id "completed"
              ("Scan completed: " ++ scan_file_verdict c ++ " threat level")])
       (S k + n_get st) (S (S (n_save st)))).
Proof.
  intros Hf Hsave Hpath Hex Hrd Hclam Hy.
  destruct (scan_with_clamav_returns w file_path) as (c' & Hc' & Sc).
  rewrite Hclam in Hc'. injection Hc' as <-.
  destruct (scan_with_yara_returns w file_path) as (y' & Hy' & Sy).
  rewrite Hy in Hy'. injection Hy' as <-.
  pose proof (scan_file_level w c y Sc Sy) as Hlevel.
  pose proof (collect_threats_entries w c y Sc Sy) as Hcollect.
  assert (Ec : engine_step "ClamAV" (Ok c) = c).
  { destruct Sc as (s & m & t & -> & _). apply engine_step_mk_result. }
  assert (Ey : engine_step "YARA" (Ok y) = y).
  { destruct Sy as (s & m & t & -> & _). apply engine_step_mk_result. }
  unfold scan_file, scan_file_body.
  unfold try_catch at 1. unfold tbind at 1.
  rewrite (get_scan_result_loop_found w st k Hf).
  unfold tbind at 1. unfold save at 1. state_simpl. rewrite Hsave.
  unfold tbind at 1. unfold try_catch at 1.
  unfold send_scan_status_update at 1, emit at 1. state_simpl.
  cbn [storage_path set_status instance_of_row]. rewrite Hpath, Hex, Hrd. cbn [negb].
  rewrite Hclam, Hy, Ec, Ey, engine_step_virustotal.
  unfold tbind at 1. unfold emit at 1. state_simpl.
  unfold tbind at 1. unfold emit at 1. state_simpl.
  unfold tbind at 1. rewrite virustotal_block. state_simpl.
  rewrite Hlevel. fold (scan_file_verdict c).
  unfold tbind at 1. unfold lift at 1. rewrite Hcollect.
  unfold tbind at 1. unfold try_catch at 1. unfold tbind at 1.
  unfold save at 1. state_simpl.
  rewrite Hsave. unfold ret at 1.
  unfold try_catch at 1. unfold send_scan_status_update, emit. state_simpl.
  unfold row_of_instance, set_error_message, set_scan_results, set_threats_found,
    set_threat_level, set_status.
  cbn [status threat_level storage_path error_message threats_found scan_results
       instance_of_row].
  rewrite Hpath. rewrite <- !app_assoc. cbn [app]. reflexivity.
Qed.

Lemma findings_infected (c : pyval) :
  scanner_result c -> findings c <> [] -> has_status c "infected" = true.
Proof.
  intros (st & msg & ths & -> & [[-> _]|[_ ->]]) H.
  - now contradiction H.
  - reflexivity.
Qed.

(** ** A single ClamAV finding *)

(** C3, as amended.  For a stored, readable file on which ClamAV reports
    exactly one finding, the scan completes and the threat level assigned to
    it is 'high', whatever the other engines report. *)
Theorem one_clamav_finding_is_high
    (w : world) (retries : nat) (scan_id : string) (st : sys_state)
    (file_path : string) (k : nat) (c t : pyval) :
  fetched_at w st k ->
  (forall n, db_save_fails w n = None) ->
  row_storage_path (db_row st) = Some file_path ->
  path_exists w file_path = true ->
  path_readable w file_path = true ->
  scan_with_clamav w file_path = Ok c ->
  findings c = [t] ->
  let out := scan_file w retries scan_id st in
  fst out = Ok tt /\
  row_status (db_row (snd out)) = ScanStatus.COMPLETED /\
  row_threat_level (db_row (snd out)) = ThreatLevel.HIGH.
Proof.
  intros Hf Hsave Hpath Hex Hrd Hclam Hone out. subst out.
  destruct (scan_with_yara_returns w file_path) as (y & Hy & _).
  rewrite (scan_file_completes w retries scan_id st file_path k c y
             Hf Hsave Hpath Hex Hrd Hclam Hy).
  state_simpl. cbn [row_status row_threat_level].
  destruct (scan_with_clamav_returns w file_path) as (c' & Hc' & Sc).
  rewrite Hclam in Hc'. injection Hc' as <-.
  unfold scan_file_verdict.
  rewrite (findings_infected c Sc) by (rewrite Hone; discriminate).
  repeat split.
Qed.

(** Witness of [one_clamav_finding_is_high]: the EICAR test file. *)
Lemma one_clamav_finding_is_high_witness :
  let out := scan_file (calm_world (eicar_verdict "/media/f.bin")) 0 "scan-1"
               (uploaded "/media/f.bin") in
  fst out = Ok tt /\
  row_status (db_row (snd out)) = ScanStatus.COMPLETED /\
  row_threat_level (db_row (snd out)) = ThreatLevel.HIGH.
Proof.
  refine (one_clamav_finding_is_high
            (calm_world (eicar_verdict "/media/f.bin")) 0 "scan-1"
            (uploaded "/media/f.bin") "/media/f.bin" 0
            (mk_result "infected" "ClamAV scan completed. Found 1 threats."
               [clamav_threat "/media/f.bin" "Eicar-Test-Signature"])
            (clamav_threat "/media/f.bin" "Eicar-Test-Signature")
            _ _ eq_refl eq_refl eq_refl eq_refl eq_refl).
  - split; [unfold max_db_retries; lia|]. split; [reflexivity|].
    intros j Hj. lia.
  - intros n. reflexivity.
Defined.

(** C3 as stated fails: the EICAR file, one ClamAV finding, no YARA rule,
    VirusTotal off; the scan's level is 'high', not 'low'. *)
Lemma one_clamav_finding_is_not_low :
  let w := calm_world (eicar_verdict "/media/f.bin") in
  let out := scan_file w 0 "scan-1" (uploaded "/media/f.bin") in
  scan_with_clamav w "/media/f.bin"
  = Ok (mk_result "infected" "ClamAV scan completed. Found 1 threats."
          [clamav_threat "/media/f.bin" "Eicar-Test-Signature"]) /\
  scan_with_yara w "/media/f.bin"
  = Ok (mk_result "clean" "No YARA rules available for scanning" []) /\
  setting_VIRUSTOTAL_ENABLED w = None /\
  row_threat_level (db_row (snd out)) = "high" /\
  row_threat_level (db_row (snd out)) <> "low".
Proof. cbv zeta. repeat split; try reflexivity. vm_compute. discriminate. Qed.

(** ** The status field *)

(** C8 fails on the code.  On a freshly uploaded scan in a world where
    everything works, [scan_file] first stores the status 'running', which
    is not one of the four values of [ScanStatus]; and when the later writes
    are refused, 'running' is what stays in the database. *)
Theorem scan_file_stores_running :
  let out := scan_file (calm_world ScanNone) 0 "scan-1" (uploaded "/media/f.bin") in
  let out' := scan_file flaky_db_world 0 "scan-1" (uploaded "/media/f.bin") in
  saved_statuses (trace (snd out)) = ["running"; "completed"] /\
  fst out' = Ok tt /\
  row_status (db_row (snd out')) = "running" /\
  str_in "running" ScanStatus.values = false.
Proof. cbv zeta. repeat split; vm_compute; reflexivity. Qed.

(** ** Escalation of the threat level by the signal handler *)

Lemma max_severity_rank_by_membership (severities : list string) :
  max_severity_rank severities
  = if str_in ThreatLevel.CRITICAL severities then 4
    else if str_in ThreatLevel.HIGH severities then 3
    else if str_in ThreatLevel.MEDIUM severities then 2
    else if str_in ThreatLevel.LOW severities then 1
    else 0.
Proof.
  induction severities as [|s l IH]; [reflexivity|].
  unfold str_in in *. cbn [max_severity_rank fold_right existsb].
  fold (max_severity_rank l). rewrite IH. clear IH.
  unfold rank_or_zero, level_rank.
  rewrite (String.eqb_sym ThreatLevel.CRITICAL s), (String.eqb_sym ThreatLevel.HIGH s),
    (String.eqb_sym ThreatLevel.MEDIUM s), (String.eqb_sym ThreatLevel.LOW s).
  destruct (String.eqb_spec s ThreatLevel.CLEAN) as [->|_];
    [|destruct (String.eqb_spec s ThreatLevel.LOW) as [->|_];
      [|destruct (String.eqb_spec s ThreatLevel.MEDIUM) as [->|_];
        [|destruct (String.eqb_spec s ThreatLevel.HIGH) as [->|_];
          [|destruct (String.eqb_spec s ThreatLevel.CRITICAL) as [->|_]]]]];
    cbv [ThreatLevel.CLEAN ThreatLevel.CRITICAL ThreatLevel.HIGH ThreatLevel.MEDIUM
         ThreatLevel.LOW];
    cbn [String.eqb Ascii.eqb Bool.eqb orb];
    repeat match goal with |- context [existsb ?f l] => destruct (existsb f l) end;
    reflexivity.
Qed.

Lemma level_rank_inv (l : string) (r : nat) :
  level_rank l = Some r ->
  l = ThreatLevel.CLEAN /\ r = 0 \/ l = ThreatLevel.LOW /\ r = 1 \/
  l = ThreatLevel.MEDIUM /\ r = 2 \/ l = ThreatLevel.HIGH /\ r = 3 \/
  l = ThreatLevel.CRITICAL /\ r = 4.
Proof.
  unfold level_rank.
  destruct (String.eqb_spec l ThreatLevel.CLEAN);
    [intros [= <-]; tauto|].
  destruct (String.eqb_spec l ThreatLevel.LOW);
    [intros [= <-]; tauto|].
  destruct (String.eqb_spec l ThreatLevel.MEDIUM);
    [intros [= <-]; tauto|].
  destruct (String.eqb_spec l ThreatLevel.HIGH);
    [intros [= <-]; tauto|].
  destruct (String.eqb_spec l ThreatLevel.CRITICAL);
    [intros [= <-]; tauto | discriminate].
Qed.

(** What the handler leaves in the [threat_level] of the caller's object, by
    rank; the row holds that level as soon as the handler has written. *)
Lemma update_scan_result_threat_level_rank
    (scan_result : ScanResult) (st : sys_state) (r : nat) :
  level_rank (threat_level scan_result) = Some r ->
  level_rank (threat_level (fst (update_scan_result_threat_level true scan_result st)))
  = Some (Nat.max r (Nat.max 1 (max_severity_rank (scan_threats st)))) /\
  (row_threat_level (db_row (snd (update_scan_result_threat_level true scan_result st)))
   = threat_level (fst (update_scan_result_threat_level true scan_result st))
   \/ update_scan_result_threat_level true scan_result st = (scan_result, st)).
Proof.
  intros Hr. rewrite max_severity_rank_by_membership.
  destruct scan_result as [status0 level path err found results].
  cbn [threat_level] in Hr.
  unfold update_scan_result_threat_level, save_threat_level, set_threat_level, str_in.
  cbn [threat_level].
  set (critical := existsb (String.eqb ThreatLevel.CRITICAL) (scan_threats st)).
  set (high := existsb (String.eqb ThreatLevel.HIGH) (scan_threats st)).
  set (medium := existsb (String.eqb ThreatLevel.MEDIUM) (scan_threats st)).
  set (low := existsb (String.eqb ThreatLevel.LOW) (scan_threats st)).
  clearbody critical high medium low.
  destruct (level_rank_inv _ _ Hr) as [[-> ->]|[[-> ->]|[[-> ->]|[[-> ->]|[-> ->]]]]];
    cbv [ThreatLevel.CLEAN ThreatLevel.CRITICAL ThreatLevel.HIGH ThreatLevel.MEDIUM
         ThreatLevel.LOW];
    cbn [existsb String.eqb Ascii.eqb Bool.eqb orb andb negb];
    destruct critical, high, medium, low;
    cbn [andb negb fst snd threat_level db_row row_threat_level];
    (split; [reflexivity | (left; reflexivity) || (right; reflexivity)]).
Qed.

Lemma ScanThreat_objects_create_rank
    (scan_result : ScanResult) (severity : string) (st : sys_state) (r : nat) :
  level_rank (row_threat_level (db_row st)) = Some r ->
  in_sync scan_result st ->
  level_rank (row_threat_level
                (db_row (snd (ScanThreat_objects_create scan_result severity st))))
  = Some (Nat.max r (Nat.max 1 (max_severity_rank (scan_threats st ++ [severity])))).
Proof.
  intros Hr Hsync. unfold in_sync in Hsync. rewrite <- Hsync in Hr.
  unfold ScanThreat_objects_create.
  destruct (update_scan_result_threat_level_rank scan_result
              (mkState (db_row st) (scan_threats st ++ [severity]) (task_instance st)
                       (trace st) (n_get st) (n_save st)) r Hr) as [Hobj [Hrow|Hsame]].
  - rewrite Hrow. exact Hobj.
  - rewrite Hsame in *. cbn [fst snd db_row] in *. rewrite <- Hsync. exact Hobj.
Qed.

(** C2, as amended.  Along every sequence of ScanThreat creations on a scan
    whose threat_level is one of clean < low < medium < high < critical,
    each made with a ScanResult object that carries the level stored at that
    moment, the stored level never goes down.  After each such creation the
    handler leaves the greater of the current level, 'low', and the highest
    severity among the scan's threats: it raises the level only when that
    severity exceeds the current level, or from 'clean' to 'low'. *)
Theorem threat_level_never_lowered_by_threats
    (ops : list op) (st : sys_state) (r : nat) :
  level_rank (row_threat_level (db_row st)) = Some r ->
  (forall scan_result severity,
     in_sync scan_result st ->
     let m := max_severity_rank (scan_threats st ++ [severity]) in
     exists r',
       level_rank (row_threat_level
                     (db_row (step (AddThreat scan_result severity) st))) = Some r' /\
       r' = Nat.max r (Nat.max 1 m) /\
       r <= r' /\
       (r < r' -> r < m \/ r = 0 /\ r' = 1)) /\
  (synced_creations ops st ->
   exists r',
     level_rank (row_threat_level (db_row (run ops st))) = Some r' /\ r <= r').
Proof.
  intros Hr. split.
  - intros scan_result severity Hsync m. eexists. split; [|split; [reflexivity|]].
    + apply (ScanThreat_objects_create_rank scan_result severity st r Hr Hsync).
    + fold m. split; lia.
  - revert st r Hr.
    induction ops as [|[scan_result severity|w retries scan_id] l IH];
      intros st r Hr Hsynced.
    + exists r. split; [exact Hr | lia].
    + destruct Hsynced as [Hsync Hrest].
      cbn [run fold_left].
      fold (run l (step (AddThreat scan_result severity) st)).
      pose proof (ScanThreat_objects_create_rank scan_result severity st r Hr Hsync)
        as H1.
      destruct (IH _ _ H1 Hrest) as (r' & Hr' & Hle).
      exists r'. split; [exact Hr' | lia].
    + contradiction.
Qed.

(** Witness of [threat_level_never_lowered_by_threats]: a completed scan at
    'medium' with one 'medium' threat.  A caller fetches the scan and adds a
    'low' threat, which changes nothing; a second caller fetches it and adds
    a 'high' threat, which raises the level from rank 2 to rank 3. *)
Lemma threat_level_never_lowered_by_threats_witness :
  let st := mkState (mkRow "completed" "medium" (Some "/media/f.bin"))
                    ["medium"] None [] 0 0 in
  let medium := mkScanResult "completed" "medium" (Some "/media/f.bin")
                             None None None in
  (exists r',
     level_rank (row_threat_level (db_row (step (AddThreat medium "high") st)))
     = Some r' /\
     r' = Nat.max 2 (Nat.max 1 (max_severity_rank ["medium"; "high"])) /\
     2 <= r' /\
     (2 < r' -> 2 < max_severity_rank ["medium"; "high"] \/ 2 = 0 /\ r' = 1)) /\
  (exists r',
     level_rank (row_threat_level
                   (db_row (run [AddThreat medium "low"; AddThreat medium "high"] st)))
     = Some r' /\ 2 <= r').
Proof.
  intros st medium.
  destruct (threat_level_never_lowered_by_threats
              [AddThreat medium "low"; AddThreat medium "high"] st 2 eq_refl)
    as [Hstep Hrun].
  split.
  - exact (Hstep medium "high" eq_refl).
  - apply Hrun. simpl. split; [reflexivity|]. split; [reflexivity | exact I].
Defined.

(** C2 as stated fails, in two ways.  The scan task overwrites the level: a
    'critical' threat raises a fresh scan to 'critical', the task then
    completes on the EICAR file and stores 'high'; on a clean file after a
    'high' threat it stores 'unknown', which is no level at all.  And the
    handler compares against the caller's object: a caller who fetched the
    scan before the task stored 'high' and then adds a 'low' threat with
    that object makes the handler store 'low'. *)
Lemma scan_completion_lowers_threat_level :
  let p := "/media/f.bin" in
  let before := fetched (uploaded p) in
  let st1 := run [AddThreat before "critical"] (uploaded p) in
  let st2 := run [AddThreat before "critical";
                  RunScan (calm_world (eicar_verdict p)) 0 "scan-1"]
                 (uploaded p) in
  let st3 := run [AddThreat before "high"; RunScan (calm_world ScanNone) 0 "scan-1"]
                 (uploaded p) in
  let st4 := run [RunScan (calm_world (eicar_verdict p)) 0 "scan-1"] (uploaded p) in
  let st5 := run [RunScan (calm_world (eicar_verdict p)) 0 "scan-1";
                  AddThreat before "low"]
                 (uploaded p) in
  row_threat_level (db_row st1) = "critical" /\
  row_threat_level (db_row st2) = "high" /\
  level_rank (row_threat_level (db_row st1)) = Some 4 /\
  level_rank (row_threat_level (db_row st2)) = Some 3 /\
  row_status (db_row st2) = "completed" /\
  row_threat_level (db_row st3) = "unknown" /\
  level_rank (row_threat_level (db_row st3)) = None /\
  threat_level before = "clean" /\
  row_threat_level (db_row st4) = "high" /\
  row_threat_level (db_row st5) = "low" /\
  level_rank (row_threat_level (db_row st4)) = Some 3 /\
  level_rank (row_threat_level (db_row st5)) = Some 1.
Proof. cbv zeta. repeat split; vm_compute; reflexivity. Qed.

(** ** The exception handler *)

(** C9, as amended.  For every application exception (an instance of
    [TrojanDefenderException] or of one of its subclasses), provided the
    module logger has no handler without a formatter, the handler returns a
    response whose body is [{error: {message, code, details, timestamp}}],
    with the exception's message and details, its error code or
    'UNKNOWN_ERROR', and whose status is 400 for ValidationException, 401 for
    AuthenticationException, 429 for RateLimitException, 413 for
    FileUploadException, 502 for ExternalAPIException and 500 for the
    others. *)
Theorem application_exception_response
    (py_str : pyval -> string) (h : Exceptions.logger_handlers)
    (e : Exceptions.td_exception) :
  h <> Exceptions.FirstHandlerWithoutFormatter ->
  exists ts,
    Exceptions.custom_exception_handler py_str h (Exceptions.TdException e)
    = Ok (Some (Exceptions.mkResponse
                  (PDict [("error",
                           PDict [("message", Exceptions.message e);
                                  ("code",
                                   if py_truthy (Exceptions.error_code e)
                                   then Exceptions.error_code e
                                   else PStr "UNKNOWN_ERROR");
                                  ("details", Exceptions.details e);
                                  ("timestamp", ts)])])
                  (td_status (Exceptions.td_cls e)))).
Proof.
  intros Hh. unfold Exceptions.custom_exception_handler.
  destruct h as [|t|]; [exists PNone | exists (PStr t) | contradiction];
    destruct e as [cls m c d]; destruct cls; reflexivity.
Qed.

(** Witness of [application_exception_response]: a validation error raised
    by the upload view, with the repository's logging configuration (the
    module logger has no handler of its own). *)
Lemma application_exception_response_witness :
  exists ts,
    Exceptions.custom_exception_handler (fun _ => "") Exceptions.NoHandlers
      (Exceptions.TdException
         (Exceptions.init Exceptions.ValidationException
            (PStr "Invalid file data provided") PNone
            (PDict [("file", PList [PStr "No file was submitted."])])))
    = Ok (Some (Exceptions.mkResponse
                  (PDict [("error",
                           PDict [("message", PStr "Invalid file data provided");
                                  ("code", PStr "UNKNOWN_ERROR");
                                  ("details",
                                   PDict [("file", PList [PStr "No file was submitted."])]);
                                  ("timestamp", ts)])])
                  400)).
Proof.
  refine (application_exception_response (fun _ => "") Exceptions.NoHandlers
            (Exceptions.init Exceptions.ValidationException
               (PStr "Invalid file data provided") PNone
               (PDict [("file", PList [PStr "No file was submitted."])])) _).
  discriminate.
Defined.

(** C9 as stated fails: a [FileUploadException] is an application exception
    that is none of the four named classes, and its response has status 413,
    not 500. *)
Lemma file_upload_exception_is_not_500 :
  let e := Exceptions.init Exceptions.FileUploadException
             (PStr "File too large") PNone PNone in
  Exceptions.td_isinstance (Exceptions.td_cls e) Exceptions.TrojanDefenderException = true /\
  Exceptions.td_isinstance (Exceptions.td_cls e) Exceptions.ValidationException = false /\
  Exceptions.td_isinstance (Exceptions.td_cls e) Exceptions.AuthenticationException = false /\
  Exceptions.td_isinstance (Exceptions.td_cls e) Exceptions.RateLimitException = false /\
  Exceptions.td_isinstance (Exceptions.td_cls e) Exceptions.ExternalAPIException = false /\
  Exceptions.custom_exception_handler (fun _ => "") Exceptions.NoHandlers
    (Exceptions.TdException e)
  = Ok (Some (Exceptions.mkResponse
                (PDict [("error",
                         PDict [("message", PStr "File too large");
                                ("code", PStr "UNKNOWN_ERROR");
                                ("details", PDict []);
                                ("timestamp", PNone)])])
                413)) /\
  (413 <> 500)%Z.
Proof. cbv zeta. repeat split; try reflexivity. discriminate. Qed.

(** * Further properties of the scanner *)

(** ** ClamAV: connection and findings *)

(** X1.  [scan_with_clamav] reports the daemon as unavailable only when the
    third connection attempt raises and no earlier attempt answered the
    ping; the message then carries the error of that last attempt.  Pings
    answered false never stop the scan: after three of them the loop ends
    and the file is scanned with the last connection. *)
Theorem clamav_gives_up_only_when_last_attempt_raises (w : world) (r : pyval) :
  clamav_connect_loop w max_retries 0 = Some r <->
  clamd_connect w 0 <> PingTrue /\ clamd_connect w 1 <> PingTrue /\
  exists e, clamd_connect w 2 = ConnRaises e /\
            r = mk_result "error"
                  ("ClamAV daemon not available after 3 attempts: " ++ exn_msg e) [].
Proof.
  unfold max_retries. cbn [clamav_connect_loop].
  destruct (clamd_connect w 0) as [e0| |]; cbn;
    destruct (clamd_connect w 1) as [e1| |]; cbn;
    destruct (clamd_connect w 2) as [e2| |]; cbn;
    (split;
     [ intros H; try discriminate; injection H as <-;
       (split; [discriminate | split; [discriminate | eexists; split; reflexivity]])
     | intros (H0 & H1 & e & He & ->); try discriminate;
       try (now contradiction H0); try (now contradiction H1);
       injection He as <-; reflexivity ]).
Qed.

Lemma clamav_parse_length (entries : list (string * (string * string))) :
  List.length (clamav_parse entries) = List.length (found_entries entries).
Proof.
  induction entries as [|[f [tag sig_]] l IH]; [reflexivity|].
  unfold found_entries in *. cbn [clamav_parse filter fst snd].
  destruct (String.eqb tag "FOUND"); cbn [List.length]; now rewrite IH.
Qed.

Lemma clamav_parse_high (entries : list (string * (string * string))) :
  forallb high_severity (clamav_parse entries) = true /\
  forallb is_dict (clamav_parse entries) = true.
Proof.
  induction entries as [|[f [tag sig_]] l [IH1 IH2]]; [split; reflexivity|].
  cbn [clamav_parse fst snd].
  destruct (String.eqb tag "FOUND"); [|split; assumption].
  cbn [forallb]. rewrite IH1, IH2. split; reflexivity.
Qed.

(** X2.  When the daemon answers and the file is readable, the findings of
    [scan_with_clamav] are exactly the ['FOUND'] entries of ClamAV's answer,
    each with severity 'high'; entries with another tag (['ERROR'], ...) are
    dropped, so an answer without a ['FOUND'] entry is reported 'clean'. *)
Theorem clamav_reports_found_entries
    (w : world) (file_path : string) (entries : list (string * (string * string))) :
  clamd_connect w 0 = PingTrue ->
  path_exists w file_path = true ->
  path_readable w file_path = true ->
  clamd_scan_file w file_path = ScanDict entries ->
  exists r,
    scan_with_clamav w file_path = Ok r /\
    findings r = clamav_parse entries /\
    List.length (findings r) = List.length (found_entries entries) /\
    forallb high_severity (findings r) = true /\
    engine_result_ok r = true /\
    (found_entries entries = [] -> has_status r "clean" = true) /\
    (found_entries entries <> [] -> has_status r "infected" = true).
Proof.
  intros Hc Hex Hrd Hscan.
  unfold scan_with_clamav, scan_with_clamav_body, max_retries.
  cbn [clamav_connect_loop]. rewrite Hc, Hex, Hrd, Hscan. cbn [negb try_except].
  eexists. split; [reflexivity|].
  pose proof (clamav_parse_length entries) as Hlen.
  destruct (clamav_parse_high entries) as [Hhigh Hdict].
  cbn [findings mk_result assoc String.eqb Ascii.eqb Bool.eqb engine_result_ok].
  repeat split; try assumption.
  - intros Hnone. rewrite Hnone in Hlen.
    destruct (clamav_parse entries); [reflexivity | discriminate].
  - intros Hsome.
    destruct (clamav_parse entries); [|reflexivity].
    destruct (found_entries entries); [now contradiction Hsome | discriminate].
Qed.

(** Witness of [clamav_reports_found_entries]: an answer with one error entry
    and nothing found is a clean result. *)
Lemma clamav_reports_found_entries_witness :
  exists r,
    scan_with_clamav (calm_world (ScanDict [("/media/f.bin", ("ERROR", "lstat() failed"))]))
                     "/media/f.bin" = Ok r /\
    findings r = [] /\ has_status r "clean" = true.
Proof.
  destruct (clamav_reports_found_entries
              (calm_world (ScanDict [("/media/f.bin", ("ERROR", "lstat() failed"))]))
              "/media/f.bin" [("/media/f.bin", ("ERROR", "lstat() failed"))]
              eq_refl eq_refl eq_refl eq_refl)
    as (r & Hr & Hf & _ & _ & _ & Hclean & _).
  exists r. split; [exact Hr|]. split; [exact Hf | exact (Hclean eq_refl)].
Defined.

(** ** The scan task: what it stores, whom it calls *)

Lemma not_infected_without_findings (c : pyval) :
  scanner_result c -> findings c = [] -> has_status c "infected" = false.
Proof.
  intros (st & msg & ths & -> & [[-> Hst]|[Hne ->]]) H.
  - unfold has_status, status_is; cbn.
    cbn in Hst. unfold str_in in Hst. cbn in Hst.
    destruct (String.eqb_spec st "infected") as [->|]; [discriminate | reflexivity].
  - cbn in H. now contradiction Hne.
Qed.

(** X3.  A scan that completes stores the level 'high' when ClamAV's status
    is 'infected' and 'unknown' in every other case: never 'clean', 'low',
    'medium' or 'critical'.  In particular a file on which ClamAV finds
    nothing is stored as 'unknown', whatever YARA and VirusTotal report. *)
Theorem scan_file_stores_high_or_unknown
    (w : world) (retries : nat) (scan_id : string) (st : sys_state)
    (file_path : string) (k : nat) (c : pyval) :
  fetched_at w st k ->
  (forall n, db_save_fails w n = None) ->
  row_storage_path (db_row st) = Some file_path ->
  path_exists w file_path = true ->
  path_readable w file_path = true ->
  scan_with_clamav w file_path = Ok c ->
  let out := scan_file w retries scan_id st in
  fst out = Ok tt /\
  row_status (db_row (snd out)) = ScanStatus.COMPLETED /\
  row_threat_level (db_row (snd out))
  = (if has_status c "infected" then "high" else "unknown") /\
  (findings c = [] -> row_threat_level (db_row (snd out)) = "unknown") /\
  str_in (row_threat_level (db_row (snd out)))
         [ThreatLevel.CLEAN; ThreatLevel.LOW; ThreatLevel.MEDIUM; ThreatLevel.CRITICAL]
  = false.
Proof.
  intros Hf Hsave Hpath Hex Hrd Hclam out. subst out.
  destruct (scan_with_yara_returns w file_path) as (y & Hy & _).
  rewrite (scan_file_completes w retries scan_id st file_path k c y
             Hf Hsave Hpath Hex Hrd Hclam Hy).
  state_simpl. cbn [row_status row_threat_level]. unfold scan_file_verdict.
  destruct (scan_with_clamav_returns w file_path) as (c' & Hc' & Sc).
  rewrite Hclam in Hc'. injection Hc' as <-.
  split; [reflexivity|]. split; [reflexivity|]. split; [reflexivity|]. split.
  - intros Hnone. now rewrite (not_infected_without_findings c Sc Hnone).
  - destruct (has_status c "infected"); reflexivity.
Qed.

(** Witness of [scan_file_stores_high_or_unknown]: a file on which no engine
    finds anything. *)
Lemma scan_file_stores_high_or_unknown_witness :
  row_threat_level
    (db_row (snd (scan_file (calm_world ScanNone) 0 "scan-1" (uploaded "/media/f.bin"))))
  = "unknown".
Proof.
  refine (proj1 (proj2 (proj2 (proj2
    (scan_file_stores_high_or_unknown
       (calm_world ScanNone) 0 "scan-1" (uploaded "/media/f.bin") "/media/f.bin" 0
       (mk_result "clean" "No threats detected by ClamAV" [])
       _ _ eq_refl eq_refl eq_refl eq_refl)))) eq_refl).
  - split; [unfold max_db_retries; lia|]. split; [reflexivity|].
    intros j Hj. lia.
  - intros n. reflexivity.
Defined.

Lemma engine_calls_app (a b : list event) :
  engine_calls (a ++ b) = (engine_calls a ++ engine_calls b)%list.
Proof. apply filter_app. Qed.

Lemma engine_calls_sleeps (k : nat) : engine_calls (sleeps k) = [].
Proof. destruct k as [|[|k]]; reflexivity. Qed.

Lemma engine_calls_virustotal (w : world) (file_path : string) :
  engine_calls (virustotal_events w file_path) = virustotal_events w file_path.
Proof.
  unfold virustotal_events.
  destruct (match setting_VIRUSTOTAL_ENABLED w with Some b => b | None => false end);
    reflexivity.
Qed.

(** X4.  A scan that completes calls ClamAV, then YARA, then VirusTotal when
    [VIRUSTOTAL_ENABLED] is set, each exactly once and on the stored path;
    and the [threats_found] it records is the number of ClamAV findings plus
    the number of YARA findings. *)
Theorem scan_file_calls_each_engine_once
    (w : world) (retries : nat) (scan_id : string) (st : sys_state)
    (file_path : string) (k : nat) (c y : pyval) :
  fetched_at w st k ->
  (forall n, db_save_fails w n = None) ->
  row_storage_path (db_row st) = Some file_path ->
  path_exists w file_path = true ->
  path_readable w file_path = true ->
  scan_with_clamav w file_path = Ok c ->
  scan_with_yara w file_path = Ok y ->
  let out := scan_file w retries scan_id st in
  engine_calls (trace (snd out))
  = (engine_calls (trace st)
     ++ [EngineCall ClamAV file_path; EngineCall YARA file_path]
     ++ (if match setting_VIRUSTOTAL_ENABLED w with Some b => b | None => false end
         then [EngineCall VirusTotal file_path] else []))%list /\
  exists o, task_instance (snd out) = Some o /\
            threats_found o
            = Some (List.length (findings c) + List.length (findings y))%nat.
Proof.
  intros Hf Hsave Hpath Hex Hrd Hclam Hy out. subst out.
  rewrite (scan_file_completes w retries scan_id st file_path k c y
             Hf Hsave Hpath Hex Hrd Hclam Hy).
  state_simpl. split.
  - rewrite !engine_calls_app, engine_calls_sleeps, engine_calls_virustotal.
    unfold virustotal_events.
    destruct (match setting_VIRUSTOTAL_ENABLED w with Some b => b | None => false end);
      reflexivity.
  - eexists. split; [reflexivity|]. cbn [threats_found].
    now rewrite length_app.
Qed.

(** Witness of [scan_file_calls_each_engine_once]: the EICAR file with
    VirusTotal switched off. *)
Lemma scan_file_calls_each_engine_once_witness :
  engine_calls
    (trace (snd (scan_file (calm_world (eicar_verdict "/media/f.bin")) 0 "scan-1"
                           (uploaded "/media/f.bin"))))
  = [EngineCall ClamAV "/media/f.bin"; EngineCall YARA "/media/f.bin"].
Proof.
  refine (proj1
    (scan_file_calls_each_engine_once
       (calm_world (eicar_verdict "/media/f.bin")) 0 "scan-1"
       (uploaded "/media/f.bin") "/media/f.bin" 0
       (mk_result "infected" "ClamAV scan completed. Found 1 threats."
          [clamav_threat "/media/f.bin" "Eicar-Test-Signature"])
       (mk_result "clean" "No YARA rules available for scanning" [])
       _ _ eq_refl eq_refl eq_refl eq_refl eq_refl)).
  - split; [unfold max_db_retries; lia|]. split; [reflexivity|].
    intros j Hj. lia.
  - intros n. reflexivity.
Defined.

Lemma tbind_ext {A B} (m : M A) (k k' : A -> M B) (st : sys_state) :
  (forall a st', k a st' = k' a st') -> tbind m k st = tbind m k' st.
Proof.
  intros H. unfold tbind. destruct (m st) as [[a|e] st']; [apply H | reflexivity].
Qed.

Lemma try_catch_ext {A} (m m' : M A) (h h' : exn -> M A) (st : sys_state) :
  m st = m' st -> (forall e st', h e st' = h' e st') ->
  try_catch m h st = try_catch m' h' st.
Proof.
  intros Hm Hh. unfold try_catch. rewrite Hm.
  destruct (m' st) as [[a|e] st']; [reflexivity | apply Hh].
Qed.

Lemma scan_file_body_ignores_virustotal
    (w : world) (f : string -> result vt_report) (scan_id : string) (st : sys_state) :
  scan_file_body (set_virustotal_scan w f) scan_id st = scan_file_body w scan_id st.
Proof.
  unfold scan_file_body.
  apply (tbind_ext (get_scan_result_loop w max_db_retries 0 1)). intros scan_result st1.
  apply (tbind_ext (save w (set_status scan_result "running"))). intros _ st2.
  apply tbind_ext. intros _ st3.
  destruct (storage_path (set_status scan_result "running")) as [file_path|]; [|reflexivity].
  change (path_exists (set_virustotal_scan w f) file_path) with (path_exists w file_path).
  change (path_readable (set_virustotal_scan w f) file_path) with (path_readable w file_path).
  destruct (path_exists w file_path); [|reflexivity].
  destruct (path_readable w file_path); [|reflexivity].
  cbn [negb].
  apply tbind_ext. intros _ st4.
  apply tbind_ext. intros _ st5.
  rewrite !engine_step_virustotal.
  reflexivity.
Qed.

(** X5.  What VirusTotal answers has no influence on a scan: [scan_file]
    returns the same result and leaves the same state (row, object, events)
    whatever [scan_file_with_virustotal] reports, malicious findings
    included.  ([scan_with_virustotal] returns a list, and the block of
    [scan_file] that reads ['status'] from it always ends in its [except]
    clause.) *)
Theorem scan_file_ignores_virustotal_verdict
    (w : world) (f : string -> result vt_report) (retries : nat)
    (scan_id : string) (st : sys_state) :
  scan_file (set_virustotal_scan w f) retries scan_id st
  = scan_file w retries scan_id st.
Proof.
  unfold scan_file.
  apply try_catch_ext; [apply scan_file_body_ignores_virustotal|].
  intros e st'. reflexivity.
Qed.

Lemma get_scan_result_loop_missing (w : world) (st : sys_state) :
  db_get w (n_get st) <> GetFound ->
  db_get w (1 + n_get st) <> GetFound ->
  db_get w (2 + n_get st) = GetDoesNotExist ->
  get_scan_result_loop w max_db_retries 0 1 st
  = (Raise (mkExn DoesNotExist "ScanResult matching query does not exist."),
     mkState (db_row st) (scan_threats st) (task_instance st)
             (trace st ++ [Sleep 1; Sleep 2]) (3 + n_get st) (n_save st)).
Proof.
  intros H0 H1 H2. unfold max_db_retries. simpl in *.
  unfold try_catch, objects_get, tbind, emit, raise; simpl.
  destruct (db_get w (n_get st)); [congruence| |]; simpl;
    (destruct (db_get w (S (n_get st))); [congruence| |]); simpl;
    rewrite H2; rewrite <- app_assoc; reflexivity.
Qed.

(** X6.  When the ScanResult is not found at any of the three attempts (the
    last one raising [DoesNotExist]), [scan_file] sleeps 1 s and 2 s between
    the attempts, publishes the failure, writes nothing, calls no engine,
    and returns normally: no retry of the task is scheduled, whatever
    [self.request.retries] is. *)
Theorem scan_file_without_row
    (w : world) (retries : nat) (scan_id : string) (st : sys_state) :
  db_get w (n_get st) <> GetFound ->
  db_get w (1 + n_get st) <> GetFound ->
  db_get w (2 + n_get st) = GetDoesNotExist ->
  scan_file w retries scan_id st
  = (Ok tt,
     mkState (db_row st) (scan_threats st) (task_instance st)
             (trace st
              ++ [Sleep 1; Sleep 2;
                  StatusUpdate scan_id "failed"
                    ("Scan result with ID " ++ scan_id ++ " not found")])
             (3 + n_get st) (n_save st)).
Proof.
  intros H0 H1 H2.
  unfold scan_file, scan_file_body.
  unfold try_catch at 1. unfold tbind at 1.
  rewrite (get_scan_result_loop_missing w st H0 H1 H2).
  cbn [exn_class subclass].
  unfold send_scan_status_update, emit. state_simpl.
  rewrite <- app_assoc. reflexivity.
Qed.

(** Witness of [scan_file_without_row]: the row was deleted before the task
    ran, on its last allowed retry. *)
Lemma scan_file_without_row_witness :
  scan_file no_row_world 3 "scan-1" (uploaded "/media/f.bin")
  = (Ok tt,
     mkState (mkRow "pending" "clean" (Some "/media/f.bin")) [] None
             [Sleep 1; Sleep 2;
              StatusUpdate "scan-1" "failed" "Scan result with ID scan-1 not found"]
             3 0).
Proof.
  refine (scan_file_without_row no_row_world 3 "scan-1" (uploaded "/media/f.bin")
            _ _ eq_refl); discriminate.
Defined.

(** The run of [scan_file] on a file that cannot be read, step by step. *)
Lemma scan_file_unreadable_file
    (w : world) (retries : nat) (scan_id : string) (st : sys_state)
    (file_path : string) (k : nat) :
  fetched_at w st k ->
  (forall n, db_save_fails w n = None) ->
  row_storage_path (db_row st) = Some file_path ->
  path_exists w file_path = true ->
  path_readable w file_path = false ->
  scan_file w retries scan_id st
  = (Ok tt,
     mkState
       (mkRow "failed" (row_threat_level (db_row st)) (Some file_path))
       (scan_threats st)
       (Some (mkScanResult "failed" (row_threat_level (db_row st)) (Some file_path)
                           (Some ("File not readable: " ++ file_path)) None None))
       (trace st
        ++ sleeps k
        ++ [DbSave (mkRow "running" (row_threat_level (db_row st)) (Some file_path));
            StatusUpdate scan_id "running" "Scan in progress...";
            DbSave (mkRow "failed" (row_threat_level (db_row st)) (Some file_path));
            StatusUpdate scan_id "failed" ("File not readable: " ++ file_path)])
       (S k + n_get st) (S (S (n_save st)))).
Proof.
  intros Hf Hsave Hpath Hex Hrd.
  unfold scan_file, scan_file_body.
  unfold try_catch at 1. unfold tbind at 1.
  rewrite (get_scan_result_loop_found w st k Hf).
  unfold tbind at 1. unfold save at 1. cbn [n_save after_fetch]. rewrite Hsave.
  unfold tbind at 1. unfold try_catch at 1.
  unfold send_scan_status_update at 1, emit at 1.
  cbn [storage_path set_status instance_of_row]. rewrite Hpath, Hex, Hrd. cbn [negb].
  unfold file_failure, tbind, save, send_scan_status_update, emit.
  cbn [n_save]. rewrite Hsave.
  unfold row_of_instance, set_error_message, set_status, instance_of_row. cbn.
  rewrite ?Hpath. rewrite <- !app_assoc. cbn [app]. reflexivity.
Qed.

(** X7.  When the stored file exists but cannot be read, an invocation of
    [scan_file] calls no engine, whatever the database does; and when the
    ScanResult is fetched within the three attempts and the database accepts
    the task's writes, it ends like for a missing file: the row is 'failed',
    the object carries 'File not readable: <path>', the failure is published
    with that message and the task returns normally. *)
Theorem unreadable_file_fails_without_engines
    (w : world) (retries : nat) (scan_id : string) (st : sys_state)
    (file_path : string) :
  row_storage_path (db_row st) = Some file_path ->
  path_exists w file_path = true ->
  path_readable w file_path = false ->
  (exists evs,
     trace (snd (scan_file w retries scan_id st)) = (trace st ++ evs)%list /\
     forallb (fun e => negb (is_engine_call e)) evs = true) /\
  (forall k,
     fetched_at w st k ->
     (forall n, db_save_fails w n = None) ->
     scan_file w retries scan_id st
     = (Ok tt,
        mkState
          (mkRow "failed" (row_threat_level (db_row st)) (Some file_path))
          (scan_threats st)
          (Some (mkScanResult "failed" (row_threat_level (db_row st)) (Some file_path)
                              (Some ("File not readable: " ++ file_path)) None None))
          (trace st
           ++ sleeps k
           ++ [DbSave (mkRow "running" (row_threat_level (db_row st)) (Some file_path));
               StatusUpdate scan_id "running" "Scan in progress...";
               DbSave (mkRow "failed" (row_threat_level (db_row st)) (Some file_path));
               StatusUpdate scan_id "failed" ("File not readable: " ++ file_path)])
          (S k + n_get st) (S (S (n_save st))))).
Proof.
  intros Hpath Hex Hrd. split.
  - apply (scan_file_without_file_calls_no_engine w retries scan_id st file_path Hpath).
    rewrite Hex, Hrd. reflexivity.
  - intros k Hf Hsave.
    exact (scan_file_unreadable_file w retries scan_id st file_path k
             Hf Hsave Hpath Hex Hrd).
Qed.

(** Witness of [unreadable_file_fails_without_engines]. *)
Lemma unreadable_file_fails_without_engines_witness :
  (exists evs,
     trace (snd (scan_file unreadable_file_world 0 "scan-1" (uploaded "/media/f.bin")))
     = (trace (uploaded "/media/f.bin") ++ evs)%list /\
     forallb (fun e => negb (is_engine_call e)) evs = true) /\
  row_status
    (db_row (snd (scan_file unreadable_file_world 0 "scan-1" (uploaded "/media/f.bin"))))
  = "failed".
Proof.
  destruct (unreadable_file_fails_without_engines
              unreadable_file_world 0 "scan-1" (uploaded "/media/f.bin") "/media/f.bin"
              eq_refl eq_refl eq_refl) as [Hquiet Hfailed].
  split; [exact Hquiet|].
  rewrite (Hfailed 0).
  - reflexivity.
  - split; [unfold max_db_retries; lia|]. split; [reflexivity|].
    intros j Hj. lia.
  - intros n. reflexivity.
Defined.

(** X8.  When the body of [scan_file] raises an exception [e] other than
    [DoesNotExist], the task publishes 'Scan task failed: <e>', marks the
    row 'failed' when it can be fetched and saved, and then: with fewer than
    three retries behind it, schedules a retry after 60 * 2^retries seconds
    (60, 120, 240) and raises celery's Retry; from the third retry on, it
    re-raises [e] itself and schedules nothing.  No engine is called in the
    handler. *)
Theorem scan_file_retry_policy
    (w : world) (retries : nat) (scan_id : string) (st st1 : sys_state) (e : exn) :
  scan_file_body w scan_id st = (Raise e, st1) ->
  subclass (exn_class e) DoesNotExist = false ->
  let out := scan_file w retries scan_id st in
  (exists saved,
     trace (snd out)
     = (trace st1 ++ saved
        ++ [StatusUpdate scan_id "failed" ("Scan task failed: " ++ exn_msg e)]
        ++ retry_events retries)%list /\
     (saved = [] \/
      saved = [DbSave (mkRow "failed" (row_threat_level (db_row st1))
                             (row_storage_path (db_row st1)))])) /\
  ((retries < task_max_retries)%nat ->
   retry_events retries = [RetryTask (60 * 2 ^ retries)] /\
   exists r, fst out = Raise r /\ exn_class r = CeleryRetry) /\
  ((task_max_retries <= retries)%nat ->
   retry_events retries = [] /\ fst out = Raise e) /\
  (db_get w (n_get st1) = GetFound -> db_save_fails w (n_save st1) = None ->
   row_status (db_row (snd out)) = ScanStatus.FAILED /\
   row_threat_level (db_row (snd out)) = row_threat_level (db_row st1)).
Proof.
  intros Hbody Hcls out.
  assert (Hout : out
    = (if (retries <? task_max_retries)%nat
       then Raise (mkExn CeleryRetry ("Retry in " ++ str_of_nat (60 * 2 ^ retries) ++ "s"))
       else Raise e,
       match db_get w (n_get st1), db_save_fails w (n_save st1) with
       | GetFound, None =>
         mkState (mkRow "failed" (row_threat_level (db_row st1))
                        (row_storage_path (db_row st1)))
                 (scan_threats st1)
                 (Some (set_error_message
                          (set_status (instance_of_row (db_row st1)) "failed")
                          (Some ("Scan task failed: " ++ exn_msg e))))
                 (trace st1
                  ++ [DbSave (mkRow "failed" (row_threat_level (db_row st1))
                                    (row_storage_path (db_row st1)))]
                  ++ [StatusUpdate scan_id "failed" ("Scan task failed: " ++ exn_msg e)]
                  ++ retry_events retries)
                 (S (n_get st1)) (S (n_save st1))
       | GetFound, Some _ =>
         mkState (db_row st1) (scan_threats st1)
                 (Some (set_error_message
                          (set_status (instance_of_row (db_row st1)) "failed")
                          (Some ("Scan task failed: " ++ exn_msg e))))
                 (trace st1
                  ++ [StatusUpdate scan_id "failed" ("Scan task failed: " ++ exn_msg e)]
                  ++ retry_events retries)
                 (S (n_get st1)) (S (n_save st1))
       | _, _ =>
         mkState (db_row st1) (scan_threats st1) (task_instance st1)
                 (trace st1
                  ++ [StatusUpdate scan_id "failed" ("Scan task failed: " ++ exn_msg e)]
                  ++ retry_events retries)
                 (S (n_get st1)) (n_save st1)
       end)).
  { subst out. unfold scan_file. unfold try_catch at 1. rewrite Hbody, Hcls.
    unfold retry_events, tbind, try_catch, objects_get, save, ret,
      send_scan_status_update, emit, raise.
    destruct (db_get w (n_get st1)); state_simpl;
      try destruct (db_save_fails w (n_save st1)); state_simpl;
      destruct (retries <? task_max_retries)%nat; state_simpl;
      rewrite <- ?app_assoc; cbn [app]; rewrite ?app_nil_r; reflexivity. }
  clearbody out. subst out. cbn [fst snd].
  unfold retry_events.
  split; [|split; [|split]].
  - destruct (db_get w (n_get st1)); [destruct (db_save_fails w (n_save st1))| |];
      state_simpl.
    + exists []. split; [reflexivity | now left].
    + eexists. split; [reflexivity | now right].
    + exists []. split; [reflexivity | now left].
    + exists []. split; [reflexivity | now left].
  - intros Hlt. apply Nat.ltb_lt in Hlt. rewrite Hlt.
    split; [reflexivity|]. eexists. split; reflexivity.
  - intros Hge. apply Nat.ltb_ge in Hge. rewrite Hge. split; reflexivity.
  - intros -> ->. state_simpl. split; reflexivity.
Qed.

Lemma scan_file_retry_policy_witness :
  retry_events 0 = [RetryTask 60] /\
  exists r,
    fst (scan_file (calm_world ScanNone) 0 "scan-1"
           (mkState (mkRow "pending" "clean" None) [] None [] 0 0)) = Raise r /\
    exn_class r = CeleryRetry.
Proof.
  refine (proj1 (proj2
            (scan_file_retry_policy (calm_world ScanNone) 0 "scan-1"
               (mkState (mkRow "pending" "clean" None) [] None [] 0 0)
               (snd (scan_file_body (calm_world ScanNone) "scan-1"
                       (mkState (mkRow "pending" "clean" None) [] None [] 0 0)))
               (mkExn TypeError
                  "stat: path should be string, bytes, os.PathLike or integer, not NoneType")
               _ _)) _).
  - reflexivity.
  - reflexivity.
  - unfold task_max_retries. lia.
Defined.

(** ** YARA: the rule set *)

Lemma dict_lookup_dict_set (d : list (string * string)) (k k' v : string) :
  dict_lookup k (dict_set d k' v)
  = if String.eqb k k' then Some v else dict_lookup k d.
Proof.
  induction d as [|[k0 v0] d IH]; simpl.
  - reflexivity.
  - destruct (String.eqb k' k0) eqn:E0; simpl.
    + apply String.eqb_eq in E0. subst k0.
      destruct (String.eqb k k'); reflexivity.
    + rewrite IH. destruct (String.eqb k k') eqn:E; [|reflexivity].
      apply String.eqb_eq in E. subst k'. rewrite E0. reflexivity.
Qed.

Lemma in_keys_dict_set (d : list (string * string)) (k k' v : string) :
  In k (map fst (dict_set d k' v)) <-> k = k' \/ In k (map fst d).
Proof.
  induction d as [|[k0 v0] d IH]; simpl.
  - intuition (subst; auto).
  - destruct (String.eqb k' k0) eqn:E0; simpl.
    + apply String.eqb_eq in E0. subst k0. intuition (subst; auto).
    + rewrite IH. intuition (subst; auto).
Qed.

Lemma NoDup_dict_set (d : list (string * string)) (k v : string) :
  NoDup (map fst d) -> NoDup (map fst (dict_set d k v)).
Proof.
  induction d as [|[k0 v0] d IH]; simpl; intros Hd.
  - constructor; [intros [] | constructor].
  - inversion Hd as [|? ? Hnot Hrest]; subst.
    destruct (String.eqb k k0) eqn:E0; simpl.
    + apply String.eqb_eq in E0. subst k0. constructor; assumption.
    + constructor; [|auto].
      rewrite in_keys_dict_set. intros [->|Hin]; [|contradiction].
      rewrite String.eqb_refl in E0. discriminate.
Qed.

Lemma find_snoc {A} (p : A -> bool) (l : list A) (x : A) :
  find p (l ++ [x])
  = match find p l with
    | Some y => Some y
    | None => if p x then Some x else None
    end.
Proof.
  induction l as [|y l IH]; simpl; [reflexivity|].
  destruct (p y); [reflexivity | exact IH].
Qed.

(** X9.  The dict that [compile_yara_rules] hands to [yara.compile] holds,
    for every rule name, the content of the last active rule of that name
    whose content is not blank and contains 'rule ' (a later valid rule
    replaces an earlier one of the same name; an invalid one does not), and
    nothing for a name without such a rule; no name occurs twice. *)
Theorem yara_rules_dict_last_valid_rule_wins (active_rules : list YaraRule) :
  (forall name,
     dict_lookup name (yara_rules_dict active_rules)
     = option_map rule_content
         (find (fun rule => String.eqb name (rule_name rule) && valid_rule rule)
               (rev active_rules))) /\
  NoDup (map fst (yara_rules_dict active_rules)).
Proof.
  unfold yara_rules_dict.
  set (f := fun (rules_dict : list (string * string)) (rule : YaraRule) =>
              if blank (rule_content rule) then rules_dict
              else if negb (contains "rule " (rule_content rule)) then rules_dict
              else dict_set rules_dict (rule_name rule) (rule_content rule)).
  assert (Hf : forall acc rule name,
             dict_lookup name (f acc rule)
             = if String.eqb name (rule_name rule) && valid_rule rule
               then Some (rule_content rule) else dict_lookup name acc).
  { intros acc rule name. unfold f, valid_rule.
    destruct (blank (rule_content rule)); simpl.
    - rewrite andb_false_r. reflexivity.
    - destruct (contains "rule " (rule_content rule)); simpl.
      + rewrite andb_true_r. apply dict_lookup_dict_set.
      + rewrite andb_false_r. reflexivity. }
  assert (Hnd : forall acc rule, NoDup (map fst acc) -> NoDup (map fst (f acc rule))).
  { intros acc rule Hacc. unfold f.
    destruct (blank (rule_content rule)); [assumption|].
    destruct (negb (contains "rule " (rule_content rule))); [assumption|].
    now apply NoDup_dict_set. }
  assert (Hgen : forall rules acc,
             (forall name,
                dict_lookup name (fold_left f rules acc)
                = match find (fun rule => String.eqb name (rule_name rule)
                                          && valid_rule rule) (rev rules) with
                  | Some rule => Some (rule_content rule)
                  | None => dict_lookup name acc
                  end) /\
             (NoDup (map fst acc) -> NoDup (map fst (fold_left f rules acc)))).
  { induction rules as [|rule rules IH]; intros acc; simpl.
    - split; [reflexivity | trivial].
    - destruct (IH (f acc rule)) as [IHl IHn]. split.
      + intros name. rewrite IHl, find_snoc.
        destruct (find _ (rev rules)); [reflexivity|].
        rewrite Hf. destruct (String.eqb name (rule_name rule) && valid_rule rule);
          reflexivity.
      + intros Hacc. apply IHn, Hnd, Hacc. }
  destruct (Hgen active_rules []) as [Hl Hn]. split.
  - intros name. rewrite Hl. destruct (find _ (rev active_rules)); reflexivity.
  - apply Hn. constructor.
Qed.



(** ** YARA: the scan *)

Lemma yara_compile_loop_eq (w : world) :
  yara_compile_loop w max_retries 0 = Next (yara_compiled w).
Proof.
  unfold yara_compiled, max_retries. simpl.
  destruct (compile_yara_rules_returns w 0) as [o0 ->].
  destruct (compile_yara_rules_returns w 1) as [o1 ->].
  destruct (compile_yara_rules_returns w 2) as [o2 ->].
  destruct o0; [reflexivity|]. destruct o1; [reflexivity|].
  destruct o2; reflexivity.
Qed.

Lemma yara_compiled_none (w : world) :
  yara_compiled w = None
  <-> forall call, (call < max_retries)%nat -> compile_yara_rules w call = Ok None.
Proof.
  unfold yara_compiled, max_retries.
  destruct (compile_yara_rules_returns w 0) as [o0 H0].
  destruct (compile_yara_rules_returns w 1) as [o1 H1].
  destruct (compile_yara_rules_returns w 2) as [o2 H2].
  rewrite H0, H1, H2. split.
  - intros H call Hcall.
    destruct o0; [discriminate|]. destruct o1; [discriminate|].
    destruct o2; [discriminate|].
    destruct call as [|[|[|call]]]; [assumption | assumption | assumption | lia].
  - intros Hall.
    rewrite (Hall 0) in H0 by lia. rewrite (Hall 1) in H1 by lia.
    rewrite (Hall 2) in H2 by lia.
    injection H0 as <-. injection H1 as <-. injection H2 as <-. reflexivity.
Qed.

(** [scan_with_yara] as one expression. *)
Lemma scan_with_yara_eq (w : world) (file_path : string) :
  scan_with_yara w file_path
  = Ok (match yara_compiled w with
        | None => mk_result "clean" "No YARA rules available for scanning" []
        | Some compiled_rules => yara_verdict w compiled_rules file_path
        end).
Proof.
  unfold scan_with_yara, scan_with_yara_body.
  rewrite yara_compile_loop_eq.
  destruct (yara_compiled w) as [compiled_rules|]; [|reflexivity].
  unfold yara_verdict, yara_match_verdict, yara_max_file_size.
  destruct (path_exists w file_path); simpl; [|reflexivity].
  destruct (path_readable w file_path); simpl; [|reflexivity].
  destruct (path_getsize w file_path) as [file_size|size_error]; simpl.
  - destruct (file_size >? _)%Z; simpl; [reflexivity|].
    destruct (yara_match_file w compiled_rules file_path) as [matches|e]; simpl.
    + destruct (yara_threats file_path matches) as [|t ths]; simpl; [reflexivity|].
      rewrite create_threat_entries_ok. reflexivity.
    + destruct (subclass (exn_class e) YaraTimeoutError); simpl; [reflexivity|].
      destruct (subclass (exn_class e) YaraError); reflexivity.
  - destruct (subclass (exn_class size_error) OSError); simpl; [|reflexivity].
    destruct (yara_match_file w compiled_rules file_path) as [matches|e]; simpl.
    + destruct (yara_threats file_path matches) as [|t ths]; simpl; [reflexivity|].
      rewrite create_threat_entries_ok. reflexivity.
    + destruct (subclass (exn_class e) YaraTimeoutError); simpl; [reflexivity|].
      destruct (subclass (exn_class e) YaraError); reflexivity.
Qed.

Lemma yara_match_verdict_cases (w : world) (compiled_rules : list (string * string))
    (file_path : string) :
  exists st msg ths,
    yara_match_verdict w compiled_rules file_path = mk_result st msg ths /\
    (st = "error" /\ (msg = "YARA scan timeout"
                      \/ exists m, msg = "YARA scan error: " ++ m
                      \/ msg = "YARA scan failed: " ++ m)
     \/ (st = "clean" \/ st = "infected")
        /\ exists n, msg = "YARA scan completed. Found " ++ n).
Proof.
  unfold yara_match_verdict.
  destruct (yara_match_file w compiled_rules file_path) as [matches|e].
  - do 3 eexists. split; [reflexivity|]. right. split.
    + destruct (yara_threats file_path matches); auto.
    + eexists. reflexivity.
  - destruct (subclass (exn_class e) YaraTimeoutError).
    + do 3 eexists. split; [reflexivity|]. left. auto.
    + destruct (subclass (exn_class e) YaraError);
        do 3 eexists; (split; [reflexivity|]); left; split; eauto.
Qed.

(** X11.  [scan_with_yara] answers 'clean' with 'No YARA rules available for
    scanning' exactly when [compile_yara_rules] returns [None] at each of its
    three calls: not only without active rules, but also when the query of
    the rules fails, when no rule passes the validation, and when the yara
    library rejects the rule set. *)
Theorem yara_clean_without_rules_iff (w : world) (file_path : string) :
  scan_with_yara w file_path
  = Ok (mk_result "clean" "No YARA rules available for scanning" [])
  <-> forall call, (call < max_retries)%nat -> compile_yara_rules w call = Ok None.
Proof.
  rewrite scan_with_yara_eq, <- yara_compiled_none.
  destruct (yara_compiled w) as [compiled_rules|]; [|tauto].
  split; [|discriminate].
  intros H. exfalso. revert H. unfold yara_verdict.
  destruct (negb (path_exists w file_path)); [discriminate|].
  destruct (negb (path_readable w file_path)); [discriminate|].
  destruct (yara_match_verdict_cases w compiled_rules file_path)
    as (st & msg & ths & Hv & Hcases).
  assert (Hm : Ok (yara_match_verdict w compiled_rules file_path)
               <> Ok (mk_result "clean" "No YARA rules available for scanning" [])).
  { rewrite Hv. destruct Hcases as [[-> _]|[_ [n ->]]]; discriminate. }
  destruct (path_getsize w file_path) as [file_size|size_error].
  - destruct (file_size >? _)%Z; [discriminate | exact Hm].
  - destruct (subclass (exn_class size_error) OSError); [exact Hm | discriminate].
Qed.

(** X12.  The compile loop of [scan_with_yara] always runs to its end or
    breaks with compiled rules: since [compile_yara_rules] catches every
    exception itself, the [except] clause around its call is dead, and
    [scan_with_yara] never answers 'YARA rules compilation failed after 3
    attempts'. *)
Theorem yara_never_reports_compilation_failure (w : world) (file_path : string) :
  (exists compiled_rules, yara_compile_loop w max_retries 0 = Next compiled_rules) /\
  scan_with_yara w file_path
  <> Ok (mk_result "error" "YARA rules compilation failed after 3 attempts" []).
Proof.
  split; [eexists; apply yara_compile_loop_eq|].
  rewrite scan_with_yara_eq.
  destruct (yara_compiled w) as [compiled_rules|]; [|discriminate].
  unfold yara_verdict.
  destruct (negb (path_exists w file_path)); [discriminate|].
  destruct (negb (path_readable w file_path)); [discriminate|].
  destruct (yara_match_verdict_cases w compiled_rules file_path)
    as (st & msg & ths & Hv & Hcases).
  assert (Hm : Ok (yara_match_verdict w compiled_rules file_path)
               <> Ok (mk_result "error"
                                "YARA rules compilation failed after 3 attempts" [])).
  { rewrite Hv.
    destruct Hcases as [[-> [-> | [m [-> | ->]]]]|[[-> | ->] _]]; discriminate. }
  destruct (path_getsize w file_path) as [file_size|size_error].
  - destruct (file_size >? _)%Z; [discriminate | exact Hm].
  - destruct (subclass (exn_class size_error) OSError); [exact Hm | discriminate].
Qed.

(** X13.  [scan_with_yara] answers 'skipped' exactly for a file that is
    there, readable, and whose size is known and exceeds YARA_MAX_FILE_SIZE
    (100 MB when the setting is absent), provided rules were compiled; the
    message then names the size. *)
Theorem yara_skipped_iff_oversized (w : world) (file_path msg : string) :
  scan_with_yara w file_path = Ok (mk_result "skipped" msg [])
  <-> (exists compiled_rules, yara_compiled w = Some compiled_rules) /\
      path_exists w file_path = true /\
      path_readable w file_path = true /\
      exists file_size,
        path_getsize w file_path = Ok file_size /\
        (file_size > yara_max_file_size w)%Z /\
        msg = "File too large for YARA scan: " ++ str_of_Z file_size ++ " bytes".
Proof.
  rewrite scan_with_yara_eq. split.
  - destruct (yara_compiled w) as [compiled_rules|]; [|discriminate].
    unfold yara_verdict.
    destruct (path_exists w file_path); simpl; [|discriminate].
    destruct (path_readable w file_path); simpl; [|discriminate].
    destruct (yara_match_verdict_cases w compiled_rules file_path)
      as (st & m & ths & Hv & Hcases).
    assert (Hm : Ok (yara_match_verdict w compiled_rules file_path)
                 <> Ok (mk_result "skipped" msg [])).
    { rewrite Hv. destruct Hcases as [[-> _]|[[-> | ->] _]]; discriminate. }
    destruct (path_getsize w file_path) as [file_size|size_error].
    + destruct (file_size >? yara_max_file_size w)%Z eqn:Hsize;
        [|intros H; contradiction].
      intros H. injection H as <-.
      split; [eauto|]. split; [reflexivity|]. split; [reflexivity|].
      exists file_size. split; [reflexivity|]. split; [|reflexivity].
      apply Z.gtb_lt in Hsize. lia.
    + destruct (subclass (exn_class size_error) OSError);
        [intros H; contradiction | discriminate].
  - intros ([compiled_rules ->] & He & Hr & file_size & Hsize & Hgt & ->).
    unfold yara_verdict. rewrite He, Hr, Hsize. simpl.
    assert (Hb : (file_size >? yara_max_file_size w)%Z = true)
      by (apply Z.gtb_lt; lia).
    rewrite Hb. reflexivity.
Qed.

Lemma yara_compiled_set_path_getsize (w : world) (f : string -> result Z) :
  yara_compiled (set_path_getsize w f) = yara_compiled w.
Proof. reflexivity. Qed.

(** X14.  A file whose size cannot be determined ([os.path.getsize] raises
    [OSError]) is scanned like a file within the size limit: the failed
    check neither skips the scan nor turns it into an error. *)
Theorem yara_size_error_does_not_stop_scan
    (w : world) (file_path : string) (size_error : exn) (file_size : Z) :
  path_getsize w file_path = Raise size_error ->
  subclass (exn_class size_error) OSError = true ->
  (file_size <= yara_max_file_size w)%Z ->
  scan_with_yara w file_path
  = scan_with_yara (set_path_getsize w (fun _ => Ok file_size)) file_path.
Proof.
  intros Hsize Hos Hle.
  rewrite !scan_with_yara_eq, yara_compiled_set_path_getsize.
  destruct (yara_compiled w) as [compiled_rules|]; [|reflexivity].
  unfold yara_verdict. rewrite Hsize, Hos.
  change (path_exists (set_path_getsize w (fun _ => Ok file_size)) file_path)
    with (path_exists w file_path).
  change (path_readable (set_path_getsize w (fun _ => Ok file_size)) file_path)
    with (path_readable w file_path).
  change (path_getsize (set_path_getsize w (fun _ => Ok file_size)) file_path)
    with (@Ok Z file_size).
  change (yara_max_file_size (set_path_getsize w (fun _ => Ok file_size)))
    with (yara_max_file_size w).
  assert (Hb : (file_size >? yara_max_file_size w)%Z = false)
    by (rewrite Z.gtb_ltb; apply Z.ltb_ge; exact Hle).
  cbv iota beta. rewrite Hb. reflexivity.
Qed.

Lemma yara_size_error_does_not_stop_scan_witness :
  scan_with_yara unknown_size_world "/media/f.bin"
  = scan_with_yara (set_path_getsize unknown_size_world (fun _ => Ok 0%Z))
                   "/media/f.bin".
Proof.
  apply (yara_size_error_does_not_stop_scan unknown_size_world "/media/f.bin"
           (mkExn OSError "Stale file handle") 0%Z).
  - reflexivity.
  - reflexivity.
  - vm_compute. discriminate.
Defined.

Lemma yara_threats_readable (file_path : string) (matches : list yara_match) :
  map (str_field "name") (yara_threats file_path matches)
  = map m_rule (filter readable_match matches) /\
  map (str_field "severity") (yara_threats file_path matches)
  = map (fun m => yara_severity (m_tags m)) (filter readable_match matches) /\
  Forall (fun threat => str_field "location" threat = file_path /\
                        str_field "detection_engine" threat = "YARA")
         (yara_threats file_path matches).
Proof.
  induction matches as [|m r (IHn & IHs & IHl)]; simpl.
  - repeat split; constructor.
  - assert (Hm : readable_match m
                 = match m_strings m with Ok _ => true | Raise _ => false end)
      by reflexivity.
    rewrite !Hm. destruct (m_strings m) as [string_matches|e]; simpl.
    + rewrite IHn, IHs. split; [reflexivity|]. split; [reflexivity|].
      constructor; [split; reflexivity | exact IHl].
    + split; [assumption|]. split; assumption.
Qed.

Lemma yara_severity_range (tags : list string) :
  In (yara_severity tags) ["high"; "medium"; "low"].
Proof.
  unfold yara_severity.
  destruct (existsb _ tags); [simpl; auto|].
  destruct (existsb _ tags); simpl; auto.
Qed.

(** X15.  When the match runs, [scan_with_yara] reports one threat for each
    match whose string matches can be read, in the order of the matches,
    under the name of the matching rule and with the severity of its tags
    (one of 'high', 'medium', 'low'), located at the scanned file; matches
    that cannot be read are dropped without failing the scan, the message
    counts the reported threats, and the status is 'infected' exactly when
    there is one. *)
Theorem yara_reports_readable_matches
    (w : world) (file_path : string) (compiled_rules : list (string * string))
    (matches : list yara_match) :
  yara_compiled w = Some compiled_rules ->
  path_exists w file_path = true ->
  path_readable w file_path = true ->
  (forall file_size, path_getsize w file_path = Ok file_size ->
                     (file_size <= yara_max_file_size w)%Z) ->
  (forall size_error, path_getsize w file_path = Raise size_error ->
                      subclass (exn_class size_error) OSError = true) ->
  yara_match_file w compiled_rules file_path = Ok matches ->
  exists threats,
    scan_with_yara w file_path
    = Ok (mk_result (if existsb readable_match matches then "infected" else "clean")
                    ("YARA scan completed. Found "
                     ++ str_of_nat (List.length (filter readable_match matches))
                     ++ " threats.")
                    threats) /\
    map (str_field "name") threats = map m_rule (filter readable_match matches) /\
    map (str_field "severity") threats
    = map (fun m => yara_severity (m_tags m)) (filter readable_match matches) /\
    Forall (fun threat => str_field "location" threat = file_path /\
                          str_field "detection_engine" threat = "YARA" /\
                          In (str_field "severity" threat) ["high"; "medium"; "low"])
           threats.
Proof.
  intros Hc He Hr Hsize Hos Hm.
  exists (yara_threats file_path matches).
  destruct (yara_threats_readable file_path matches) as (Hn & Hs & Hl).
  split; [|split; [exact Hn|split; [exact Hs|]]].
  - rewrite scan_with_yara_eq, Hc. unfold yara_verdict. rewrite He, Hr. simpl.
    assert (Hv : yara_match_verdict w compiled_rules file_path
                 = mk_result
                     (if existsb readable_match matches then "infected" else "clean")
                     ("YARA scan completed. Found "
                      ++ str_of_nat (List.length (filter readable_match matches))
                      ++ " threats.")
                     (yara_threats file_path matches)).
    { unfold yara_match_verdict. rewrite Hm. cbv zeta.
      assert (Hlen : List.length (yara_threats file_path matches)
                     = List.length (filter readable_match matches)).
      { rewrite <- (length_map (str_field "name")), Hn. apply length_map. }
      rewrite Hlen.
      assert (Hst : match yara_threats file_path matches with
                    | [] => "clean" | _ => "infected" end
                    = if existsb readable_match matches then "infected" else "clean").
      { clear. induction matches as [|m r IH]; simpl; [reflexivity|].
        assert (Hm : readable_match m
                     = match m_strings m with Ok _ => true | Raise _ => false end)
          by reflexivity.
        rewrite Hm. destruct (m_strings m); simpl; [reflexivity|].
        exact IH. }
      rewrite Hst. reflexivity. }
    destruct (path_getsize w file_path) as [file_size|size_error] eqn:Hg.
    + assert (Hb : (file_size >? yara_max_file_size w)%Z = false)
        by (rewrite Z.gtb_ltb; apply Z.ltb_ge; apply Hsize; reflexivity).
      rewrite Hb, Hv. reflexivity.
    + rewrite (Hos size_error eq_refl), Hv. reflexivity.
  - rewrite Forall_forall in *. intros threat Hin.
    destruct (Hl threat Hin) as [Hloc Heng].
    split; [exact Hloc|]. split; [exact Heng|].
    assert (Hsev : In (str_field "severity" threat)
                      (map (str_field "severity") (yara_threats file_path matches)))
      by (apply in_map; exact Hin).
    rewrite Hs in Hsev. apply in_map_iff in Hsev as (m & <- & _).
    apply yara_severity_range.
Qed.

Lemma yara_reports_readable_matches_witness :
  exists threats,
    scan_with_yara yara_hit_world "/media/f.bin"
    = Ok (mk_result "infected" "YARA scan completed. Found 1 threats." threats) /\
    map (str_field "name") threats = ["SuspiciousStrings"] /\
    map (str_field "severity") threats = ["medium"] /\
    Forall (fun threat => str_field "location" threat = "/media/f.bin" /\
                          str_field "detection_engine" threat = "YARA" /\
                          In (str_field "severity" threat) ["high"; "medium"; "low"])
           threats.
Proof.
  refine (yara_reports_readable_matches yara_hit_world "/media/f.bin"
            [("SuspiciousStrings", "rule SuspiciousStrings { condition: true }")]
            [mkMatch "SuspiciousStrings" "default" [] (Ok [])]
            eq_refl eq_refl eq_refl _ _ eq_refl).
  - intros file_size H. injection H as <-. vm_compute. discriminate.
  - intros size_error H. discriminate H.
Defined.

Lemma lower_ascii_idem (c : ascii) : lower_ascii (lower_ascii c) = lower_ascii c.
Proof.
  destruct c as [[] [] [] [] [] [] [] []]; reflexivity.
Qed.

Lemma lower_idem (s : string) : lower (lower s) = lower s.
Proof.
  induction s as [|c s IH]; simpl; [reflexivity|].
  rewrite lower_ascii_idem, IH. reflexivity.
Qed.

Lemma existsb_tag_in_lower (words tags : list string) :
  existsb (tag_in words) (map lower tags) = existsb (tag_in words) tags.
Proof.
  induction tags as [|tag tags IH]; simpl; [reflexivity|].
  rewrite IH. f_equal. unfold tag_in. rewrite lower_idem. reflexivity.
Qed.

(** X17.  The severity of a YARA match depends on its tags only up to case
    and order, and combines over tag lists with 'high' first: the severity
    of the tags of two lists together is 'high' if either list gives 'high',
    else 'low' if either gives 'low', else 'medium'.  (So a 'suspicious' or
    'info' tag lowers a match from the default 'medium' to 'low'.) *)
Theorem yara_severity_of_tags (tags tags' : list string) :
  yara_severity (map lower tags) = yara_severity tags /\
  yara_severity (tags ++ tags')
  = (if String.eqb (yara_severity tags) "high" || String.eqb (yara_severity tags') "high"
     then "high"
     else if String.eqb (yara_severity tags) "low"
             || String.eqb (yara_severity tags') "low"
     then "low" else "medium").
Proof.
  split.
  - unfold yara_severity. rewrite !existsb_tag_in_lower. reflexivity.
  - unfold yara_severity. rewrite !existsb_app.
    destruct (existsb (tag_in ["critical"; "high"; "malware"; "trojan"; "virus"]) tags),
             (existsb (tag_in ["critical"; "high"; "malware"; "trojan"; "virus"]) tags'),
             (existsb (tag_in ["low"; "info"; "suspicious"]) tags),
             (existsb (tag_in ["low"; "info"; "suspicious"]) tags'); reflexivity.
Qed.

(** ** The signal handler: writes and levels outside the enumeration *)

Lemma handler_keeps_threats (scan_result : ScanResult) (st : sys_state) :
  scan_threats (snd (update_scan_result_threat_level true scan_result st))
  = scan_threats st.
Proof.
  unfold update_scan_result_threat_level, save_threat_level.
  repeat match goal with |- context [if ?b then _ else _] => destruct b end;
    reflexivity.
Qed.

(** X18.  The post_save handler of ScanThreat touches nothing but the
    threat level, of the caller's object and of the row: the other
    attributes of the object, and the status, the stored path and the
    threats of the scan stay as they are.  It saves exactly when it changes
    the level of the object, and then writes that level to the row (one
    write, none otherwise); it does nothing for an update of an existing
    threat ([created] false), and is idempotent: run again on the object and
    the state it has left, it writes nothing. *)
Theorem handler_saves_only_a_changed_level
    (created : bool) (scan_result : ScanResult) (st : sys_state) :
  let out := update_scan_result_threat_level created scan_result st in
  set_threat_level (fst out) (threat_level scan_result) = scan_result /\
  row_status (db_row (snd out)) = row_status (db_row st) /\
  row_storage_path (db_row (snd out)) = row_storage_path (db_row st) /\
  scan_threats (snd out) = scan_threats st /\
  task_instance (snd out) = task_instance st /\
  (out = (scan_result, st) \/
   created = true /\
   threat_level (fst out) <> threat_level scan_result /\
   row_threat_level (db_row (snd out)) = threat_level (fst out) /\
   trace (snd out) = (trace st ++ [DbSave (db_row (snd out))])%list) /\
  update_scan_result_threat_level false scan_result st = (scan_result, st) /\
  update_scan_result_threat_level true
    (fst (update_scan_result_threat_level true scan_result st))
    (snd (update_scan_result_threat_level true scan_result st))
  = update_scan_result_threat_level true scan_result st.
Proof.
  assert (Htrue :
    let out := update_scan_result_threat_level true scan_result st in
    set_threat_level (fst out) (threat_level scan_result) = scan_result /\
    row_status (db_row (snd out)) = row_status (db_row st) /\
    row_storage_path (db_row (snd out)) = row_storage_path (db_row st) /\
    scan_threats (snd out) = scan_threats st /\
    task_instance (snd out) = task_instance st /\
    (out = (scan_result, st) \/
     true = true /\
     threat_level (fst out) <> threat_level scan_result /\
     row_threat_level (db_row (snd out)) = threat_level (fst out) /\
     trace (snd out) = (trace st ++ [DbSave (db_row (snd out))])%list) /\
    update_scan_result_threat_level true (fst out) (snd out) = out).
  { pose proof (handler_keeps_threats scan_result st) as Hsev.
    cbv zeta.
    remember (update_scan_result_threat_level true scan_result st) as out eqn:E.
    rename Hsev into Hs.
    unfold update_scan_result_threat_level. rewrite Hs.
    unfold update_scan_result_threat_level in E.
    destruct scan_result as [status0 level path0 err found results].
    destruct st as [[rstatus rlevel rpath] severities inst tr ng ns].
    unfold save_threat_level, set_threat_level, str_in in *.
    cbv [ThreatLevel.CLEAN ThreatLevel.CRITICAL ThreatLevel.HIGH ThreatLevel.MEDIUM
         ThreatLevel.LOW] in *.
    cbn [db_row scan_threats task_instance trace n_get n_save
         row_status row_threat_level row_storage_path
         status threat_level storage_path error_message threats_found scan_results]
      in E.
    cbn [scan_threats threat_level] in *.
    set (critical := existsb (String.eqb "critical") severities) in *.
    set (high := existsb (String.eqb "high") severities) in *.
    set (medium := existsb (String.eqb "medium") severities) in *.
    clearbody critical high medium. clear Hs.
    cbn [existsb] in *.
    destruct (String.eqb_spec level "critical") as [->|Hc];
      [|destruct (String.eqb_spec level "high") as [->|Hh];
        [|destruct (String.eqb_spec level "medium") as [->|Hm];
          [|destruct (String.eqb_spec level "clean") as [->|Hl]]]];
      cbn [String.eqb Ascii.eqb Bool.eqb orb andb negb] in E;
      destruct critical, high, medium;
      cbn [orb andb negb] in E; subst out;
      cbn [orb andb negb fst snd db_row scan_threats task_instance trace n_get n_save
           row_status row_threat_level row_storage_path
           status threat_level storage_path error_message threats_found scan_results
           String.eqb Ascii.eqb Bool.eqb];
      rewrite ?(proj2 (String.eqb_neq _ _) Hc), ?(proj2 (String.eqb_neq _ _) Hh),
        ?(proj2 (String.eqb_neq _ _) Hm), ?(proj2 (String.eqb_neq _ _) Hl);
      cbn [orb andb negb];
      repeat match goal with
             | |- _ /\ _ => split
             | |- ?x = ?x => reflexivity
             | |- ?x = ?x \/ _ => left; reflexivity
             end;
      try (right; split; [reflexivity|]; split; [congruence || discriminate|];
           split; reflexivity). }
  cbv zeta in *. destruct created.
  - destruct Htrue as (H0 & H1 & H2 & H3 & H4 & H5 & H6).
    repeat split; try assumption.
  - destruct Htrue as (_ & _ & _ & _ & _ & _ & H6).
    destruct scan_result. repeat split; auto.
Qed.

(** X19.  On an object whose threat level is outside the enumeration (such
    as the 'unknown' that [scan_file] stores, fetched from there), the
    handler replaces the level by the highest severity among the scan's
    threats when that is 'critical', 'high' or 'medium', and keeps it
    otherwise: threats of severity 'low' never replace it.  The row gets
    the new level when the handler changes it and stays as it is when not. *)
Theorem handler_on_level_outside_enumeration
    (scan_result : ScanResult) (st : sys_state) :
  level_rank (threat_level scan_result) = None ->
  let out := update_scan_result_threat_level true scan_result st in
  let level := level_from_severities (threat_level scan_result) (scan_threats st) in
  threat_level (fst out) = level /\
  row_threat_level (db_row (snd out))
  = (if String.eqb level (threat_level scan_result)
     then row_threat_level (db_row st) else level).
Proof.
  destruct scan_result as [status0 level path0 err found results].
  destruct st as [[rstatus rlevel rpath] severities inst tr ng ns].
  unfold level_rank, update_scan_result_threat_level, level_from_severities,
    save_threat_level, set_threat_level, str_in.
  cbv [ThreatLevel.CLEAN ThreatLevel.CRITICAL ThreatLevel.HIGH ThreatLevel.MEDIUM
       ThreatLevel.LOW].
  cbv [db_row scan_threats task_instance trace n_get n_save
       row_status row_threat_level row_storage_path threat_level].
  set (critical := existsb (String.eqb "critical") severities).
  set (high := existsb (String.eqb "high") severities).
  set (medium := existsb (String.eqb "medium") severities).
  clearbody critical high medium.
  cbn [existsb].
  destruct (String.eqb_spec level "clean") as [|Hclean]; [discriminate|].
  destruct (String.eqb_spec level "low") as [|Hlow]; [discriminate|].
  destruct (String.eqb_spec level "medium") as [|Hmedium]; [discriminate|].
  destruct (String.eqb_spec level "high") as [|Hhigh]; [discriminate|].
  destruct (String.eqb_spec level "critical") as [|Hcritical]; [discriminate|].
  intros _. cbv zeta.
  destruct critical, high, medium; cbn [orb andb negb fst snd];
    rewrite ?String.eqb_refl;
    rewrite ?(proj2 (String.eqb_neq "critical" level)),
            ?(proj2 (String.eqb_neq "high" level)),
            ?(proj2 (String.eqb_neq "medium" level)) by congruence;
    split; reflexivity.
Qed.

Lemma handler_on_level_outside_enumeration_witness :
  threat_level
    (fst (update_scan_result_threat_level true
            (mkScanResult "completed" "unknown" (Some "/media/f.bin") None None None)
            (mkState (mkRow "completed" "unknown" (Some "/media/f.bin"))
                     ["low"] None [] 0 0)))
  = "unknown" /\
  row_threat_level
    (db_row
       (snd (update_scan_result_threat_level true
               (mkScanResult "completed" "unknown" (Some "/media/f.bin") None None None)
               (mkState (mkRow "completed" "unknown" (Some "/media/f.bin"))
                        ["low"; "medium"] None [] 0 0))))
  = "medium".
Proof.
  split.
  - exact (proj1 (handler_on_level_outside_enumeration
                    (mkScanResult "completed" "unknown" (Some "/media/f.bin")
                                  None None None)
                    (mkState (mkRow "completed" "unknown" (Some "/media/f.bin"))
                             ["low"] None [] 0 0) eq_refl)).
  - exact (proj2 (handler_on_level_outside_enumeration
                    (mkScanResult "completed" "unknown" (Some "/media/f.bin")
                                  None None None)
                    (mkState (mkRow "completed" "unknown" (Some "/media/f.bin"))
                             ["low"; "medium"] None [] 0 0) eq_refl)).
Defined.

Lemma level_rank_injective (l l' : string) (r : nat) :
  level_rank l = Some r -> level_rank l' = Some r -> l = l'.
Proof.
  intros H H'.
  destruct (level_rank_inv _ _ H) as [[-> ->]|[[-> ->]|[[-> ->]|[[-> ->]|[-> ->]]]]];
    destruct (level_rank_inv _ _ H') as [[-> E]|[[-> E]|[[-> E]|[[-> E]|[-> E]]]]];
    try reflexivity; discriminate.
Qed.

Lemma max_severity_rank_app (l l' : list string) :
  max_severity_rank (l ++ l') = Nat.max (max_severity_rank l) (max_severity_rank l').
Proof.
  unfold max_severity_rank.
  induction l as [|s l IH]; simpl; [reflexivity|].
  rewrite IH. lia.
Qed.

Lemma max_severity_rank_same_members (l l' : list string) :
  (forall s, In s l <-> In s l') -> max_severity_rank l = max_severity_rank l'.
Proof.
  intros H. rewrite !max_severity_rank_by_membership.
  assert (Hin : forall s, str_in s l = str_in s l').
  { intros s. unfold str_in. apply eq_true_iff_eq.
    rewrite !existsb_exists. split; intros (x & Hx & E); exists x; (split; [|exact E]);
      apply H; exact Hx. }
  rewrite !Hin. reflexivity.
Qed.

Lemma synced_creations_rank (ops : list op) (st : sys_state) (r : nat) :
  level_rank (row_threat_level (db_row st)) = Some r ->
  ops <> [] ->
  synced_creations ops st ->
  level_rank (row_threat_level (db_row (run ops st)))
  = Some (Nat.max r (Nat.max 1 (max_severity_rank
                                  (scan_threats st ++ added_severities ops)))).
Proof.
  revert st r.
  induction ops as [|[scan_result s|w retries scan_id] l IH];
    intros st0 r0 Hr Hne Hsynced; [contradiction| |contradiction].
  destruct Hsynced as [Hsync Hrest].
  cbn [run fold_left]. fold (run l (step (AddThreat scan_result s) st0)).
  pose proof (ScanThreat_objects_create_rank scan_result s st0 r0 Hr Hsync) as H1.
  destruct l as [|o l].
  - exact H1.
  - change (step (AddThreat scan_result s) st0)
      with (snd (ScanThreat_objects_create scan_result s st0)) in *.
    rewrite (IH _ _ H1) by (discriminate || exact Hrest).
    unfold ScanThreat_objects_create.
    rewrite handler_keeps_threats. cbn [scan_threats].
    change (added_severities (AddThreat scan_result s :: o :: l))
      with (s :: added_severities (o :: l)).
    generalize (added_severities (o :: l)). intros tail.
    rewrite <- app_assoc. cbn [app].
    rewrite !max_severity_rank_app.
    change (max_severity_rank (s :: tail))
      with (Nat.max (rank_or_zero s) (max_severity_rank tail)).
    change (max_severity_rank [s]) with (Nat.max (rank_or_zero s) 0).
    f_equal. lia.
Qed.

(** X20.  After a non-empty sequence of threat creations on a scan whose
    level is in the enumeration, each made with an object that carries the
    level stored at that moment, the stored level is the greatest of the
    level before, 'low', and the severities of all the scan's threats; it
    does not depend on the order in which the threats were added, nor on
    how often a severity occurs. *)
Theorem threat_level_after_threats
    (ops ops' : list op) (st : sys_state) (r : nat) :
  level_rank (row_threat_level (db_row st)) = Some r ->
  ops <> [] -> synced_creations ops st ->
  ops' <> [] -> synced_creations ops' st ->
  (forall s, In s (added_severities ops) <-> In s (added_severities ops')) ->
  level_rank (row_threat_level (db_row (run ops st)))
  = Some (Nat.max r (Nat.max 1 (max_severity_rank
                                  (scan_threats st ++ added_severities ops)))) /\
  row_threat_level (db_row (run ops st)) = row_threat_level (db_row (run ops' st)).
Proof.
  intros Hr Hne Hsynced Hne' Hsynced' Hsame.
  split; [apply synced_creations_rank; assumption|].
  apply (level_rank_injective _ _
           (Nat.max r (Nat.max 1 (max_severity_rank
                                    (scan_threats st ++ added_severities ops))))).
  - apply synced_creations_rank; assumption.
  - rewrite (synced_creations_rank ops' st r Hr Hne' Hsynced'). do 3 f_equal.
    rewrite !max_severity_rank_app.
    rewrite (max_severity_rank_same_members _ _ Hsame). reflexivity.
Qed.

(** Witness of [threat_level_after_threats]: a caller that fetches the scan
    before each creation, adding 'high' then 'low', and another one adding
    'low', 'high', 'low'. *)
Lemma threat_level_after_threats_witness :
  let st := uploaded "/media/f.bin" in
  let clean := fetched st in
  let low := set_threat_level clean "low" in
  let high := set_threat_level clean "high" in
  level_rank
    (row_threat_level (db_row (run [AddThreat clean "high"; AddThreat high "low"] st)))
  = Some 3 /\
  row_threat_level (db_row (run [AddThreat clean "high"; AddThreat high "low"] st))
  = row_threat_level
      (db_row (run [AddThreat clean "low"; AddThreat low "high"; AddThreat high "low"]
                   st)).
Proof.
  intros st clean low high.
  refine (threat_level_after_threats
            [AddThreat clean "high"; AddThreat high "low"]
            [AddThreat clean "low"; AddThreat low "high"; AddThreat high "low"]
            st 0 eq_refl _ _ _ _ _).
  - discriminate.
  - simpl. repeat split.
  - discriminate.
  - simpl. repeat split.
  - intros s. simpl. tauto.
Defined.

(** ** The exception handler: exceptions of the framework *)

(** X21.  For an exception that is not the application's own, the handler
    never raises, whatever the logger's handlers are, and returns no response
    only for an exception that neither Django nor the REST framework maps to
    one.  Otherwise the body is [{error: {message, code, details}}] (without
    a 'timestamp'), 'details' is a dict, and the status is 400 for a Django
    validation error and an integrity error, 500 for another database error,
    404 for Http404, 403 for PermissionDenied, and the framework's own status
    for an APIException, with the code [get_error_code] gives for it. *)
Theorem framework_exception_response
    (py_str : pyval -> string) (h : Exceptions.logger_handlers)
    (exc : Exceptions.exception) :
  (forall e, exc <> Exceptions.TdException e) ->
  match framework_status exc with
  | None => Exceptions.custom_exception_handler py_str h exc = Ok None
  | Some code =>
    exists msg error_code details,
      Exceptions.custom_exception_handler py_str h exc
      = Ok (Some (Exceptions.mkResponse
                    (PDict [("error",
                             PDict [("message", PStr msg);
                                    ("code", PStr error_code);
                                    ("details", details)])])
                    code)) /\
      is_dict details = true /\
      (match exc with
       | Exceptions.APIException _ _ | Exceptions.PermissionDenied _ =>
         error_code = Exceptions.get_error_code code
       | _ => True
       end)
  end.
Proof.
  intros Hplain.
  destruct exc as [e|messages|m|m|m|m|code detail|m]; simpl.
  - now contradiction (Hplain e).
  - do 3 eexists. split; [reflexivity|]. split; [reflexivity | exact I].
  - do 3 eexists. split; [reflexivity|]. split; [reflexivity | exact I].
  - do 3 eexists. split; [reflexivity|]. split; [reflexivity | exact I].
  - do 3 eexists. split; [reflexivity|]. split; [reflexivity | exact I].
  - do 3 eexists. split; [reflexivity|]. split; reflexivity.
  - do 3 eexists. split; [reflexivity|]. split; [|reflexivity].
    destruct detail; reflexivity.
  - reflexivity.
Qed.

Lemma framework_exception_response_witness :
  exists msg error_code details,
    Exceptions.custom_exception_handler (fun _ => "") Exceptions.FirstHandlerWithoutFormatter
      (Exceptions.PermissionDenied "no access")
    = Ok (Some (Exceptions.mkResponse
                  (PDict [("error",
                           PDict [("message", PStr msg);
                                  ("code", PStr error_code);
                                  ("details", details)])])
                  403)) /\
    is_dict details = true /\
    error_code = "FORBIDDEN".
Proof.
  refine (framework_exception_response (fun _ => "")
            Exceptions.FirstHandlerWithoutFormatter
            (Exceptions.PermissionDenied "no access") _).
  intros e. discriminate.
Defined.

(** ** Threat-level determination on the scanners' results *)

Lemma scanner_result_not_suspicious (r : pyval) :
  scanner_result r -> has_status r "suspicious" = false.
Proof.
  intros (st & msg & ths & -> & [[-> Hst]|[_ ->]]); [|reflexivity].
  unfold has_status, status_is. cbn.
  destruct (String.eqb_spec st "suspicious") as [->|]; [discriminate Hst | reflexivity].
Qed.

(** X23.  On the results the two scanners of the module return, the
    two-engine [determine_threat_level] never looks at YARA's findings:
    [scan_with_yara] has no status 'suspicious', so the level is 'unknown'
    when both engines report an error, 'high' when ClamAV's status is
    'infected', and 'clean' in every other case, also when YARA reports
    threats.  It is never 'low' or 'medium'. *)
Theorem determine_threat_level_ignores_yara_findings (w : world) (file_path : string) :
  exists clamav_result yara_result,
    scan_with_clamav w file_path = Ok clamav_result /\
    scan_with_yara w file_path = Ok yara_result /\
    determine_threat_level clamav_result yara_result
    = Ok (if has_status clamav_result "error" && has_status yara_result "error"
          then "unknown"
          else if has_status clamav_result "infected" then "high" else "clean").
Proof.
  destruct (scan_with_clamav_returns w file_path) as (c & Hc & Sc).
  destruct (scan_with_yara_returns w file_path) as (y & Hy & Sy).
  exists c, y. split; [exact Hc|]. split; [exact Hy|].
  pose proof (scanner_result_not_suspicious y Sy) as Hsus.
  destruct Sc as (sc & mc & tc & -> & _). destruct Sy as (sy & my & ty & -> & _).
  revert Hsus.
  unfold determine_threat_level, has_status, status_is, and_then. simpl.
  destruct (String.eqb sc "error"); simpl;
    try (destruct (String.eqb sy "error"); simpl);
    destruct (String.eqb sc "infected"); simpl; try reflexivity;
    intros ->; reflexivity.
Qed.

(** X24.  Further VirusTotal findings never lower the level that
    [determine_threat_level_with_virustotal] returns: for well-formed engine
    results, the level for the findings [v ++ v'] is at least the level for
    [v] in clean < low < medium < high, unless the level for [v] is
    'unknown' (both engines in error and no finding at all). *)
Theorem more_virustotal_findings_never_lower_level
    (clamav_result yara_result : pyval) (v v' : list pyval) :
  engine_result_ok clamav_result = true ->
  engine_result_ok yara_result = true ->
  forallb is_dict v = true ->
  forallb is_dict v' = true ->
  exists level level',
    determine_threat_level_with_virustotal clamav_result yara_result (PList v)
    = Ok level /\
    determine_threat_level_with_virustotal clamav_result yara_result (PList (v ++ v'))
    = Ok level' /\
    (level = "unknown" \/
     exists r r', level_rank level = Some r /\ level_rank level' = Some r' /\ r <= r').
Proof.
  intros Hc Hy Hv Hv'.
  rewrite (determine_threat_level_with_virustotal_eq _ _ v Hc Hy Hv).
  rewrite (determine_threat_level_with_virustotal_eq _ _ (v ++ v') Hc Hy)
    by (rewrite forallb_app, Hv, Hv'; reflexivity).
  do 2 eexists. split; [reflexivity|]. split; [reflexivity|].
  unfold level_of_counts. rewrite existsb_app, filter_app, !length_app.
  pose proof (filter_none_high v) as Hn. pose proof (filter_some_high v) as Hs.
  pose proof (filter_none_high v') as Hn'. pose proof (filter_some_high v') as Hs'.
  destruct (existsb high_severity v);
    [specialize (Hs eq_refl); clear Hn | rewrite (Hn eq_refl) in *; clear Hn Hs];
    (destruct (existsb high_severity v');
     [specialize (Hs' eq_refl); clear Hn' | rewrite (Hn' eq_refl) in *; clear Hn' Hs']);
    cbn [orb List.length];
    generalize dependent (List.length (filter high_severity v));
    generalize dependent (List.length (filter high_severity v'));
    generalize (List.length (filter high_severity (findings yara_result)));
    generalize (List.length (findings clamav_result));
    generalize (List.length (findings yara_result));
    generalize (List.length v); generalize (List.length v');
    intros; 
    destruct (has_status clamav_result "error"), (has_status yara_result "error"),
             (has_status clamav_result "infected"); cbn [andb orb];
    repeat match goal with
           | |- context [Nat.eqb ?a ?b] => destruct (Nat.eqb_spec a b)
           | |- context [Nat.leb ?a ?b] => destruct (Nat.leb_spec a b)
           | |- context [Nat.ltb ?a ?b] => destruct (Nat.ltb_spec a b)
           end;
    try (left; reflexivity);
    try (exfalso; lia);
    right; do 2 eexists; (split; [reflexivity|]); (split; [reflexivity|]); lia.
Qed.

Lemma more_virustotal_findings_never_lower_level_witness :
  exists level level',
    determine_threat_level_with_virustotal
      (mk_result "clean" "No threats detected by ClamAV" [])
      (mk_result "clean" "No YARA rules available for scanning" [])
      (PList [PDict [("severity", PStr "medium")]])
    = Ok level /\
    determine_threat_level_with_virustotal
      (mk_result "clean" "No threats detected by ClamAV" [])
      (mk_result "clean" "No YARA rules available for scanning" [])
      (PList ([PDict [("severity", PStr "medium")]]
              ++ [PDict [("severity", PStr "medium")]]))
    = Ok level' /\
    (level = "unknown" \/
     exists r r', level_rank level = Some r /\ level_rank level' = Some r' /\ r <= r').
Proof.
  apply (more_virustotal_findings_never_lower_level
           (mk_result "clean" "No threats detected by ClamAV" [])
           (mk_result "clean" "No YARA rules available for scanning" [])
           [PDict [("severity", PStr "medium")]]
           [PDict [("severity", PStr "medium")]]); reflexivity.
Defined.

(** ** The views behind the exception handler *)

(** X25.  The views [threats] and [status] answer every failure of their
    body with status 500: once the request has passed [initial], whatever
    is raised inside the view (also the Http404 of a scan that does not
    exist or belongs to another user, and a PermissionDenied), the client
    gets the ScannerException's response, with the code
    THREATS_RETRIEVAL_ERROR or STATUS_RETRIEVAL_ERROR and the scan id as
    details, never a 404 or 403. *)
Theorem scan_views_answer_500_on_any_failure
    (py_str : pyval -> string) (h : Exceptions.logger_handlers)
    (exc : Exceptions.exception) (pk : pyval) :
  h <> Exceptions.FirstHandlerWithoutFormatter ->
  let threats :=
    Views.dispatch py_str h (Views.Returns tt) (Views.threats (Views.Raises exc) pk) in
  let status :=
    Views.dispatch py_str h (Views.Returns tt) (Views.status (Views.Raises exc) pk) in
  response_status threats = 500%Z /\
  error_field "code" threats = Some (PStr "THREATS_RETRIEVAL_ERROR") /\
  error_field "details" threats = Some (PDict [("scan_id", pk)]) /\
  response_status status = 500%Z /\
  error_field "code" status = Some (PStr "STATUS_RETRIEVAL_ERROR") /\
  error_field "details" status = Some (PDict [("scan_id", pk)]).
Proof.
  intros Hh. cbv zeta.
  destruct h as [|t|]; [| |contradiction]; repeat split.
Qed.

Lemma scan_views_answer_500_on_any_failure_witness :
  response_status
    (Views.dispatch (fun _ => "") Exceptions.NoHandlers (Views.Returns tt)
       (Views.threats
          (Views.Raises (Exceptions.Http404 "No ScanResult matches the given query."))
          (PStr "7f1c")))
  = 500%Z.
Proof.
  refine (proj1 (scan_views_answer_500_on_any_failure (fun _ => "")
                   Exceptions.NoHandlers
                   (Exceptions.Http404 "No ScanResult matches the given query.")
                   (PStr "7f1c") _)).
  discriminate.
Defined.

(** X26.  The view [report] behind [initial], for a request that passes the
    checks after content negotiation.  A [format] parameter that is not
    empty and names no renderer ('pdf' and 'xml' among them, the renderers
    being 'json' and 'api') is answered with 404 and NOT_FOUND before the
    view runs.  Otherwise the view runs: when [get_object] fails (a scan
    that does not exist, say), the [except] clause itself fails on the
    unbound [report_format], and the handler has no response for that
    exception, so the client gets no structured error at all; a format
    other than 'pdf' and 'json' (the empty one, 'api') is answered with 400
    and INVALID_REPORT_FORMAT; a failure of the report generator with 500
    and REPORT_GENERATION_ERROR; a generated report with 200. *)
Theorem report_view_responses
    (py_str : pyval -> string) (h : Exceptions.logger_handlers)
    (format : option string) (generate : string -> Views.outcome pyval) (pk : pyval) :
  h <> Exceptions.FirstHandlerWithoutFormatter ->
  let answer get_object :=
    Views.dispatch py_str h (Views.initial format (Views.Returns tt))
                   (Views.report get_object format generate pk) in
  let report_format := lower (match format with Some f => f | None => "pdf" end) in
  (forall f get_object,
     format = Some f -> f <> "" -> str_in f Views.renderer_formats = false ->
     response_status (answer get_object) = 404%Z /\
     error_field "code" (answer get_object) = Some (PStr "NOT_FOUND")) /\
  (Views.initial format (Views.Returns tt) = Views.Returns tt ->
   (forall exc,
      Views.is_validation_exception exc = false ->
      answer (Views.Raises exc) = Ok None) /\
   (str_in report_format ["pdf"; "json"] = false ->
    response_status (answer (Views.Returns tt)) = 400%Z /\
    error_field "code" (answer (Views.Returns tt))
    = Some (PStr "INVALID_REPORT_FORMAT")) /\
   (str_in report_format ["pdf"; "json"] = true ->
    forall exc,
      generate report_format = Views.Raises exc ->
      Views.is_validation_exception exc = false ->
      response_status (answer (Views.Returns tt)) = 500%Z /\
      error_field "code" (answer (Views.Returns tt))
      = Some (PStr "REPORT_GENERATION_ERROR")) /\
   (str_in report_format ["pdf"; "json"] = true ->
    forall content,
      generate report_format = Views.Returns content ->
      answer (Views.Returns tt) = Ok (Some (Exceptions.mkResponse content 200)))) /\
  (Views.initial (Some "pdf") (Views.Returns tt) <> Views.Returns tt /\
   Views.initial (Some "xml") (Views.Returns tt) <> Views.Returns tt /\
   Views.initial (Some "json") (Views.Returns tt) = Views.Returns tt /\
   Views.initial (Some "api") (Views.Returns tt) = Views.Returns tt /\
   Views.initial (Some "") (Views.Returns tt) = Views.Returns tt /\
   Views.initial None (Views.Returns tt) = Views.Returns tt).
Proof.
  intros Hh answer report_format. split; [|split].
  - intros f get_object -> Hf Hnone. unfold answer, Views.initial.
    rewrite Hnone. rewrite (proj2 (String.eqb_neq f "") Hf). cbn [negb andb].
    destruct h as [|t|]; [| |contradiction]; split; reflexivity.
  - intros Hin. unfold answer. rewrite Hin. cbn [Views.dispatch].
    split; [|split; [|split]].
    + intros exc Hexc. unfold Views.report. rewrite Hexc. reflexivity.
    + intros Hfmt. unfold Views.report. fold report_format. rewrite Hfmt.
      destruct h as [|t|]; [| |contradiction]; split; reflexivity.
    + intros Hfmt exc Hgen Hexc. unfold Views.report. fold report_format.
      rewrite Hfmt, Hgen, Hexc.
      destruct h as [|t|]; [| |contradiction]; split; reflexivity.
    + intros Hfmt content Hgen. unfold Views.report. fold report_format.
      rewrite Hfmt, Hgen. reflexivity.
  - repeat split; discriminate.
Qed.

Lemma report_view_responses_witness :
  Views.dispatch (fun _ => "") Exceptions.NoHandlers
    (Views.initial (Some "json") (Views.Returns tt))
    (Views.report
       (Views.Raises (Exceptions.Http404 "No ScanResult matches the given query."))
       (Some "json") (fun _ => Views.Returns (PStr "{}")) (PStr "7f1c"))
  = Ok None /\
  response_status
    (Views.dispatch (fun _ => "") Exceptions.NoHandlers
       (Views.initial (Some "pdf") (Views.Returns tt))
       (Views.report (Views.Returns tt) (Some "pdf")
                     (fun _ => Views.Returns (PStr "%PDF")) (PStr "7f1c")))
  = 404%Z.
Proof.
  split.
  - refine (proj1 (proj1 (proj2
              (report_view_responses (fun _ => "") Exceptions.NoHandlers
                 (Some "json") (fun _ => Views.Returns (PStr "{}")) (PStr "7f1c") _))
              eq_refl)
              (Exceptions.Http404 "No ScanResult matches the given query.") eq_refl).
    discriminate.
  - refine (proj1 (proj1
              (report_view_responses (fun _ => "") Exceptions.NoHandlers
                 (Some "pdf") (fun _ => Views.Returns (PStr "%PDF")) (PStr "7f1c") _)
              "pdf" (Views.Returns tt) eq_refl _ eq_refl)).
    + discriminate.
    + discriminate.
Defined.

(** X27.  [FileUploadView.create] behind its rate limit, for a request that
    has passed [initial], is answered with 201, 400, 403 or 500.  It is
    answered with 403 exactly when the user is over the limit of ten
    uploads an hour, and with 400 exactly when, within the limit, the
    serializer rejects the upload (without raising); in both cases nothing
    has been written.  It is answered with 201 exactly when the scan task
    was queued.  Every other failure gives 500 with the message 'File upload
    failed' (the cause only in the details); when it happens after the
    ScanResult was created, at saving the file, saving the row or queueing
    the task, the row stays behind and no scan is started for it. *)
Theorem upload_outcome
    (py_str : pyval -> string) (h : Exceptions.logger_handlers) (u : Views.upload) :
  h <> Exceptions.FirstHandlerWithoutFormatter ->
  let answer :=
    Views.dispatch py_str h (Views.Returns tt) (fst (Views.create u)) in
  let effects := snd (Views.create u) in
  (response_status answer = 201%Z \/ response_status answer = 400%Z
   \/ response_status answer = 403%Z \/ response_status answer = 500%Z) /\
  (response_status answer = 201%Z <-> In Views.TaskQueued effects) /\
  (response_status answer = 403%Z <-> Views.ratelimited u = true) /\
  (response_status answer = 400%Z
   <-> Views.ratelimited u = false /\ Views.is_valid_fails u = None
       /\ Views.serializer_errors u <> None) /\
  (response_status answer = 400%Z \/ response_status answer = 403%Z ->
   effects = []) /\
  (response_status answer = 500%Z ->
   error_field "message" answer = Some (PStr "File upload failed") /\
   error_field "code" answer = Some (PStr "UNKNOWN_ERROR")) /\
  (Views.ratelimited u = false ->
   Views.is_valid_fails u = None -> Views.serializer_errors u = None ->
   Views.chunks_fail u = None -> Views.create_fails u = None ->
   Views.save_file_fails u <> None \/ Views.save_fails u <> None
   \/ Views.delay_fails u <> None ->
   response_status answer = 500%Z /\
   In Views.RowCreated effects /\ ~ In Views.TaskQueued effects).
Proof.
  intros Hh. cbv zeta. unfold Views.create, Views.upload_failed.
  destruct u as [limited valid errors chunks create save_file save delay scan task].
  cbn [Views.ratelimited Views.is_valid_fails Views.serializer_errors
       Views.chunks_fail Views.create_fails
       Views.save_file_fails Views.save_fails Views.delay_fails
       Views.scan_id Views.task_id].
  destruct h as [|t|]; [| |contradiction];
    destruct limited, valid, errors, chunks, create, save_file, save, delay; cbn;
    repeat match goal with
           | |- _ /\ _ => split
           | |- _ <-> _ => split
           | |- _ -> _ => intro
           end;
    try reflexivity; try discriminate; try congruence; try tauto; try lia;
    intuition (try discriminate; try congruence; auto).
Qed.

Lemma upload_outcome_witness :
  response_status
    (Views.dispatch (fun _ => "") Exceptions.NoHandlers (Views.Returns tt)
       (fst (Views.create
               (Views.mkUpload false None None None None
                               (Some "No space left on device")
                               None None (PStr "7f1c") (PStr "a2")))))
  = 500%Z /\
  In Views.RowCreated
     (snd (Views.create
             (Views.mkUpload false None None None None
                             (Some "No space left on device")
                             None None (PStr "7f1c") (PStr "a2")))) /\
  ~ In Views.TaskQueued
       (snd (Views.create
               (Views.mkUpload false None None None None
                               (Some "No space left on device")
                               None None (PStr "7f1c") (PStr "a2")))).
Proof.
  refine (proj2 (proj2 (proj2 (proj2 (proj2 (proj2
            (upload_outcome (fun _ => "") Exceptions.NoHandlers
               (Views.mkUpload false None None None None
                               (Some "No space left on device")
                               None None (PStr "7f1c") (PStr "a2")) _))))))
            eq_refl eq_refl eq_refl eq_refl eq_refl _).
  - discriminate.
  - left. discriminate.
Defined.

(** ** The receiver of ScanResult after a scan *)

(** X28.  Every scan that completes is announced as a threat: the object
    [scan_file] saves at completion makes [notify_scan_completion] send a
    threat-map update (and the threat e-mail, for a user with security
    alerts on), also when no engine found anything, because the level saved
    is 'high' or 'unknown' and never 'clean'; the update carries the number
    of ScanThreat rows, which the scan has not changed. *)
Theorem completed_scan_is_announced_as_threat
    (w : world) (retries : nat) (scan_id : string) (st : sys_state)
    (file_path : string) (k : nat) (c : pyval) (notify_security_alerts : bool) :
  fetched_at w st k ->
  (forall n, db_save_fails w n = None) ->
  row_storage_path (db_row st) = Some file_path ->
  path_exists w file_path = true ->
  path_readable w file_path = true ->
  scan_with_clamav w file_path = Ok c ->
  let after := snd (scan_file w retries scan_id st) in
  exists instance,
    task_instance after = Some instance /\
    notify_scan_completion notify_security_alerts (List.length (scan_threats after))
                           instance false
    = ((if notify_security_alerts then [ThreatEmail] else [])
       ++ [ThreatMapUpdate (if has_status c "infected" then "high" else "unknown")
                           (List.length (scan_threats st))])%list.
Proof.
  intros Hf Hsave Hpath Hex Hrd Hclam after. subst after.
  destruct (scan_with_yara_returns w file_path) as (y & Hy & _).
  rewrite (scan_file_completes w retries scan_id st file_path k c y
             Hf Hsave Hpath Hex Hrd Hclam Hy).
  state_simpl. eexists. split; [reflexivity|].
  unfold notify_scan_completion, scan_file_verdict. cbn [status threat_level].
  destruct (has_status c "infected"), notify_security_alerts; reflexivity.
Qed.

Lemma completed_scan_is_announced_as_threat_witness :
  exists instance,
    task_instance
      (snd (scan_file (calm_world ScanNone) 0 "scan-1" (uploaded "/media/f.bin")))
    = Some instance /\
    notify_scan_completion true
      (List.length
         (scan_threats
            (snd (scan_file (calm_world ScanNone) 0 "scan-1" (uploaded "/media/f.bin")))))
      instance false
    = [ThreatEmail; ThreatMapUpdate "unknown" 0].
Proof.
  refine (completed_scan_is_announced_as_threat
            (calm_world ScanNone) 0 "scan-1" (uploaded "/media/f.bin") "/media/f.bin" 0
            (mk_result "clean" "No threats detected by ClamAV" []) true
            _ _ eq_refl eq_refl eq_refl eq_refl).
  - split; [unfold max_db_retries; lia|]. split; [reflexivity|].
    intros j Hj. lia.
  - intros n. reflexivity.
Defined.

(** ** Status updates *)

(** X29.  [send_scan_status_update] publishes at most once, to the group
    'scan_<id>', and exactly when one of its three attempts succeeds after
    earlier attempts that failed with something other than an ImportError;
    a missing channel layer or an ImportError ends it at once.  Between
    failed attempts it sleeps 1 s, then 2 s, so never more than 3 s in all,
    and nothing follows the publication. *)
Theorem status_update_is_published_at_most_once
    (channel : nat -> channel_attempt) (scan_id status message : string) :
  let events := send_scan_status_update_events channel scan_id status message in
  (In (GroupSend ("scan_" ++ scan_id) scan_id status message) events
   <-> exists attempt, retried_until channel attempt /\ channel attempt = GroupSent) /\
  (List.length (filter is_group_send events) <= 1)%nat /\
  (slept events <= 3)%nat /\
  (exists sleeps,
     (sleeps = [] \/ sleeps = [WsSleep 1] \/ sleeps = [WsSleep 1; WsSleep 2]) /\
     (events = sleeps
      \/ events = (sleeps ++ [GroupSend ("scan_" ++ scan_id) scan_id status message])%list)).
Proof.
  cbv zeta. unfold send_scan_status_update_events, max_retries. simpl.
  assert (H0 : retried_until channel 0).
  { split; [unfold max_retries; lia | intros j Hj; lia]. }
  destruct (channel 0) as [| |e0] eqn:E0.
  - split; [|split; [simpl; lia|split; [simpl; lia|]]].
    + split; [intros []|]. intros (attempt & (Hlt & Hbefore) & Hsent).
      destruct attempt as [|attempt]; [congruence|].
      destruct (Hbefore 0) as (e & He & _); [lia | congruence].
    + exists []. split; [now left | now left].
  - split; [|split; [simpl; lia|split; [simpl; lia|]]].
    + split; [intros _; exists 0; split; assumption | intros _; now left].
    + exists []. split; [now left | now right].
  - destruct (subclass (exn_class e0) ImportError) eqn:I0.
    + split; [|split; [simpl; lia|split; [simpl; lia|]]].
      * split; [intros []|]. intros (attempt & (Hlt & Hbefore) & Hsent).
        destruct attempt as [|attempt]; [congruence|].
        destruct (Hbefore 0) as (e & He & Hi); [lia|].
        rewrite E0 in He. injection He as <-. congruence.
      * exists []. split; [now left | now left].
    + assert (H1 : retried_until channel 1).
      { split; [unfold max_retries; lia|]. intros j Hj.
        assert (j = 0) by lia. subst j. eauto. }
      destruct (channel 1) as [| |e1] eqn:E1.
      * split; [|split; [simpl; lia|split; [simpl; lia|]]].
        -- split; [intros [H|[]]; discriminate H|].
           intros (attempt & (Hlt & Hbefore) & Hsent).
           destruct attempt as [|[|attempt]]; [congruence | congruence |].
           destruct (Hbefore 1) as (e & He & _); [lia | congruence].
        -- exists [WsSleep 1]. split; [right; now left | now left].
      * split; [|split; [simpl; lia|split; [simpl; lia|]]].
        -- split; [intros _; exists 1; split; assumption | intros _; right; now left].
        -- exists [WsSleep 1]. split; [right; now left | now right].
      * destruct (subclass (exn_class e1) ImportError) eqn:I1.
        -- split; [|split; [simpl; lia|split; [simpl; lia|]]].
           ++ split; [intros [H|[]]; discriminate H|].
              intros (attempt & (Hlt & Hbefore) & Hsent).
              destruct attempt as [|[|attempt]]; [congruence | congruence |].
              destruct (Hbefore 1) as (e & He & Hi); [lia|].
              rewrite E1 in He. injection He as <-. congruence.
           ++ exists [WsSleep 1]. split; [right; now left | now left].
        -- assert (H2 : retried_until channel 2).
           { split; [unfold max_retries; lia|]. intros j Hj.
             assert (j = 0 \/ j = 1) as [->| ->] by lia; eauto. }
           destruct (channel 2) as [| |e2] eqn:E2.
           ++ split; [|split; [simpl; lia|split; [simpl; lia|]]].
              ** split; [intros [H|[H|[]]]; discriminate H|].
                 intros (attempt & (Hlt & Hbefore) & Hsent).
                 unfold max_retries in Hlt.
                 destruct attempt as [|[|[|attempt]]]; try congruence. lia.
              ** exists [WsSleep 1; WsSleep 2]. split; [right; now right | now left].
           ++ split; [|split; [simpl; lia|split; [simpl; lia|]]].
              ** split; [intros _; exists 2; split; assumption|].
                 intros _. right. right. now left.
              ** exists [WsSleep 1; WsSleep 2]. split; [right; now right | now right].
           ++ assert (Hev : (if subclass (exn_class e2) ImportError
                             then @nil ws_event else []) = []).
              { destruct (subclass (exn_class e2) ImportError); reflexivity. }
              rewrite Hev.
              split; [|split; [simpl; lia|split; [simpl; lia|]]].
              ** split; [intros [H|[H|[]]]; discriminate H|].
                 intros (attempt & (Hlt & Hbefore) & Hsent).
                 unfold max_retries in Hlt.
                 destruct attempt as [|[|[|attempt]]]; try congruence. lia.
              ** exists [WsSleep 1; WsSleep 2]. split; [right; now right | now left].
Qed.

(** ** Cleaning up old scans *)

Lemma remove_files_spec (remove_fails : string -> option exn)
    (old_scans : list stored_scan) (files : list string) (deleted_files : nat) :
  let out := remove_files remove_fails old_scans files deleted_files in
  (forall path, In path (snd out) -> In path files) /\
  (forall path, In path files ->
     (forall scan, In scan old_scans -> scan_storage_path scan <> Some path) ->
     In path (snd out)) /\
  match fst out with
  | Ok n => (deleted_files <= n <= deleted_files + List.length old_scans)%nat
  | Raise e => subclass (exn_class e) OSError = false
  end.
Proof.
  cbv zeta. revert files deleted_files.
  induction old_scans as [|scan rest IH]; intros files deleted_files; simpl.
  - split; [auto|]. split; [auto | lia].
  - assert (Hskip :
      (forall path,
         In path (snd (remove_files remove_fails rest files deleted_files)) ->
         In path files) /\
      (forall path, In path files ->
         (forall scan0, scan = scan0 \/ In scan0 rest ->
                        scan_storage_path scan0 <> Some path) ->
         In path (snd (remove_files remove_fails rest files deleted_files))) /\
      match fst (remove_files remove_fails rest files deleted_files) with
      | Ok n => (deleted_files <= n <= deleted_files + S (List.length rest))%nat
      | Raise e => subclass (exn_class e) OSError = false
      end).
    { destruct (IH files deleted_files) as (H1 & H2 & H3).
      split; [exact H1|]. split.
      - intros path Hin Hnot. apply H2; [exact Hin|]. intros s Hs. apply Hnot. now right.
      - destruct (fst (remove_files remove_fails rest files deleted_files));
          [lia | exact H3]. }
    destruct (scan_storage_path scan) as [path0|] eqn:Hpath; [|exact Hskip].
    destruct (negb (String.eqb path0 "") && file_exists files path0); [|exact Hskip].
    destruct (remove_fails path0) as [e|].
    + destruct (subclass (exn_class e) OSError) eqn:Hos; [exact Hskip|].
      simpl. split; [auto|]. split; [auto | exact Hos].
    + destruct (IH (filter (fun f => negb (String.eqb path0 f)) files)
                   (S deleted_files)) as (H1 & H2 & H3).
      split; [|split].
      * intros path Hin. apply H1 in Hin. apply filter_In in Hin. tauto.
      * intros path Hin Hnot. apply H2.
        -- apply filter_In. split; [exact Hin|].
           destruct (String.eqb_spec path0 path) as [->|]; [|reflexivity].
           exfalso. apply (Hnot scan); [now left | exact Hpath].
        -- intros s Hs. apply Hnot. now right.
      * destruct (fst (remove_files remove_fails rest _ (S deleted_files)));
          [lia | exact H3].
Qed.

(** X30.  [cleanup_old_files] only ever removes files, and only files that
    an old scan (uploaded before the cutoff) points to: every other file
    stays.  When it returns, exactly the old scans are gone from the table,
    [deleted_scans] is their number and [deleted_files] is at most that;
    the record of an old scan is deleted also when its file could not be
    removed.  When an [os.remove] raises something other than an OSError,
    the task raises it again and no record is deleted, though files removed
    before stay removed. *)
Theorem cleanup_only_touches_old_scans
    (remove_fails : string -> option exn) (cutoff_date : Z) (s : storage) :
  let out := cleanup_old_files remove_fails cutoff_date s in
  (forall path, In path (stored_files (snd out)) -> In path (stored_files s)) /\
  (forall path, In path (stored_files s) ->
     (forall scan, In scan (stored_scans s) -> is_old cutoff_date scan = true ->
                   scan_storage_path scan <> Some path) ->
     In path (stored_files (snd out))) /\
  match fst out with
  | Ok (deleted_scans, deleted_files) =>
    stored_scans (snd out)
    = filter (fun scan => negb (is_old cutoff_date scan)) (stored_scans s) /\
    deleted_scans = List.length (filter (is_old cutoff_date) (stored_scans s)) /\
    (deleted_files <= deleted_scans)%nat /\
    (List.length (stored_scans (snd out)) + deleted_scans
     = List.length (stored_scans s))%nat
  | Raise e =>
    stored_scans (snd out) = stored_scans s /\
    subclass (exn_class e) OSError = false
  end.
Proof.
  cbv zeta. unfold cleanup_old_files.
  pose proof (remove_files_spec remove_fails
                (filter (is_old cutoff_date) (stored_scans s)) (stored_files s) 0)
    as (H1 & H2 & H3).
  destruct (remove_files remove_fails (filter (is_old cutoff_date) (stored_scans s))
              (stored_files s) 0) as [[deleted_files|e] files]; simpl in *.
  - split; [exact H1|]. split.
    + intros path Hin Hnot. apply H2; [exact Hin|].
      intros scan Hscan. apply filter_In in Hscan as [Hs Hold]. now apply Hnot.
    + split; [reflexivity|]. split; [reflexivity|]. split; [lia|].
      clear. induction (stored_scans s) as [|scan l IH]; simpl; [reflexivity|].
      destruct (is_old cutoff_date scan); simpl; lia.
  - split; [exact H1|]. split.
    + intros path Hin Hnot. apply H2; [exact Hin|].
      intros scan Hscan. apply filter_In in Hscan as [Hs Hold]. now apply Hnot.
    + split; [reflexivity | exact H3].
Qed.
